(** * PyWaterBal: one-dimensional soil water balance (soilwater.py)

    A shallow embedding of [soilwater.py] and a verification of the
    properties its specification states.

    Numbers.  Python's [float] is idealised as a real number ([R]): every
    arithmetic operation is exact, and the only failures are the ones Python
    raises on real arguments ([ZeroDivisionError] for a division by zero or
    for [0.0 ** y] with [y < 0], [ValueError] for [math.log] of a
    non-positive number, [IndexError] for a list index out of range).
    Rounding, overflow, infinities and NaN are outside the model.

    Complex numbers.  [x ** y] with [x < 0] and a non-integral [y] is a
    complex number in Python 3; no exception is raised at the power itself,
    and the next comparison, [min], [max] or [math.log] that meets the
    complex value raises [TypeError].  The model raises [TypeError] at the
    power.

    Objects.  The layers of a model are Python objects chained by
    [prev]/[next]; [SoilWater.__init__] chains the layer at position [i] to
    the layers at positions [i-1] and [i+1] of [self.layers], so the
    embedding keeps the list and reads [cur.prev] and [cur.next] by position
    in the current list (the aliasing is kept: a neighbour read through
    [prev] is the neighbour as last written). *)

From Stdlib Require Import Reals Lra Lia List ZArith Bool.
From Stdlib Require String.
Import ListNotations.
Open Scope R_scope.

(** ** Exceptions *)

Inductive PyError : Type :=
| ZeroDivisionError
| ValueError
| IndexError
| TypeError.

Inductive result (A : Type) : Type :=
| Ok (a : A)
| Raise (e : PyError).

Arguments Ok {A} a.
Arguments Raise {A} e.

Definition bind {A B : Type} (c : result A) (f : A -> result B) : result B :=
  match c with
  | Ok a => f a
  | Raise e => Raise e
  end.

Notation "x <- c ;; f" := (bind c (fun x => f))
  (at level 61, c at next level, right associativity).
Notation "' pat <- c ;; f" := (bind c (fun x => match x with pat => f end))
  (at level 61, pat pattern, c at next level, right associativity).

Definition succeeds {A : Type} (c : result A) : Prop := exists a, c = Ok a.

(** ** Float operations *)

Definition Rltb (x y : R) : bool := if Rlt_dec x y then true else false.
Definition Rleb (x y : R) : bool := if Rle_dec x y then true else false.
Definition Reqb (x y : R) : bool := if Req_dec_T x y then true else false.

(** [max(a, b)] and [min(a, b)]: the second argument replaces the first only
    when it is strictly greater (smaller). *)
Definition py_max (a b : R) : R := if Rltb a b then b else a.
Definition py_min (a b : R) : R := if Rltb b a then b else a.

(** [x / y] *)
Definition truediv (x y : R) : result R :=
  if Reqb y 0 then Raise ZeroDivisionError else Ok (x / y).

(** [math.log(x)] *)
Definition math_log (x : R) : result R :=
  if Rltb 0 x then Ok (ln x) else Raise ValueError.

(** [x ** y] on floats *)
Definition float_pow (x y : R) : result R :=
  if Rltb 0 x then Ok (Rpower x y)
  else if Reqb x 0 then
    (if Rltb 0 y then Ok 0
     else if Reqb y 0 then Ok 1
     else Raise ZeroDivisionError)
  else
    (if Reqb (frac_part y) 0 then Ok (powerRZ x (Int_part y))
     else Raise TypeError).

(** [xs[i]] for [0 <= i] *)
Definition getitem {A : Type} (xs : list A) (i : nat) : result A :=
  match nth_error xs i with
  | Some x => Ok x
  | None => Raise IndexError
  end.

(** [xs[-1]] *)
Definition getlast {A : Type} (xs : list A) : result A :=
  match xs with
  | [] => Raise IndexError
  | _ => getitem xs (length xs - 1)
  end.

(** [xs[i] = v] for an index in range; the callers read [xs[i]] first. *)
Fixpoint setitem {A : Type} (xs : list A) (i : nat) (v : A) : list A :=
  match xs, i with
  | [], _ => []
  | _ :: rest, O => v :: rest
  | x :: rest, S j => x :: setitem rest j v
  end.

(** ** The named tuples *)

Module SWC.
Record tuple : Type := mk
  { sat : R; fc : R; pwp : R; psd : R; porosity : R; airentry : R }.
End SWC.

Module Texture.
Record tuple : Type := mk { clay : R; sand : R; om : R }.
End Texture.

Module RootZone.
Record tuple : Type := mk
  { wc : R; vwc : R; critical : R; sat : R; fc : R; pwp : R }.
End RootZone.

Module ActualET.
Record tuple : Type := mk { crop : R; soil : R }.
End ActualET.

Module Fluxes.
Record tuple : Type := mk
  { t : R; e : R; influx : R; outflux : R; netflux : R }.

Definition zero : tuple := mk 0 0 0 0 0.

(** The proxy dictionaries of [SoilWater] hold the same five fields and are
    updated field by field. *)
Definition set_pass1 (f : tuple) (ti ei curinflux : R) : tuple :=
  mk ti ei curinflux (outflux f) (netflux f).
Definition set_influx (f : tuple) (v : R) : tuple :=
  mk (t f) (e f) v (outflux f) (netflux f).
Definition set_outflux (f : tuple) (v : R) : tuple :=
  mk (t f) (e f) (influx f) v (netflux f).
Definition set_netflux (f : tuple) (v : R) : tuple :=
  mk (t f) (e f) (influx f) (outflux f) v.
End Fluxes.

(** ** class SoilLayer *)

Module SoilLayer.

Record t : Type := mk
  { thick : R;
    texture : Texture.tuple;
    vwc : R;
    wc : R;
    accthick : R;
    depth : R;
    swc : SWC.tuple;
    ksat : R;
    k : R;
    matric : R;
    gravity : R;
    fluxes : Fluxes.tuple }.

(** [SoilLayer()] *)
Definition new : t :=
  mk 0 (Texture.mk 0 0 0) 0 0 0 0 (SWC.mk 0 0 0 0 0 0) 0 0 0 0 Fluxes.zero.

(** Saxton and Rawls: the three regressions of [initialize_layer], step 2a,
    before the calibration of step 2d.  [c] and [s] are fractions, [om] a
    percentage. *)
Definition theta1500 (c s om : R) : R :=
  let n1 := -0.024 * s + 0.487 * c + 0.006 * om in
  let n2 := 0.005 * (s * om) - 0.013 * (c * om) + 0.068 * (s * c) + 0.031 in
  let theta1500t := n1 + n2 in
  theta1500t + (0.14 * theta1500t - 0.02).

Definition theta33 (c s om : R) : R :=
  let n1 := -0.251 * s + 0.195 * c + 0.011 * om in
  let n2 := 0.006 * (s * om) - 0.027 * (c * om) + 0.452 * (s * c) + 0.299 in
  let theta33t := n1 + n2 in
  theta33t + (1.283 * (theta33t * theta33t) - 0.374 * theta33t - 0.015).

Definition theta_s33 (c s om : R) : R :=
  let n1 := 0.278 * s + 0.034 * c + 0.022 * om in
  let n2 := - 0.018 * (s * om) - 0.027 * (c * om) - 0.584 * (s * c) + 0.078 in
  let theta_s33t := n1 + n2 in
  theta_s33t + 0.636 * theta_s33t - 0.107.

Definition theta0 (c s om : R) : R :=
  theta33 c s om + theta_s33 c s om - 0.097 * s + 0.043.

(** Step 2c: air-entry suction (kPa). *)
Definition air_entry (c s awc : R) : R :=
  let n1 := -21.674 * s - 27.932 * c - 81.975 * awc + 71.121 * (s * awc) in
  let n2 := 8.294 * (c * awc) + 14.05 * (s * c) + 27.161 in
  let aet := n1 + n2 in
  py_max 0 (aet + (0.02 * (aet * aet) - 0.113 * aet - 0.7)).

(** Step 2d: the calibrations [x -> c*x*(1-x)]. *)
Definition calibrate (coef x : R) : R := coef * x * (1 - x).

(** Steps 2 and 3 of [initialize_layer]: the soil water characteristics and
    the saturated conductivity of a texture. *)
Definition characteristics (tex : Texture.tuple) : result (SWC.tuple * R) :=
  let om := Texture.om tex in
  let s := Texture.sand tex / 100 in
  let c := Texture.clay tex / 100 in
  let th1500 := theta1500 c s om in
  let th33 := theta33 c s om in
  let th0 := theta0 c s om in
  l33 <- math_log th33 ;;
  l1500 <- math_log th1500 ;;
  b <- truediv (ln 1500 - ln 33) (l33 - l1500) ;;
  psd <- truediv 1 b ;;
  let awc := th0 - th33 in
  let ae := air_entry c s awc in
  let sat := calibrate 2.225 th0 in
  p <- float_pow awc (3 - psd) ;;
  Ok (SWC.mk sat (calibrate 1.605 th33) (calibrate 1.528 th1500) psd sat ae,
      1930 * p * 24 / 1000).

(** Step 4 of [initialize_layer]: a negative water content is a code on the
    scale from -3 (PWP) over -2 (FC) to -1 (SAT). *)
Definition special_code (w : SWC.tuple) (given : R) : R :=
  let vwc := - given in
  let fc := SWC.fc w in
  if Rleb 1 vwc && Rleb vwc 2 then
    let sat := SWC.sat w in
    sat - (vwc - 1) * (sat - fc)
  else if Rltb 2 vwc && Rleb vwc 3 then
    let pwp := SWC.pwp w in
    fc - (vwc - 2) * (fc - pwp)
  else fc.

Definition set_heads_k (self : t) (hm hg kk : R) : t :=
  mk (thick self) (texture self) (vwc self) (wc self) (accthick self)
     (depth self) (swc self) (ksat self) kk hm hg (fluxes self).

(** [update_heads_k] *)
Definition update_heads_k (self : t) : result t :=
  let fc := SWC.fc (swc self) in
  let vwc := vwc self in
  hm <- (if Rleb fc vwc then
           let df := vwc - fc in
           q <- truediv ((33 - SWC.airentry (swc self)) * df)
                        (SWC.sat (swc self) - fc) ;;
           Ok ((33 - q) / 10)
         else
           b <- truediv 1 (SWC.psd (swc self)) ;;
           lfc <- math_log fc ;;
           let a := exp (3.496508 + b * lfc) in
           p <- float_pow (py_max 0.05 vwc) (- b) ;;
           Ok (a * p / 10)) ;;
  let matric := py_max 0 hm in
  let gravity := depth self in
  let ae := SWC.airentry (swc self) / 10 in
  ratio <- truediv vwc (SWC.sat (swc self)) ;;
  kk <- (if Rltb ae matric then
           q <- truediv 2 (SWC.psd (swc self)) ;;
           p <- float_pow ratio (3 + q) ;;
           Ok (ksat self * p)
         else Ok (ksat self)) ;;
  Ok (set_heads_k self matric gravity kk).

(** [initialize_layer].  [accdepth] is the class attribute
    [SoilLayer.__accdepth], shared by every layer of the process; the new
    value is returned with the initialised layer.  [nextlayer] is only
    stored. *)
Definition initialize_layer (accdepth : R) (prevlayer : option t) (self : t)
  : result (t * R) :=
  let prevaccthick :=
    match prevlayer with Some p => accthick p | None => 0 end in
  let accthick' := thick self + prevaccthick in
  let prevthick :=
    match prevlayer with Some p => thick p | None => 0 end in
  let d := 0.5 * (prevthick + thick self) in
  let depth' := accdepth + d in
  ' (w, ksat') <- characteristics (texture self) ;;
  let vwc' := if Rltb (vwc self) 0 then special_code w (vwc self)
              else vwc self in
  let wc' := if Rltb (vwc self) 0 then vwc' * thick self * 1000
             else wc self in
  self' <- update_heads_k
             (mk (thick self) (texture self) vwc' wc' accthick' depth' w
                 ksat' (k self) (matric self) (gravity self) (fluxes self)) ;;
  Ok (self', accdepth + d).

(** [tothead] *)
Definition tothead (self : t) : R := matric self + gravity self.

End SoilLayer.

(** A [for] loop whose body may raise: the state is threaded through the
    items in order and the first exception ends the loop. *)
Fixpoint for_each {S I : Type} (body : S -> I -> result S) (items : list I)
  (st : S) : result S :=
  match items with
  | [] => Ok st
  | i :: rest => st' <- body st i ;; for_each body rest st'
  end.

(** [range(n)] for a Python int [n]; empty when [n <= 0]. *)
Definition range (n : Z) : list nat := seq 0 (Z.to_nat n).

(** ** The initialisation payload (the parsed JSON file) *)

Module Ini.
Record layer : Type := mk_layer
  { thick : R; vwc : R; texture : Texture.tuple }.

Record payload : Type := mk
  { numintervals : Z;
    rootdepth : R;
    has_watertable : bool;
    numlayers : Z;
    layers : list layer }.
End Ini.

(** ** class SoilWater *)

Module SoilWater.

Record t : Type := mk
  { numintervals : Z;
    rootdepth : R;
    has_watertable : bool;
    numlayers : Z;
    layers : list SoilLayer.t;
    pf : list Fluxes.tuple;
    prz : RootZone.tuple;
    rootwater : RootZone.tuple;
    waterstresses : ActualET.tuple;
    netrain : R;
    aet : ActualET.tuple }.

Definition set_rootdepth (self : t) (v : R) : t :=
  mk (numintervals self) v (has_watertable self) (numlayers self)
     (layers self) (pf self) (prz self) (rootwater self)
     (waterstresses self) (netrain self) (aet self).
Definition set_layers (self : t) (v : list SoilLayer.t) : t :=
  mk (numintervals self) (rootdepth self) (has_watertable self)
     (numlayers self) v (pf self) (prz self) (rootwater self)
     (waterstresses self) (netrain self) (aet self).
Definition set_pf (self : t) (v : list Fluxes.tuple) : t :=
  mk (numintervals self) (rootdepth self) (has_watertable self)
     (numlayers self) (layers self) v (prz self) (rootwater self)
     (waterstresses self) (netrain self) (aet self).
Definition set_prz (self : t) (v : RootZone.tuple) : t :=
  mk (numintervals self) (rootdepth self) (has_watertable self)
     (numlayers self) (layers self) (pf self) v (rootwater self)
     (waterstresses self) (netrain self) (aet self).
Definition set_rootwater (self : t) (v : RootZone.tuple) : t :=
  mk (numintervals self) (rootdepth self) (has_watertable self)
     (numlayers self) (layers self) (pf self) (prz self) v
     (waterstresses self) (netrain self) (aet self).
Definition set_waterstresses (self : t) (v : ActualET.tuple) : t :=
  mk (numintervals self) (rootdepth self) (has_watertable self)
     (numlayers self) (layers self) (pf self) (prz self) (rootwater self)
     v (netrain self) (aet self).
Definition set_netrain (self : t) (v : R) : t :=
  mk (numintervals self) (rootdepth self) (has_watertable self)
     (numlayers self) (layers self) (pf self) (prz self) (rootwater self)
     (waterstresses self) v (aet self).
Definition set_aet (self : t) (v : ActualET.tuple) : t :=
  mk (numintervals self) (rootdepth self) (has_watertable self)
     (numlayers self) (layers self) (pf self) (prz self) (rootwater self)
     (waterstresses self) (netrain self) v.

(** [net_rainfall] *)
Definition net_rainfall (rain lai : R) : R :=
  let fraction := py_max 0.8 (0.267 * lai) in
  fraction * rain.

(** [_rooting_depth] *)
Definition _rooting_depth (self : t) : result R :=
  let newdepth := rootdepth self + 0.008 in
  last <- getlast (layers self) ;;
  let depthlimit := SoilLayer.accthick last in
  Ok (py_min newdepth depthlimit).

(** The loop of [_rootzone_water]; [acc] holds [wc], [wcsat], [wcfc] and
    [wcpwp], and the [break] returns it. *)
Fixpoint rootzone_sums (rootdepth : R) (ls : list SoilLayer.t)
  (acc : R * R * R * R) : R * R * R * R :=
  match ls with
  | [] => acc
  | layer :: rest =>
    let diff := SoilLayer.thick layer
                - py_max 0 (SoilLayer.accthick layer - rootdepth) in
    if Rleb diff 0 then acc
    else
      let '(wc, wcsat, wcfc, wcpwp) := acc in
      rootzone_sums rootdepth rest
        (wc + SoilLayer.vwc layer * diff,
         wcsat + SWC.sat (SoilLayer.swc layer) * diff,
         wcfc + SWC.fc (SoilLayer.swc layer) * diff,
         wcpwp + SWC.pwp (SoilLayer.swc layer) * diff)
  end.

(** [_rootzone_water]: the new contents of the proxy [__prz]. *)
Definition _rootzone_water (self : t) : result RootZone.tuple :=
  let '(wc, wcsat, wcfc, wcpwp) :=
    rootzone_sums (rootdepth self) (layers self) (0, 0, 0, 0) in
  vwc <- truediv wc (rootdepth self) ;;
  vwcsat <- truediv wcsat (rootdepth self) ;;
  vwcfc <- truediv wcfc (rootdepth self) ;;
  vwcpwp <- truediv wcpwp (rootdepth self) ;;
  let vwccr := vwcpwp + 0.5 * (vwcsat - vwcpwp) in
  Ok (RootZone.mk (wc * 1000) vwc vwccr vwcsat vwcfc vwcpwp).

(** [_reduce_et]: [ActualET(rdt, rde)], so [crop] is the transpiration
    factor and [soil] the evaporation factor. *)
Definition _reduce_et (self : t) : result ActualET.tuple :=
  top <- getitem (layers self) 0 ;;
  q <- truediv (SoilLayer.vwc top) (SWC.sat (SoilLayer.swc top)) ;;
  p <- float_pow (3.6073 * q) (-9.3172) ;;
  rde <- truediv 1 (1 + p) ;;
  let vwc := RootZone.vwc (prz self) in
  let vwcpwp := RootZone.pwp (prz self) in
  let vwccr := RootZone.critical (prz self) in
  rdt <- (if Rleb vwccr vwc then Ok 1
          else if Rltb vwcpwp vwc && Rltb vwc vwccr then
            truediv (vwc - vwcpwp) (vwccr - vwcpwp)
          else Ok 0.01) ;;
  Ok (ActualET.mk rdt rde).

(** [_actual_et] *)
Definition _actual_et (self : t) (petcrop petsoil : R) : ActualET.tuple :=
  ActualET.mk (ActualET.crop (waterstresses self) * petcrop)
              (ActualET.soil (waterstresses self) * petsoil).

(** [_influx_from_watertable], on the layers as they are when it is
    called. *)
Definition _influx_from_watertable (ls : list SoilLayer.t) : result R :=
  last <- getlast ls ;;
  lks <- math_log (SoilLayer.ksat last) ;;
  lk <- math_log (SoilLayer.k last) ;;
  kk <- truediv (SoilLayer.ksat last - SoilLayer.k last) (lks - lk) ;;
  let hm := (33 - (33 - SWC.airentry (SoilLayer.swc last))) / 10 in
  let hg := SoilLayer.accthick last in
  let tothead := hm + hg in
  truediv (kk * (tothead - SoilLayer.tothead last))
          (SoilLayer.thick last * 0.5).

(** One iteration of the first loop of [_calc_water_fluxes] (the influx).
    The state holds the layers, the proxy [__pf] and [prvpsi]. *)
Definition influx_step (self : t)
  (st : list SoilLayer.t * list Fluxes.tuple * R) (idx : nat)
  : result (list SoilLayer.t * list Fluxes.tuple * R) :=
  let '(ls, pf, prvpsi) := st in
  cur <- getitem ls idx ;;
  cur <- SoilLayer.update_heads_k cur ;;
  let ls := setitem ls idx cur in
  prv <- match idx with
         | O => Ok None
         | S j => p <- getitem ls j ;; Ok (Some p)
         end ;;
  let ei := match prv with
            | Some _ => 0
            | None => ActualET.soil (aet self) / 1000
            end in
  q <- truediv (SoilLayer.accthick cur) (rootdepth self) ;;
  let cj := py_min 1 q in
  let curpsi := 1.8 * cj - 0.8 * (cj * cj) in
  let ti := ActualET.crop (aet self) * (curpsi - prvpsi) / 1000 in
  curinflux <-
    match prv with
    | Some prv =>
      lc <- math_log (SoilLayer.k cur) ;;
      lp <- math_log (SoilLayer.k prv) ;;
      let n := lc - lp in
      kk <- (if negb (Reqb n 0)
             then truediv (SoilLayer.k cur - SoilLayer.k prv) n
             else Ok (SoilLayer.k cur)) ;;
      grad <- truediv (SoilLayer.tothead cur - SoilLayer.tothead prv)
                      (SoilLayer.depth cur - SoilLayer.depth prv) ;;
      Ok (kk * grad - ti)
    | None =>
      let netrain := netrain self / 1000 in
      Ok (py_min netrain (SoilLayer.ksat cur) - ei - ti)
    end ;;
  f <- getitem pf idx ;;
  Ok (ls, setitem pf idx (Fluxes.set_pass1 f ti ei curinflux), curpsi).

(** The outflux of a layer before the bounds are applied. *)
Definition raw_outflux (self : t) (ls : list SoilLayer.t)
  (pf : list Fluxes.tuple) (idx : nat) (cur : SoilLayer.t) : result R :=
  if (Z.of_nat idx <? numlayers self - 1)%Z then
    f <- getitem pf (idx + 1) ;; Ok (Fluxes.influx f)
  else if negb (has_watertable self) then Ok (SoilLayer.k cur)
  else _influx_from_watertable ls.

(** The outflux once the next water content is kept between the dry limit
    and the saturation limit. *)
Definition bounded_outflux (cur : SoilLayer.t) (influx wc outflux : R) : R :=
  let nextwc := influx + wc - outflux in
  let drylmt := SoilLayer.thick cur * 0.005 in
  let satlmt := SoilLayer.thick cur * SWC.sat (SoilLayer.swc cur) in
  if Rltb nextwc drylmt then influx + wc - drylmt
  else if Rltb satlmt nextwc then influx + wc - satlmt
  else outflux.

Definition set_water (cur : SoilLayer.t) (v : R) : SoilLayer.t :=
  SoilLayer.mk (SoilLayer.thick cur) (SoilLayer.texture cur) v
    (v * SoilLayer.thick cur * 1000) (SoilLayer.accthick cur)
    (SoilLayer.depth cur) (SoilLayer.swc cur) (SoilLayer.ksat cur)
    (SoilLayer.k cur) (SoilLayer.matric cur) (SoilLayer.gravity cur)
    (SoilLayer.fluxes cur).

(** [cummfluxes[idx][field] += pf[idx][field] / numintervals], for the five
    fields in the order of [Fluxes._fields]. *)
Definition accumulate (n : Z) (cf f : Fluxes.tuple) : result Fluxes.tuple :=
  ft <- truediv (Fluxes.t f) (IZR n) ;;
  fe <- truediv (Fluxes.e f) (IZR n) ;;
  fi <- truediv (Fluxes.influx f) (IZR n) ;;
  fo <- truediv (Fluxes.outflux f) (IZR n) ;;
  fn <- truediv (Fluxes.netflux f) (IZR n) ;;
  Ok (Fluxes.mk (Fluxes.t cf + ft) (Fluxes.e cf + fe)
        (Fluxes.influx cf + fi) (Fluxes.outflux cf + fo)
        (Fluxes.netflux cf + fn)).

(** One iteration of the second loop of [_calc_water_fluxes] (net flux and
    water content).  The state holds the layers, the proxy [__pf] and
    [cummfluxes]. *)
Definition netflux_step (self : t)
  (st : list SoilLayer.t * list Fluxes.tuple * list Fluxes.tuple)
  (idx : nat)
  : result (list SoilLayer.t * list Fluxes.tuple * list Fluxes.tuple) :=
  let '(ls, pf, cumm) := st in
  cur <- getitem ls idx ;;
  let wc := SoilLayer.vwc cur * SoilLayer.thick cur in
  f <- getitem pf idx ;;
  let influx := Fluxes.influx f in
  outflux <- raw_outflux self ls pf idx cur ;;
  let outflux := bounded_outflux cur influx wc outflux in
  pf <- (if (Z.of_nat idx <? numlayers self - 1)%Z then
           fnext <- getitem pf (idx + 1) ;;
           Ok (setitem pf (idx + 1) (Fluxes.set_influx fnext outflux))
         else Ok pf) ;;
  f <- getitem pf idx ;;
  let f := Fluxes.set_outflux f outflux in
  let f := Fluxes.set_netflux f (Fluxes.influx f - Fluxes.outflux f) in
  let pf := setitem pf idx f in
  q <- truediv (Fluxes.netflux f) (IZR (numintervals self)) ;;
  let wc := wc + q in
  v <- truediv wc (SoilLayer.thick cur) ;;
  let cur :=
    set_water cur (py_max 0.005 (py_min (SWC.sat (SoilLayer.swc cur)) v)) in
  let ls := setitem ls idx cur in
  cf <- getitem cumm idx ;;
  cf <- accumulate (numintervals self) cf f ;;
  Ok (ls, pf, setitem cumm idx cf).

(** [_calc_water_fluxes]: one sub-interval.  [cummfluxes] is updated in
    place by the source and returned with the model here. *)
Definition _calc_water_fluxes (self : t) (cummfluxes : list Fluxes.tuple)
  (petcrop petsoil : R) : result (t * list Fluxes.tuple) :=
  rz <- _rootzone_water self ;;
  let self := set_prz self rz in
  ws <- _reduce_et self ;;
  let self := set_waterstresses self ws in
  let self := set_aet self (_actual_et self petcrop petsoil) in
  ' (ls, pf, _) <- for_each (influx_step self) (range (numlayers self))
                     (layers self, pf self, 0) ;;
  ' (ls, pf, cumm) <- for_each (netflux_step self) (range (numlayers self))
                        (ls, pf, cummfluxes) ;;
  Ok (set_pf (set_layers self ls) pf, cumm).

(** The loop [for i in range(self.numintervals)] of
    [daily_water_balance]. *)
Fixpoint sub_intervals (n : nat) (self : t) (cummfluxes : list Fluxes.tuple)
  (petcrop petsoil : R) : result (t * list Fluxes.tuple) :=
  match n with
  | O => Ok (self, cummfluxes)
  | S m =>
    ' (self, cummfluxes) <- _calc_water_fluxes self cummfluxes petcrop petsoil ;;
    sub_intervals m self cummfluxes petcrop petsoil
  end.

Definition set_fluxes (layer : SoilLayer.t) (f : Fluxes.tuple) : SoilLayer.t :=
  SoilLayer.mk (SoilLayer.thick layer) (SoilLayer.texture layer)
    (SoilLayer.vwc layer) (SoilLayer.wc layer) (SoilLayer.accthick layer)
    (SoilLayer.depth layer) (SoilLayer.swc layer) (SoilLayer.ksat layer)
    (SoilLayer.k layer) (SoilLayer.matric layer) (SoilLayer.gravity layer) f.

(** The last loop of [daily_water_balance]:
    [layer.fluxes = Fluxes(cummfluxes[i])] for each layer. *)
Fixpoint store_fluxes (i : nat) (ls : list SoilLayer.t)
  (cummfluxes : list Fluxes.tuple) : result (list SoilLayer.t) :=
  match ls with
  | [] => Ok []
  | layer :: rest =>
    f <- getitem cummfluxes i ;;
    rest <- store_fluxes (S i) rest cummfluxes ;;
    Ok (set_fluxes layer f :: rest)
  end.

(** [daily_water_balance] *)
Definition daily_water_balance (self : t) (rain lai petcrop petsoil : R)
  : result t :=
  let self := set_netrain self (net_rainfall rain lai) in
  rd <- _rooting_depth self ;;
  let self := set_rootdepth self rd in
  let cummfluxes := map (fun _ => Fluxes.zero) (range (numlayers self)) in
  ' (self, cummfluxes) <-
    sub_intervals (Z.to_nat (numintervals self)) self cummfluxes
      petcrop petsoil ;;
  let self := set_rootwater self (prz self) in
  ls <- store_fluxes 0 (layers self) cummfluxes ;;
  Ok (set_layers self ls).

(** The first loop of [__init__]: the properties of each layer are read
    from the payload, [layers[i]] for the layer at position [i]. *)
Fixpoint read_layers (payload : list Ini.layer) (i : nat)
  (objs : list SoilLayer.t) : result (list SoilLayer.t) :=
  match objs with
  | [] => Ok []
  | layer :: rest =>
    rec <- getitem payload i ;;
    let layer :=
      SoilLayer.mk (Ini.thick rec) (Ini.texture rec) (Ini.vwc rec)
        (Ini.vwc rec * Ini.thick rec * 1000) (SoilLayer.accthick layer)
        (SoilLayer.depth layer) (SoilLayer.swc layer) (SoilLayer.ksat layer)
        (SoilLayer.k layer) (SoilLayer.matric layer)
        (SoilLayer.gravity layer) (SoilLayer.fluxes layer) in
    rest <- read_layers payload (S i) rest ;;
    Ok (layer :: rest)
  end.

(** The second loop of [__init__]: each layer is initialised in turn, with
    the layer before it (already initialised) as [prevlayer]. *)
Fixpoint init_layers (accdepth : R) (prevlayer : option SoilLayer.t)
  (ls : list SoilLayer.t) : result (list SoilLayer.t * R) :=
  match ls with
  | [] => Ok ([], accdepth)
  | layer :: rest =>
    ' (layer, accdepth) <- SoilLayer.initialize_layer accdepth prevlayer layer ;;
    ' (rest, accdepth) <- init_layers accdepth (Some layer) rest ;;
    Ok (layer :: rest, accdepth)
  end.

Definition zero_rootzone : RootZone.tuple := RootZone.mk 0 0 0 0 0 0.

(** [__init__], from the parsed payload.  [accdepth] is the class attribute
    [SoilLayer.__accdepth] when the model is built (0 for the first model of
    a process); its new value is returned with the model. *)
Definition __init__ (ini : Ini.payload) (accdepth : R) : result (t * R) :=
  let objs := map (fun _ => SoilLayer.new) (range (Ini.numlayers ini)) in
  ls <- read_layers (Ini.layers ini) 0 objs ;;
  ' (ls, accdepth) <- init_layers accdepth None ls ;;
  let self :=
    mk (Ini.numintervals ini) (Ini.rootdepth ini) (Ini.has_watertable ini)
       (Ini.numlayers ini) ls
       (map (fun _ => Fluxes.zero) (range (Ini.numlayers ini)))
       zero_rootzone zero_rootzone (ActualET.mk 0 0) 0 (ActualET.mk 0 0) in
  rz <- _rootzone_water self ;;
  let self := set_prz self rz in
  ws <- _reduce_et self ;;
  Ok (set_waterstresses self ws, accdepth).

End SoilWater.

(** ** Well-formed models *)

(** The shape [__init__] gives a model: one layer object and one proxy
    dictionary per declared layer. *)
Definition shaped (self : SoilWater.t) : Prop :=
  length (SoilWater.layers self) = Z.to_nat (SoilWater.numlayers self) /\
  length (SoilWater.pf self) = Z.to_nat (SoilWater.numlayers self).

(** A layer whose static properties are those of a soil: positive
    thickness and conductivity, positive saturation and pore-size index,
    and field capacity apart from saturation. *)
Record layer_sound (l : SoilLayer.t) : Prop := mk_layer_sound
  { sound_thick : 0 < SoilLayer.thick l;
    sound_accthick : 0 < SoilLayer.accthick l;
    sound_ksat : 0 < SoilLayer.ksat l;
    sound_sat : 0 < SWC.sat (SoilLayer.swc l);
    sound_psd : 0 < SWC.psd (SoilLayer.swc l);
    sound_fc : SWC.fc (SoilLayer.swc l) <> SWC.sat (SoilLayer.swc l) }.

Definition moist (l : SoilLayer.t) : Prop := 0 < SoilLayer.vwc l.

Definition conducting (l : SoilLayer.t) : Prop := 0 < SoilLayer.k l.

(** Neighbouring layers lie at different depths. *)
Definition depths_distinct (ls : list SoilLayer.t) : Prop :=
  forall j a b,
    nth_error ls j = Some a -> nth_error ls (S j) = Some b ->
    SoilLayer.depth b <> SoilLayer.depth a.

(** A model on which a sub-interval can be computed: at least one layer,
    free drainage at the bottom, positive root depth and every layer sound
    and holding some water. *)
Record sound (self : SoilWater.t) : Prop := mk_sound
  { sound_shaped : shaped self;
    sound_numlayers : (0 < SoilWater.numlayers self)%Z;
    sound_numintervals : SoilWater.numintervals self <> 0%Z;
    sound_rootdepth : 0 < SoilWater.rootdepth self;
    sound_drainage : SoilWater.has_watertable self = false;
    sound_layers : Forall layer_sound (SoilWater.layers self);
    sound_moist : Forall moist (SoilWater.layers self);
    sound_depths : depths_distinct (SoilWater.layers self) }.

(** The clipping of the water content: never below the dry floor, and not
    above the saturation point unless the floor forces it. *)
Definition clipped (l : SoilLayer.t) : Prop :=
  0.005 <= SoilLayer.vwc l <= Rmax 0.005 (SWC.sat (SoilLayer.swc l)).

(** The properties of a layer that no sub-interval changes. *)
Definition statics (l : SoilLayer.t)
  : R * R * R * SWC.tuple * R * Texture.tuple :=
  (SoilLayer.thick l, SoilLayer.accthick l, SoilLayer.depth l,
   SoilLayer.swc l, SoilLayer.ksat l, SoilLayer.texture l).

(** The root-density curve of the transpiration shares. *)
Definition psi (cj : R) : R := 1.8 * cj - 0.8 * (cj * cj).

(** The invariant of the first loop of [_calc_water_fluxes] on a sound
    model of [n] layers, before the layer at [i] is treated: the layers
    above have a positive conductivity. *)
Definition influx_inv (n i : nat)
  (st : list SoilLayer.t * list Fluxes.tuple * R) : Prop :=
  let '(ls, pf, _) := st in
  length ls = n /\ length pf = n /\
  Forall layer_sound ls /\ Forall moist ls /\ depths_distinct ls /\
  forall j l, (j < i)%nat -> nth_error ls j = Some l -> conducting l.

(** The invariant of the second loop. *)
Definition netflux_inv (n i : nat)
  (st : list SoilLayer.t * list Fluxes.tuple * list Fluxes.tuple) : Prop :=
  let '(ls, pf, cumm) := st in
  length ls = n /\ length pf = n /\ length cumm = n /\
  Forall layer_sound ls /\ Forall moist ls /\ depths_distinct ls /\
  Forall conducting ls.

(** ** Payloads *)

(** A texture for which the regressions give an ordered, positive triple
    [theta1500 < theta33 < theta0 < 1] and a field capacity apart from the
    saturation point. *)
Definition texture_ok (tex : Texture.tuple) : Prop :=
  let om := Texture.om tex in
  let s := Texture.sand tex / 100 in
  let c := Texture.clay tex / 100 in
  0 < SoilLayer.theta1500 c s om /\
  SoilLayer.theta1500 c s om < SoilLayer.theta33 c s om /\
  SoilLayer.theta33 c s om < SoilLayer.theta0 c s om /\
  SoilLayer.theta0 c s om < 1 /\
  SoilLayer.calibrate 1.605 (SoilLayer.theta33 c s om)
  <> SoilLayer.calibrate 2.225 (SoilLayer.theta0 c s om).

(** The calibrated characteristics of a texture (step 2d). *)
Definition sat_of (tex : Texture.tuple) : R :=
  SoilLayer.calibrate 2.225
    (SoilLayer.theta0 (Texture.clay tex / 100) (Texture.sand tex / 100)
       (Texture.om tex)).
Definition fc_of (tex : Texture.tuple) : R :=
  SoilLayer.calibrate 1.605
    (SoilLayer.theta33 (Texture.clay tex / 100) (Texture.sand tex / 100)
       (Texture.om tex)).
Definition pwp_of (tex : Texture.tuple) : R :=
  SoilLayer.calibrate 1.528
    (SoilLayer.theta1500 (Texture.clay tex / 100) (Texture.sand tex / 100)
       (Texture.om tex)).

(** The water content a layer starts with (step 4). *)
Definition initial_vwc (w : SWC.tuple) (given : R) : R :=
  if Rltb given 0 then SoilLayer.special_code w given else given.

(** The depth bookkeeping of [initialize_layer] along the profile:
    [prevacc] and [prevthick] are the cumulative thickness and the thickness
    of the layer above, [accdepth] the running depth. *)
Fixpoint stacked (prevacc prevthick accdepth : R) (ls : list SoilLayer.t)
  : Prop :=
  match ls with
  | [] => True
  | l :: rest =>
    SoilLayer.accthick l = SoilLayer.thick l + prevacc /\
    SoilLayer.depth l = accdepth + 0.5 * (prevthick + SoilLayer.thick l) /\
    stacked (SoilLayer.accthick l) (SoilLayer.thick l) (SoilLayer.depth l)
      rest
  end.

(** The total depth of the profile. *)
Definition sum_thick (ls : list SoilLayer.t) : R :=
  fold_right (fun l a => SoilLayer.thick l + a) 0 ls.

(** A layer as [__init__] builds it from the payload record [rec]. *)
Record built (rec : Ini.layer) (l : SoilLayer.t) : Prop := mk_built
  { built_thick : SoilLayer.thick l = Ini.thick rec;
    built_texture : SoilLayer.texture l = Ini.texture rec;
    built_sat : SWC.sat (SoilLayer.swc l) = sat_of (Ini.texture rec);
    built_fc : SWC.fc (SoilLayer.swc l) = fc_of (Ini.texture rec);
    built_pwp : SWC.pwp (SoilLayer.swc l) = pwp_of (Ini.texture rec);
    built_psd : 0 < SWC.psd (SoilLayer.swc l);
    built_ksat : 0 < SoilLayer.ksat l;
    built_vwc :
      SoilLayer.vwc l = initial_vwc (SoilLayer.swc l) (Ini.vwc rec) }.

(** What [read_layers] stores in a layer. *)
Definition seeded (rec : Ini.layer) (l : SoilLayer.t) : Prop :=
  SoilLayer.thick l = Ini.thick rec /\
  SoilLayer.vwc l = Ini.vwc rec /\
  SoilLayer.texture l = Ini.texture rec.

(** A payload record [initialize_layer] accepts. *)
Definition record_ok (rec : Ini.layer) : Prop :=
  texture_ok (Ini.texture rec) /\ Ini.vwc rec <> 0.


(** ** Sample inputs *)

(** A loam: 30 % clay, 40 % sand, 2 % organic matter. *)
Definition loam : Texture.tuple := Texture.mk 30 40 2.

(** An organic soil without clay or sand: 12.1879 % organic matter. *)
Definition peat : Texture.tuple := Texture.mk 0 0 12.1879.

(** An organic soil with 10 % organic matter. *)
Definition muck : Texture.tuple := Texture.mk 0 0 10.

Definition payload_of (numintervals : Z) (rootdepth : R) (watertable : bool)
  (numlayers : Z) (recs : list Ini.layer) : Ini.payload :=
  Ini.mk numintervals rootdepth watertable numlayers recs.

(** One layer of loam, 1 m thick, at a water content of 0.25; four
    sub-intervals a day, free drainage, roots at 0.5 m. *)
Definition ini_loam : Ini.payload :=
  payload_of 4 0.5 false 1 [Ini.mk_layer 1 0.25 loam].

(** The same profile with roots declared at 2 m, below the profile. *)
Definition ini_deep_roots : Ini.payload :=
  payload_of 4 2 false 1 [Ini.mk_layer 1 0.25 loam].




(** One layer of peat. *)
Definition ini_peat : Ini.payload :=
  payload_of 4 0.5 false 1 [Ini.mk_layer 1 0.25 peat].

(** One layer of loam, saturated (code -1), above a water table. *)
Definition ini_watertable : Ini.payload :=
  payload_of 4 0.5 true 1 [Ini.mk_layer 1 (-1) loam].

(** Two layers of loam, 0.5 m each. *)
Definition ini_two_layers : Ini.payload :=
  payload_of 4 0.5 false 2
    [Ini.mk_layer 0.5 0.25 loam; Ini.mk_layer 0.5 0.3 loam].



(** The transpiration shares of all layers, summed. *)
Definition shares (pf : list Fluxes.tuple) : R :=
  fold_right Rplus 0 (map Fluxes.t pf).


(** The invariant of the first loop that records which layers have had
    their heads and conductivity updated. *)
Definition updated_inv (n : nat) (ls0 : list SoilLayer.t) (i : nat)
  (st : list SoilLayer.t * list Fluxes.tuple * R) : Prop :=
  let '(ls, _, _) := st in
  length ls = n /\
  (forall j, (i <= j)%nat -> nth_error ls j = nth_error ls0 j) /\
  (forall j l0, (j < i)%nat -> nth_error ls0 j = Some l0 ->
     exists cur, SoilLayer.update_heads_k l0 = Ok cur /\
                 nth_error ls j = Some cur).

(** The invariant of the second loop on a model above a water table: the
    invariant of a sound model, and the layers from [i] on as the first
    loop left them. *)
Definition untouched_inv (n : nat) (ls1 : list SoilLayer.t) (i : nat)
  (st : list SoilLayer.t * list Fluxes.tuple * list Fluxes.tuple) : Prop :=
  netflux_inv n i st /\
  forall j, (i <= j)%nat -> nth_error (fst (fst st)) j = nth_error ls1 j.

(** ** Interval arithmetic on the texture regressions

    The order of the three characteristics over a whole region of textures
    is checked by a branch-and-bound over boxes.  A bound is an integer
    numerator over a denominator that the operations fix (it is not stored);
    an interval is a pair of bounds.  Sums and products are exact, and only
    the return to the denominator of a million rounds, outwards. *)

Module Interval.

Definition t : Type := (Z * Z)%type.

(** [x] lies in the interval [i] read over the denominator [d]. *)
Definition at_scale (d : Z) (i : t) (x : R) : Prop :=
  IZR (fst i) <= IZR d * x <= IZR (snd i).

Definition point (z : Z) : t := (z, z).

Definition add (a b : t) : t := (fst a + fst b, snd a + snd b)%Z.

Definition sub (a b : t) : t := (fst a - snd b, snd a - fst b)%Z.

Definition min4 (a b c d : Z) : Z := Z.min (Z.min a b) (Z.min c d).
Definition max4 (a b c d : Z) : Z := Z.max (Z.max a b) (Z.max c d).

(** The product; the denominators multiply. *)
Definition mul (a b : t) : t :=
  let p1 := (fst a * fst b)%Z in
  let p2 := (fst a * snd b)%Z in
  let p3 := (snd a * fst b)%Z in
  let p4 := (snd a * snd b)%Z in
  (min4 p1 p2 p3 p4, max4 p1 p2 p3 p4).

(** The product by a constant of numerator [k]. *)
Definition times (k : Z) (a : t) : t :=
  if (0 <=? k)%Z then (k * fst a, k * snd a)%Z
  else (k * snd a, k * fst a)%Z.

(** Division of the denominator by [n], the lower bound rounded down and
    the upper bound rounded up. *)
Definition round (n : Z) (a : t) : t :=
  (fst a / n, - ((- snd a) / n))%Z.

Definition mega : Z := 1000000.
Definition giga : Z := 1000000000.
Definition tera : Z := 1000000000000.

(** [(k1*s + k2*c + k3*om + k4*(s*om) + k5*(c*om) + k6*(s*c) + k0) / 10^6]
    for [c], [s] and [om] over a million and their products over a million
    million; the result is over a million. *)
Definition multilinear (k1 k2 k3 k4 k5 k6 k0 : Z) (c s om som com sc : t)
  : t :=
  round tera
    (add (add (add (times (k1 * mega) s) (times (k2 * mega) c))
              (times (k3 * mega) om))
         (add (add (add (times k4 som) (times k5 com)) (times k6 sc))
              (point (k0 * tera)))).

(** [1.283*x^2 + 0.626*x - 0.015], the second-order correction of
    [theta33]. *)
Definition correction33 (x : t) : t :=
  round giga
    (add (add (times 1283 (mul x x)) (times (626 * mega) x))
         (point (-15 * tera))).

(** [coef/1000 * x * (1 - x)], over a thousand million million. *)
Definition calibrate (coef : Z) (x : t) : t :=
  mul (times coef x) (sub (point mega) x).

(** The order holds on the whole box: either the intervals of the three
    regressions are placed so that the calibrated values must be ordered, or
    the three calibrated intervals are ordered. *)
Definition ordered_on (c s om : t) : bool :=
  let som := mul s om in
  let com := mul c om in
  let sc := mul s c in
  let t15 :=
    multilinear (-27360) 555180 6840 5700 (-14820) 77520 15340
      c s om som com sc in
  let t33 :=
    correction33
      (multilinear (-251000) 195000 11000 6000 (-27000) 452000 299000
         c s om som com sc) in
  let t0 :=
    add t33
      (multilinear 357808 55624 35992 (-29448) (-44172) (-955424) 63608
         c s om som com sc) in
  if ((snd t15 <=? fst t33) && (snd t15 + snd t33 <=? mega) &&
      (0 <=? fst t33) && (snd t33 <=? mega) &&
      (236400 <=? fst t0) && (snd t0 <=? 763600))%Z
  then true
  else
    let fc := calibrate 1605 t33 in
    ((snd (calibrate 1528 t15) <=? fst fc) &&
     (snd fc <=? fst (calibrate 2225 t0)))%Z.

Definition width (i : t) : Z := (snd i - fst i)%Z.

Definition lower_half (i : t) : t := (fst i, (fst i + snd i) / 2)%Z.
Definition upper_half (i : t) : t := ((fst i + snd i) / 2, snd i)%Z.

(** Branch and bound: a box that lies outside [c + s <= 1] needs no check;
    a box on which the order is not established is cut in two along its
    widest side (the organic matter, a percentage, counts for a twentieth of
    its width). *)
Fixpoint ordered_in (fuel : nat) (c s om : t) : bool :=
  if (mega <? fst c + fst s)%Z then true
  else if ordered_on c s om then true
  else
    match fuel with
    | O => false
    | S fuel =>
      if ((width s <=? width c) && (width om / 20 <=? width c))%Z then
        ordered_in fuel (lower_half c) s om &&
        ordered_in fuel (upper_half c) s om
      else if (width om / 20 <=? width s)%Z then
        ordered_in fuel c (lower_half s) om &&
        ordered_in fuel c (upper_half s) om
      else
        ordered_in fuel c s (lower_half om) &&
        ordered_in fuel c s (upper_half om)
    end.

End Interval.

(** The value of a regression with coefficients in millionths. *)
Definition millionths (k1 k2 k3 k4 k5 k6 k0 : Z) (c s om : R) : R :=
  (IZR k1 * s + IZR k2 * c + IZR k3 * om + IZR k4 * (s * om)
   + IZR k5 * (c * om) + IZR k6 * (s * c) + IZR k0) / 1000000.

(** The textures of the calibration range of the regressions: up to 60 %
    clay, up to 8 % organic matter, clay and sand together at most 100 %. *)
Definition in_calibration_range (tex : Texture.tuple) : Prop :=
  0 <= Texture.clay tex <= 60 /\
  0 <= Texture.sand tex /\
  Texture.clay tex + Texture.sand tex <= 100 /\
  0 <= Texture.om tex <= 8.

(** Clay: 100 % clay, 8 % organic matter. *)
Definition heavy_clay : Texture.tuple := Texture.mk 100 0 8.

(** ** Further invariants *)










(** One layer of loam at a water content of 0.3. *)
Definition ini_moist_loam : Ini.payload :=
  payload_of 4 0.5 false 1 [Ini.mk_layer 1 0.3 loam].


(** * The input data, the charts and the simulation loop
    (dailydata.py, plot.py, facade.py) *)

(** [[f(i) for i in items]], evaluated from left to right. *)
Fixpoint comprehension {I A : Type} (f : I -> result A) (items : list I)
  : result (list A) :=
  match items with
  | [] => Ok []
  | i :: rest =>
    x <- f i ;;
    xs <- comprehension f rest ;;
    Ok (x :: xs)
  end.

(** [range(start, stop, step)] on integers, as a list. *)
Definition range3 (start stop step : Z) : result (list Z) :=
  if (step =? 0)%Z then Raise ValueError
  else
    let len :=
      if (0 <? step)%Z then
        (if (start <? stop)%Z then 1 + (stop - 1 - start) / step else 0)%Z
      else
        (if (stop <? start)%Z then 1 + (start - 1 - stop) / (- step) else 0)%Z
    in
    Ok (map (fun k => (start + Z.of_nat k * step)%Z) (seq 0 (Z.to_nat len))).

Module DailyData.

(** The object: [nset] values per line, and all values in [data]. *)
Record t : Type := mk { nset : Z; data : list R }.

(** A line of the file after [line.split(',')]: each item is the number
    that [float(item.strip())] returns, or [None] when [float] raises. *)
Definition line : Type := list (option R).

Definition float (item : option R) : result R :=
  match item with
  | Some x => Ok x
  | None => Raise ValueError
  end.

(** [nset.add(n)] on a set of line lengths, kept without duplicates. *)
Definition set_add (n : nat) (s : list nat) : list nat :=
  if existsb (Nat.eqb n) s then s else s ++ [n].

(** The loop [for line in f] of [__init__]. *)
Fixpoint read_lines (lines : list line) (nset : list nat) (data : list R)
  : result (list nat * list R) :=
  match lines with
  | [] => Ok (nset, data)
  | l :: rest =>
    lst <- comprehension float l ;;
    match lst with
    | [] => read_lines rest nset data
    | _ => read_lines rest (set_add (length lst) nset) (data ++ lst)
    end
  end.

(** [__init__], from the lines of the file. *)
Definition __init__ (lines : list line) : result t :=
  ' (nset, data) <- read_lines lines [] [] ;;
  match nset with
  | [n] => Ok (mk (Z.of_nat n) data)
  | _ => Raise IndexError
  end.

(** What [__getitem__] returns: a float, or a list of floats. *)
Inductive value : Type :=
  | Float (x : R)
  | Floats (xs : list R).

(** [__getitem__], for an integer key. *)
Definition __getitem__ (self : t) (key : Z) : result value :=
  if (key <? 1)%Z then Raise ValueError
  else
    let nlen := Z.of_nat (length (data self)) in
    if (nlen =? 0)%Z then Raise ZeroDivisionError
    else
      let idx := Z.to_nat (((key - 1) * nset self) mod nlen) in
      if (nset self =? 1)%Z then
        x <- getitem (data self) idx ;; Ok (Float x)
      else
        xs <- comprehension (fun i => getitem (data self) (idx + i))
                (range (nset self)) ;;
        Ok (Floats xs).

(** [__iter__]: the lists the generator yields, in order. *)
Definition __iter__ (self : t) : result (list (list R)) :=
  idxs <- range3 0 (Z.of_nat (length (data self))) (nset self) ;;
  comprehension
    (fun idx => comprehension
                  (fun i => getitem (data self) (Z.to_nat idx + i))
                  (range (nset self)))
    idxs.

End DailyData.

Module Plot.

Import String.
Local Open Scope string_scope.

(** The loop [while num > 1 and rg % num != 0: num -= 1]; it makes fewer
    than [num] turns, and [turns] bounds them. *)
Fixpoint shrink (turns : nat) (rg num : Z) : Z :=
  match turns with
  | O => num
  | S turns' =>
    if ((1 <? num) && negb (rg mod num =? 0))%Z
    then shrink turns' rg (num - 1)%Z
    else num
  end.

(** [generate_xvalues].  [depth] is the number of nested calls Python
    allows; [None] stands for the [RecursionError] raised when they are
    used up. *)
Fixpoint generate_xvalues (depth : nat) (start end_ max_intervals : Z)
  : option (result (list Z)) :=
  match depth with
  | O => None
  | S depth' =>
    let rg := (end_ - start)%Z in
    let num := shrink (Z.to_nat max_intervals) rg max_intervals in
    if (1 <? num)%Z then
      let sz := (rg / num)%Z in
      Some (range3 start (end_ + 1) sz)
    else generate_xvalues depth' start (end_ + 1)%Z max_intervals
  end.

Definition colors : list string :=
  ["#000000"; "#e41a1c"; "#377eb8"; "#4daf4a"; "#984ea3";
   "#ff7f00"; "#a65628"; "#f781bf"; "#ffff33"].

(** [color] *)
Definition color (idx : Z) : result string :=
  getitem colors (Z.to_nat (idx mod Z.of_nat (List.length colors))).

End Plot.

(** The values [generate_xvalues] is meant to return: [num] intervals of
    size [sz] from [start]. *)
Definition ticks (start num sz : Z) : list Z :=
  map (fun k => (start + Z.of_nat k * sz)%Z) (seq 0 (S (Z.to_nat num))).

(** A file of [m] lines of [n] numbers each. *)
Definition rectangular (n : nat) (rows : list (list R)) : Prop :=
  Forall (fun row => length row = n) rows.

Definition lines_of (rows : list (list R)) : list DailyData.line :=
  map (map Some) rows.

(** The lines of a file that hold at least one value. *)
Definition nonempty (row : list R) : bool := negb (length row =? 0)%nat.

(** What [DailyData.__init__] does with the lines of a file, in closed
    form. *)
Definition loaded (lines : list DailyData.line) : result DailyData.t :=
  match comprehension (comprehension DailyData.float) lines with
  | Raise _ => Raise ValueError
  | Ok parsed =>
    match filter nonempty parsed with
    | [] => Raise IndexError
    | row :: rows =>
      if forallb (fun r => (length r =? length row)%nat) rows
      then Ok (DailyData.mk (Z.of_nat (length row)) (concat (row :: rows)))
      else Raise IndexError
    end
  end.


(** The dictionary [res] of [Facade.run]: a list per key, and under
    ['layers'] one dictionary of lists per layer. *)
Module Results.

Record layer : Type := mk_layer
  { vwc : list R; wc : list R; t : list R; e : list R;
    influx : list R; outflux : list R; netflux : list R }.

Record dict : Type := mk
  { rain : list R; rootdepth : list R; rootvwc : list R; rootwc : list R;
    layers : list layer }.

End Results.

Module Facade.

Record t : Type := mk
  { dailydata : DailyData.t;
    model : SoilWater.t;
    results : option Results.dict }.

(** [__init__], from the lines of the daily data file and the parsed
    payload of the model input file. *)
Definition __init__ (lines : list DailyData.line) (ini : Ini.payload)
  (accdepth : R) : result (t * R) :=
  dd <- DailyData.__init__ lines ;;
  ' (m, accdepth) <- SoilWater.__init__ ini accdepth ;;
  Ok (mk dd m None, accdepth).

(** [show_progress]: the values the generator yields; the progress bar it
    prints is not modelled. *)
Definition show_progress (totalruns : Z) : list nat := range totalruns.

(** The call of [daily_water_balance] with the values of the day unpacked
    as its arguments. *)
Definition call_daily_water_balance (m : SoilWater.t) (args : DailyData.value)
  : result SoilWater.t :=
  match args with
  | DailyData.Floats [rain; lai; petcrop; petsoil] =>
    SoilWater.daily_water_balance m rain lai petcrop petsoil
  | _ => Raise TypeError
  end.

(** [v[0]] on what [DailyData.__getitem__] returns. *)
Definition first (v : DailyData.value) : result R :=
  match v with
  | DailyData.Floats xs => getitem xs 0
  | DailyData.Float _ => Raise TypeError
  end.

(** The seven appends to [res['layers'][j]], with the fluxes in mm/day. *)
Definition append_layer (d : Results.layer) (layer : SoilLayer.t)
  : Results.layer :=
  let f := SoilLayer.fluxes layer in
  Results.mk_layer
    (Results.vwc d ++ [SoilLayer.vwc layer])
    (Results.wc d ++ [SoilLayer.wc layer])
    (Results.t d ++ [Fluxes.t f * 1000])
    (Results.e d ++ [Fluxes.e f * 1000])
    (Results.influx d ++ [Fluxes.influx f * 1000])
    (Results.outflux d ++ [Fluxes.outflux f * 1000])
    (Results.netflux d ++ [Fluxes.netflux f * 1000]).

(** The loop [for j, layer in enumerate(self.model.layers)]. *)
Fixpoint record_layers (j : nat) (ls : list SoilLayer.t)
  (out : list Results.layer) : result (list Results.layer) :=
  match ls with
  | [] => Ok out
  | layer :: rest =>
    d <- getitem out j ;;
    record_layers (S j) rest (setitem out j (append_layer d layer))
  end.

(** One day of the loop of [run]; the lines written to the output file are
    not modelled. *)
Definition day_step (dd : DailyData.t) (st : SoilWater.t * Results.dict)
  (i : nat) : result (SoilWater.t * Results.dict) :=
  let '(m, res) := st in
  let day := (Z.of_nat i + 1)%Z in
  args <- DailyData.__getitem__ dd day ;;
  m <- call_daily_water_balance m args ;;
  v <- DailyData.__getitem__ dd day ;;
  rain <- first v ;;
  ls <- record_layers 0 (SoilWater.layers m) (Results.layers res) ;;
  Ok (m,
      Results.mk (Results.rain res ++ [rain])
        (Results.rootdepth res ++ [SoilWater.rootdepth m])
        (Results.rootvwc res ++ [RootZone.vwc (SoilWater.rootwater m)])
        (Results.rootwc res ++ [RootZone.wc (SoilWater.rootwater m)])
        ls).

Definition empty_layer : Results.layer :=
  Results.mk_layer [] [] [] [] [] [] [].

(** [run] *)
Definition run (self : t) (duration : Z) : result t :=
  let nlayers := SoilWater.numlayers (model self) in
  let res :=
    Results.mk [] [] [] [] (map (fun _ => empty_layer) (range nlayers)) in
  ' (m, res) <- for_each (day_step (dailydata self))
                  (show_progress duration) (model self, res) ;;
  Ok (mk (dailydata self) m (Some res)).

End Facade.










(** No layers declared. *)
Definition ini_no_layers : Ini.payload := payload_of 4 0.5 false 0 [].

(** Roots declared at the surface. *)
Definition ini_no_roots : Ini.payload :=
  payload_of 4 0 false 1 [Ini.mk_layer 1 0.25 loam].

(** One layer of pure sand. *)
Definition ini_sand : Ini.payload :=
  payload_of 4 0.5 false 1 [Ini.mk_layer 1 0.1 (Texture.mk 0 100 0)].





(** The evaporation taken from the layer at position [j]: all of it from
    the first layer. *)
Definition evaporation (self : SoilWater.t) (j : nat) : R :=
  match j with
  | O => ActualET.soil (SoilWater.aet self) / 1000
  | S _ => 0
  end.

(** The invariant of the first loop of [_calc_water_fluxes] for the fluxes
    at the surface; [ks] is the saturated conductivity of the first
    layer. *)
Definition surface_inv (self : SoilWater.t) (ks : R) (i : nat)
  (st : list SoilLayer.t * list Fluxes.tuple * R) : Prop :=
  let '(ls, pf, _) := st in
  (i = 0%nat -> forall l, nth_error ls 0 = Some l -> SoilLayer.ksat l = ks) /\
  forall j f, (j < i)%nat -> nth_error pf j = Some f ->
    Fluxes.e f = evaporation self j /\
    (j = 0%nat ->
     Fluxes.influx f
     = py_min (SoilWater.netrain self / 1000) ks - Fluxes.e f - Fluxes.t f).


(** A data file with three values a line. *)
Definition three_columns : list (list R) := [[5; 2; 3]; [0; 2; 4]].

(** * Verification *)

(** ** The float operations *)

Lemma Rltb_spec (x y : R) : reflect (x < y) (Rltb x y).
Proof. unfold Rltb. destruct (Rlt_dec x y); constructor; assumption. Qed.

Lemma Rleb_spec (x y : R) : reflect (x <= y) (Rleb x y).
Proof. unfold Rleb. destruct (Rle_dec x y); constructor; assumption. Qed.

Lemma Reqb_spec (x y : R) : reflect (x = y) (Reqb x y).
Proof. unfold Reqb. destruct (Req_dec_T x y); constructor; assumption. Qed.

Lemma Rltb_true (x y : R) : x < y -> Rltb x y = true.
Proof. intros H. destruct (Rltb_spec x y); [reflexivity | contradiction]. Qed.

Lemma Rltb_false (x y : R) : y <= x -> Rltb x y = false.
Proof. intros H. destruct (Rltb_spec x y); [lra | reflexivity]. Qed.



Lemma Reqb_true (x y : R) : x = y -> Reqb x y = true.
Proof. intros H. destruct (Reqb_spec x y); [reflexivity | contradiction]. Qed.

Lemma Reqb_false (x y : R) : x <> y -> Reqb x y = false.
Proof. intros H. destruct (Reqb_spec x y); [contradiction | reflexivity]. Qed.

(** Case analysis on every comparison of the goal. *)
Ltac cmp_cases :=
  repeat match goal with
  | |- context [Rltb ?a ?b] => destruct (Rltb_spec a b)
  | |- context [Rleb ?a ?b] => destruct (Rleb_spec a b)
  | |- context [Reqb ?a ?b] => destruct (Reqb_spec a b)
  end.

Lemma py_max_Rmax (a b : R) : py_max a b = Rmax a b.
Proof.
  unfold py_max, Rmax. cmp_cases; destruct (Rle_dec a b); lra.
Qed.

Lemma py_min_Rmin (a b : R) : py_min a b = Rmin a b.
Proof.
  unfold py_min, Rmin. cmp_cases; destruct (Rle_dec a b); lra.
Qed.

Lemma py_max_l (a b : R) : a <= py_max a b.
Proof. unfold py_max. cmp_cases; lra. Qed.

Lemma py_max_r (a b : R) : b <= py_max a b.
Proof. unfold py_max. cmp_cases; lra. Qed.

Lemma py_min_l (a b : R) : py_min a b <= a.
Proof. unfold py_min. cmp_cases; lra. Qed.

Lemma py_min_r (a b : R) : py_min a b <= b.
Proof. unfold py_min. cmp_cases; lra. Qed.

Lemma truediv_ok (x y : R) : y <> 0 -> truediv x y = Ok (x / y).
Proof. intros H. unfold truediv. now rewrite Reqb_false. Qed.

Lemma truediv_zero (x : R) : truediv x 0 = Raise ZeroDivisionError.
Proof. unfold truediv. now rewrite Reqb_true. Qed.

Lemma truediv_inv (x y v : R) : truediv x y = Ok v -> y <> 0 /\ v = x / y.
Proof.
  unfold truediv. destruct (Reqb_spec y 0); [discriminate |].
  intros H. injection H as <-. now split.
Qed.

Lemma math_log_ok (x : R) : 0 < x -> math_log x = Ok (ln x).
Proof. intros H. unfold math_log. now rewrite Rltb_true. Qed.

Lemma math_log_inv (x v : R) : math_log x = Ok v -> 0 < x /\ v = ln x.
Proof.
  unfold math_log. destruct (Rltb_spec 0 x); [| discriminate].
  intros H. injection H as <-. now split.
Qed.

Lemma float_pow_pos (x y : R) : 0 < x -> float_pow x y = Ok (Rpower x y).
Proof. intros H. unfold float_pow. now rewrite Rltb_true. Qed.

Lemma Rpower_pos (x y : R) : 0 < Rpower x y.
Proof. unfold Rpower. apply exp_pos. Qed.

Lemma Rpower_one (y : R) : Rpower 1 y = 1.
Proof. unfold Rpower. rewrite ln_1, Rmult_0_r. apply exp_0. Qed.

(** [1.0 ** y] is 1 whatever the exponent. *)
Lemma float_pow_one (y : R) : float_pow 1 y = Ok 1.
Proof. rewrite float_pow_pos by lra. now rewrite Rpower_one. Qed.

Lemma bind_inv {A B : Type} (c : result A) (f : A -> result B) (b : B) :
  bind c f = Ok b -> exists a, c = Ok a /\ f a = Ok b.
Proof. destruct c as [a | e]; simpl; [eauto | discriminate]. Qed.

Lemma bind_ok {A B : Type} (c : result A) (f : A -> result B) (a : A) :
  c = Ok a -> bind c f = f a.
Proof. now intros ->. Qed.

(** Inversion of a successful sequence of binds. *)
Ltac bind_inv H :=
  let a := fresh "v" in
  let H1 := fresh "E" in
  apply bind_inv in H; destruct H as (a & H1 & H).

(** ** Lists *)

Lemma getitem_inv {A : Type} (xs : list A) (i : nat) (x : A) :
  getitem xs i = Ok x -> nth_error xs i = Some x.
Proof. unfold getitem. destruct (nth_error xs i); congruence. Qed.

Lemma getitem_ok {A : Type} (xs : list A) (i : nat) (x : A) :
  nth_error xs i = Some x -> getitem xs i = Ok x.
Proof. unfold getitem. now intros ->. Qed.

Lemma getitem_lt {A : Type} (xs : list A) (i : nat) :
  (i < length xs)%nat -> exists x, getitem xs i = Ok x.
Proof.
  intros H. unfold getitem. destruct (nth_error xs i) eqn:E; [eauto |].
  apply nth_error_None in E. lia.
Qed.

Lemma length_setitem {A : Type} (xs : list A) (i : nat) (v : A) :
  length (setitem xs i v) = length xs.
Proof.
  revert i. induction xs as [| x xs IH]; intros [| i]; simpl; auto.
Qed.

Lemma nth_setitem_eq {A : Type} (xs : list A) (i : nat) (v : A) :
  (i < length xs)%nat -> nth_error (setitem xs i v) i = Some v.
Proof.
  revert i. induction xs as [| x xs IH]; intros [| i]; simpl; intros H;
    try lia; auto. apply IH. lia.
Qed.

Lemma nth_setitem_neq {A : Type} (xs : list A) (i j : nat) (v : A) :
  i <> j -> nth_error (setitem xs i v) j = nth_error xs j.
Proof.
  revert i j. induction xs as [| x xs IH]; intros [| i] [| j] H; simpl;
    auto; try congruence.
Qed.

Lemma map_setitem {A B : Type} (f : A -> B) (xs : list A) (i : nat)
  (x v : A) :
  nth_error xs i = Some x -> f v = f x ->
  map f (setitem xs i v) = map f xs.
Proof.
  revert i. induction xs as [| y xs IH]; intros [| i]; simpl; intros H E;
    try discriminate.
  - injection H as ->. now rewrite E.
  - f_equal. now apply IH.
Qed.

Lemma getlast_inv {A : Type} (xs : list A) (x : A) :
  getlast xs = Ok x -> nth_error xs (length xs - 1) = Some x /\ xs <> [].
Proof.
  destruct xs as [| y ys]; [discriminate |]. unfold getlast.
  intros H. apply getitem_inv in H. split; [assumption | discriminate].
Qed.

Lemma getlast_ok {A : Type} (xs : list A) (x : A) :
  nth_error xs (length xs - 1) = Some x -> xs <> [] -> getlast xs = Ok x.
Proof.
  destruct xs as [| y ys]; [congruence |]. intros H _. unfold getlast.
  now apply getitem_ok.
Qed.

(** ** [update_heads_k] *)

Lemma update_heads_k_shape (l l' : SoilLayer.t) :
  SoilLayer.update_heads_k l = Ok l' ->
  exists hm hg kk, l' = SoilLayer.set_heads_k l hm hg kk.
Proof.
  unfold SoilLayer.update_heads_k. intros H.
  bind_inv H. bind_inv H. bind_inv H. injection H as <-. eauto.
Qed.

Lemma update_heads_k_set (l : SoilLayer.t) (a b c : R) :
  SoilLayer.update_heads_k (SoilLayer.set_heads_k l a b c)
  = SoilLayer.update_heads_k l.
Proof. reflexivity. Qed.

(** Claim C9.  The update of the heads and of the conductivity is
    idempotent: run on its own result, with the water content unchanged, it
    gives that result again; it raises on the second run only what it would
    raise on the first. *)
Theorem update_heads_k_idempotent (l : SoilLayer.t) :
  (l1 <- SoilLayer.update_heads_k l ;; SoilLayer.update_heads_k l1)
  = SoilLayer.update_heads_k l.
Proof.
  destruct (SoilLayer.update_heads_k l) as [l1 | e] eqn:E; simpl;
    [| reflexivity].
  destruct (update_heads_k_shape _ _ E) as (hm & hg & kk & ->).
  now rewrite update_heads_k_set.
Qed.

Lemma update_heads_k_frame (l l' : SoilLayer.t) :
  SoilLayer.update_heads_k l = Ok l' ->
  SoilLayer.thick l' = SoilLayer.thick l /\
  SoilLayer.texture l' = SoilLayer.texture l /\
  SoilLayer.vwc l' = SoilLayer.vwc l /\
  SoilLayer.wc l' = SoilLayer.wc l /\
  SoilLayer.accthick l' = SoilLayer.accthick l /\
  SoilLayer.depth l' = SoilLayer.depth l /\
  SoilLayer.swc l' = SoilLayer.swc l /\
  SoilLayer.ksat l' = SoilLayer.ksat l /\
  SoilLayer.fluxes l' = SoilLayer.fluxes l /\
  SoilLayer.gravity l' = SoilLayer.depth l.
Proof.
  intros H. pose proof H as H'. destruct (update_heads_k_shape _ _ H) as (hm & hg & kk & ->).
  simpl. repeat split; try reflexivity.
  unfold SoilLayer.update_heads_k in H'.
  bind_inv H'. bind_inv H'. bind_inv H'. injection H' as H'.
  unfold SoilLayer.set_heads_k in H'. congruence.
Qed.

Lemma update_heads_k_conducts (l l' : SoilLayer.t) :
  0 < SoilLayer.ksat l ->
  0 < SWC.sat (SoilLayer.swc l) ->
  0 < SoilLayer.vwc l ->
  SoilLayer.update_heads_k l = Ok l' ->
  0 < SoilLayer.k l'.
Proof.
  intros Hks Hsat Hv H.
  assert (Hr : 0 < SoilLayer.vwc l / SWC.sat (SoilLayer.swc l)).
  { apply Rdiv_lt_0_compat; lra. }
  unfold SoilLayer.update_heads_k in H.
  bind_inv H. bind_inv H. bind_inv H. injection H as <-. simpl.
  apply truediv_inv in E0. destruct E0 as [_ ->].
  destruct (Rltb _ _) in E1.
  - bind_inv E1. bind_inv E1. injection E1 as <-.
    rewrite float_pow_pos in E2 by assumption. injection E2 as <-.
    apply Rmult_lt_0_compat; [assumption | apply Rpower_pos].
  - injection E1 as <-. assumption.
Qed.

Lemma update_heads_k_succeeds (l : SoilLayer.t) :
  0 < SWC.sat (SoilLayer.swc l) ->
  0 < SWC.psd (SoilLayer.swc l) ->
  0 < SoilLayer.vwc l ->
  SWC.fc (SoilLayer.swc l) <> SWC.sat (SoilLayer.swc l) \/
  SoilLayer.vwc l < SWC.fc (SoilLayer.swc l) ->
  succeeds (SoilLayer.update_heads_k l).
Proof.
  intros Hsat Hpsd Hv Hfc.
  assert (Hr : 0 < SoilLayer.vwc l / SWC.sat (SoilLayer.swc l)).
  { apply Rdiv_lt_0_compat; lra. }
  unfold succeeds, SoilLayer.update_heads_k.
  assert (Hhm : exists hm,
    (if Rleb (SWC.fc (SoilLayer.swc l)) (SoilLayer.vwc l)
     then
      q <- truediv ((33 - SWC.airentry (SoilLayer.swc l)) *
             (SoilLayer.vwc l - SWC.fc (SoilLayer.swc l)))
            (SWC.sat (SoilLayer.swc l) - SWC.fc (SoilLayer.swc l)) ;;
      Ok ((33 - q) / 10)
     else
      b <- truediv 1 (SWC.psd (SoilLayer.swc l)) ;;
      lfc <- math_log (SWC.fc (SoilLayer.swc l)) ;;
      p <- float_pow (py_max 0.05 (SoilLayer.vwc l)) (- b) ;;
      Ok (exp (3.496508 + b * lfc) * p / 10)) = Ok hm).
  { destruct (Rleb_spec (SWC.fc (SoilLayer.swc l)) (SoilLayer.vwc l)).
    - rewrite truediv_ok by lra. simpl. eauto.
    - rewrite truediv_ok by lra. simpl.
      rewrite math_log_ok by lra. simpl.
      rewrite float_pow_pos. + simpl. eauto.
      + pose proof (py_max_l 0.05 (SoilLayer.vwc l)). lra. }
  destruct Hhm as (hm & ->). simpl.
  rewrite truediv_ok by lra. simpl.
  destruct (Rltb _ _).
  + rewrite truediv_ok by lra. simpl.
    rewrite float_pow_pos by assumption. simpl. eauto.
  + simpl. eauto.
Qed.


(** ** The special codes of the initial water content *)

Lemma special_code_cases (w : SWC.tuple) (v : R) :
  (v = -1 -> SoilLayer.special_code w v = SWC.sat w) /\
  (v = -2 -> SoilLayer.special_code w v = SWC.fc w) /\
  (v = -3 -> SoilLayer.special_code w v = SWC.pwp w) /\
  (-2 <= v <= -1 ->
   SoilLayer.special_code w v
   = SWC.sat w - (- v - 1) * (SWC.sat w - SWC.fc w)) /\
  (-3 < v <= -2 ->
   SoilLayer.special_code w v
   = SWC.fc w - (- v - 2) * (SWC.fc w - SWC.pwp w)) /\
  (v < -3 \/ -1 < v -> SoilLayer.special_code w v = SWC.fc w).
Proof.
  unfold SoilLayer.special_code.
  repeat split; intros H; cmp_cases; simpl; try lra;
    try (subst v; lra); try (destruct H; lra).
  - assert (v = -2) by lra. subst v. lra.
Qed.



(** ** Loops *)

Lemma for_each_seq_post {S : Type} (body : S -> nat -> result S)
  (Inv : nat -> S -> Prop) (m : nat) :
  forall (i0 : nat) (st0 st' : S),
    (forall i st st1, (i0 <= i < i0 + m)%nat ->
       Inv i st -> body st i = Ok st1 -> Inv (Datatypes.S i) st1) ->
    Inv i0 st0 ->
    for_each body (seq i0 m) st0 = Ok st' ->
    Inv (i0 + m)%nat st'.
Proof.
  induction m as [| m IH]; intros i0 st0 st' Hstep H0 H; simpl in H.
  - injection H as <-. now rewrite Nat.add_0_r.
  - bind_inv H. replace (i0 + Datatypes.S m)%nat with (Datatypes.S i0 + m)%nat by lia.
    apply (IH (Datatypes.S i0) v st'); [| | assumption].
    + intros i st st1 Hi. apply Hstep. lia.
    + apply (Hstep i0 st0 v); [lia | assumption | assumption].
Qed.

Lemma for_each_seq_progress {S : Type} (body : S -> nat -> result S)
  (Inv : nat -> S -> Prop) (m : nat) :
  forall (i0 : nat) (st0 : S),
    (forall i st, (i0 <= i < i0 + m)%nat -> Inv i st ->
       exists st1, body st i = Ok st1 /\ Inv (Datatypes.S i) st1) ->
    Inv i0 st0 ->
    exists st', for_each body (seq i0 m) st0 = Ok st' /\ Inv (i0 + m)%nat st'.
Proof.
  induction m as [| m IH]; intros i0 st0 Hstep H0; simpl.
  - exists st0. now rewrite Nat.add_0_r.
  - destruct (Hstep i0 st0) as (st1 & E & H1); [lia | assumption |].
    rewrite E. simpl.
    replace (i0 + Datatypes.S m)%nat with (Datatypes.S i0 + m)%nat by lia.
    apply IH; [| assumption].
    intros i st Hi. apply Hstep. lia.
Qed.

Lemma Forall_setitem {A : Type} (P : A -> Prop) (xs : list A) (i : nat)
  (v : A) :
  Forall P xs -> P v -> Forall P (setitem xs i v).
Proof.
  intros H Hv. revert i. induction H as [| x xs Hx Hxs IH]; intros [| i];
    simpl; constructor; auto.
Qed.

Lemma Forall_nth_error {A : Type} (P : A -> Prop) (xs : list A) (i : nat)
  (x : A) :
  Forall P xs -> nth_error xs i = Some x -> P x.
Proof.
  intros H E. rewrite Forall_forall in H. apply H.
  eapply nth_error_In; eassumption.
Qed.

Lemma Forall_of_nth {A : Type} (P : A -> Prop) (xs : list A) :
  (forall j x, (j < length xs)%nat -> nth_error xs j = Some x -> P x) ->
  Forall P xs.
Proof.
  intros H. apply Forall_forall. intros x Hin.
  apply In_nth_error in Hin. destruct Hin as (j & Hj).
  apply (H j); [| assumption].
  apply nth_error_Some. congruence.
Qed.

Lemma depths_distinct_setitem (ls : list SoilLayer.t) (i : nat)
  (x v : SoilLayer.t) :
  depths_distinct ls -> nth_error ls i = Some x ->
  SoilLayer.depth v = SoilLayer.depth x ->
  depths_distinct (setitem ls i v).
Proof.
  intros H Hx Hd j a b Ha Hb.
  assert (Hi : (i < length ls)%nat) by (apply nth_error_Some; congruence).
  assert (Da : exists a0, nth_error ls j = Some a0 /\
                          SoilLayer.depth a = SoilLayer.depth a0).
  { destruct (Nat.eq_dec i j) as [-> | Hn].
    - rewrite nth_setitem_eq in Ha by assumption. injection Ha as <-. eauto.
    - rewrite nth_setitem_neq in Ha by assumption. eauto. }
  assert (Db : exists b0, nth_error ls (S j) = Some b0 /\
                          SoilLayer.depth b = SoilLayer.depth b0).
  { destruct (Nat.eq_dec i (S j)) as [-> | Hn].
    - rewrite nth_setitem_eq in Hb by assumption. injection Hb as <-. eauto.
    - rewrite nth_setitem_neq in Hb by assumption. eauto. }
  destruct Da as (a0 & Ea & ->). destruct Db as (b0 & Eb & ->).
  now apply (H j).
Qed.

(** ** The two loops of [_calc_water_fluxes], step by step *)

Lemma influx_step_inv (self : SoilWater.t) (ls : list SoilLayer.t)
  (pf : list Fluxes.tuple) (prvpsi : R) (idx : nat)
  (ls' : list SoilLayer.t) (pf' : list Fluxes.tuple) (curpsi : R) :
  SoilWater.influx_step self (ls, pf, prvpsi) idx = Ok (ls', pf', curpsi) ->
  exists cur0 cur f ei curinflux,
    nth_error ls idx = Some cur0 /\
    SoilLayer.update_heads_k cur0 = Ok cur /\
    ls' = setitem ls idx cur /\
    nth_error pf idx = Some f /\
    SoilWater.rootdepth self <> 0 /\
    curpsi = psi (py_min 1 (SoilLayer.accthick cur / SoilWater.rootdepth self)) /\
    pf' = setitem pf idx
            (Fluxes.set_pass1 f
               (ActualET.crop (SoilWater.aet self) * (curpsi - prvpsi) / 1000)
               ei curinflux).
Proof.
  unfold SoilWater.influx_step. intros H.
  bind_inv H. bind_inv H. bind_inv H. bind_inv H. bind_inv H. bind_inv H.
  injection H as <- <- <-.
  apply getitem_inv in E, E4. apply truediv_inv in E2. destruct E2 as [Hrd ->].
  exists v, v0, v4. do 2 eexists. repeat split; try eassumption; reflexivity.
Qed.

Lemma netflux_step_inv (self : SoilWater.t) (ls : list SoilLayer.t)
  (pf cumm : list Fluxes.tuple) (idx : nat)
  (ls' : list SoilLayer.t) (pf' cumm' : list Fluxes.tuple) :
  SoilWater.netflux_step self (ls, pf, cumm) idx = Ok (ls', pf', cumm') ->
  exists cur f raw pf1 f1 cf cf',
    let influx := Fluxes.influx f in
    let wc := SoilLayer.vwc cur * SoilLayer.thick cur in
    let outflux := SoilWater.bounded_outflux cur influx wc raw in
    let f2 := Fluxes.set_netflux (Fluxes.set_outflux f1 outflux)
                (Fluxes.influx f1 - outflux) in
    nth_error ls idx = Some cur /\
    nth_error pf idx = Some f /\
    SoilWater.raw_outflux self ls pf idx cur = Ok raw /\
    (if (Z.of_nat idx <? SoilWater.numlayers self - 1)%Z
     then exists fnext, nth_error pf (idx + 1) = Some fnext /\
            pf1 = setitem pf (idx + 1) (Fluxes.set_influx fnext outflux)
     else pf1 = pf) /\
    nth_error pf1 idx = Some f1 /\
    pf' = setitem pf1 idx f2 /\
    IZR (SoilWater.numintervals self) <> 0 /\
    SoilLayer.thick cur <> 0 /\
    ls' = setitem ls idx
            (SoilWater.set_water cur
               (py_max 0.005
                  (py_min (SWC.sat (SoilLayer.swc cur))
                     ((wc + Fluxes.netflux f2 / IZR (SoilWater.numintervals self))
                      / SoilLayer.thick cur)))) /\
    nth_error cumm idx = Some cf /\
    SoilWater.accumulate (SoilWater.numintervals self) cf f2 = Ok cf' /\
    cumm' = setitem cumm idx cf'.
Proof.
  unfold SoilWater.netflux_step. intros H.
  bind_inv H. bind_inv H. bind_inv H. bind_inv H. bind_inv H. bind_inv H.
  bind_inv H. bind_inv H. bind_inv H.
  injection H as <- <- <-.
  apply getitem_inv in E, E0, E3, E6.
  apply truediv_inv in E4, E5. destruct E4 as [Hn ->]. destruct E5 as [Ht ->].
  exists v, v0, v1, v2, v3, v6, v7. cbv zeta.
  repeat split; try eassumption; try reflexivity.
  destruct (Z.of_nat idx <? SoilWater.numlayers self - 1)%Z.
  - bind_inv E2. injection E2 as <-. apply getitem_inv in E4. eauto.
  - now injection E2 as <-.
Qed.

Lemma calc_inv (self : SoilWater.t) (cumm : list Fluxes.tuple)
  (petcrop petsoil : R) (self' : SoilWater.t) (cumm' : list Fluxes.tuple) :
  SoilWater._calc_water_fluxes self cumm petcrop petsoil = Ok (self', cumm') ->
  exists rz ws ls1 pf1 psi1 ls2 pf2,
    let self0 := SoilWater.set_waterstresses (SoilWater.set_prz self rz) ws in
    let self1 :=
      SoilWater.set_aet self0 (SoilWater._actual_et self0 petcrop petsoil) in
    SoilWater._rootzone_water self = Ok rz /\
    SoilWater._reduce_et (SoilWater.set_prz self rz) = Ok ws /\
    for_each (SoilWater.influx_step self1) (range (SoilWater.numlayers self))
      (SoilWater.layers self, SoilWater.pf self, 0) = Ok (ls1, pf1, psi1) /\
    for_each (SoilWater.netflux_step self1) (range (SoilWater.numlayers self))
      (ls1, pf1, cumm) = Ok (ls2, pf2, cumm') /\
    self' = SoilWater.set_pf (SoilWater.set_layers self1 ls2) pf2.
Proof.
  unfold SoilWater._calc_water_fluxes. intros H.
  bind_inv H. bind_inv H. bind_inv H. destruct v1 as [[ls1 pf1] psi1].
  bind_inv H. destruct v1 as [[ls2 pf2] cumm2].
  injection H as <- <-.
  exists v, v0, ls1, pf1, psi1, ls2, pf2. cbv zeta.
  repeat split; assumption.
Qed.

Lemma influx_pass_length (self : SoilWater.t) (m i0 : nat)
  (ls : list SoilLayer.t) (pf : list Fluxes.tuple) (p : R)
  (ls' : list SoilLayer.t) (pf' : list Fluxes.tuple) (p' : R) :
  for_each (SoilWater.influx_step self) (seq i0 m) (ls, pf, p)
  = Ok (ls', pf', p') ->
  length ls' = length ls /\ length pf' = length pf.
Proof.
  intros H.
  apply (for_each_seq_post (SoilWater.influx_step self)
           (fun _ st => length (fst (fst st)) = length ls /\
                        length (snd (fst st)) = length pf)
           m i0 (ls, pf, p) (ls', pf', p')); [| now split | assumption].
  intros i [[a b] c] [[a1 b1] c1] _ [Ha Hb] Hs. simpl in *.
  apply influx_step_inv in Hs.
  destruct Hs as (cur0 & cur & f & ei & ci & _ & _ & -> & _ & _ & _ & ->).
  now rewrite !length_setitem.
Qed.

Lemma clipped_set_water (cur : SoilLayer.t) (v : R) :
  clipped (SoilWater.set_water cur
             (py_max 0.005 (py_min (SWC.sat (SoilLayer.swc cur)) v))).
Proof.
  unfold clipped. simpl. split; [apply py_max_l |].
  rewrite py_max_Rmax, py_min_Rmin.
  apply Rmax_lub; [apply Rmax_l |].
  eapply Rle_trans; [apply Rmin_l | apply Rmax_r].
Qed.

Lemma netflux_pass_clipped (self : SoilWater.t) (m : nat)
  (ls : list SoilLayer.t) (pf cumm : list Fluxes.tuple)
  (ls' : list SoilLayer.t) (pf' cumm' : list Fluxes.tuple) :
  for_each (SoilWater.netflux_step self) (seq 0 m) (ls, pf, cumm)
  = Ok (ls', pf', cumm') ->
  length ls' = length ls /\
  forall j l, (j < m)%nat -> nth_error ls' j = Some l -> clipped l.
Proof.
  intros H.
  apply (for_each_seq_post (SoilWater.netflux_step self)
           (fun i st => length (fst (fst st)) = length ls /\
              forall j l, (j < i)%nat ->
                nth_error (fst (fst st)) j = Some l -> clipped l)
           m 0%nat (ls, pf, cumm) (ls', pf', cumm')); [| | assumption].
  - intros i [[a b] c] [[a1 b1] c1] _ [Ha Hb] Hs. simpl in *.
    apply netflux_step_inv in Hs.
    destruct Hs as (cur & f & raw & pf1 & f1 & cf & cf' & Hs). cbv zeta in Hs.
    destruct Hs as (Hcur & _ & _ & _ & _ & _ & _ & _ & -> & _).
    rewrite length_setitem. split; [assumption |].
    intros j l Hj Hl.
    destruct (Nat.eq_dec i j) as [<- | Hn].
    + rewrite nth_setitem_eq in Hl.
      * injection Hl as <-. apply clipped_set_water.
      * apply nth_error_Some. congruence.
    + rewrite nth_setitem_neq in Hl by assumption.
      apply (Hb j); [lia | assumption].
  - simpl. split; [reflexivity |]. intros j l Hj. lia.
Qed.

Lemma calc_clipped (self : SoilWater.t)
  (cumm : list Fluxes.tuple) (petcrop petsoil : R)
  (self' : SoilWater.t) (cumm' : list Fluxes.tuple) :
  shaped self ->
  SoilWater._calc_water_fluxes self cumm petcrop petsoil = Ok (self', cumm') ->
  Forall clipped (SoilWater.layers self').
Proof.
  intros [Hl Hp] H.
  apply calc_inv in H.
  destruct H as (rz & ws & ls1 & pf1 & psi1 & ls2 & pf2 & H). cbv zeta in H.
  destruct H as (_ & _ & H1 & H2 & ->). simpl.
  apply influx_pass_length in H1. destruct H1 as [L1 _].
  apply netflux_pass_clipped in H2. destruct H2 as [L2 C].
  apply Forall_of_nth. intros j l Hlt Hj.
  apply (C j); [| assumption]. rewrite L2, L1, Hl in Hlt. exact Hlt.
Qed.

(** Claim C1, amended.  After a sub-interval every layer holds at least
    the dry floor 0.005 and at most the larger of the dry floor and its
    saturation point; a layer whose saturation point is at least 0.005 holds
    at most its saturation point. *)
Theorem water_content_clipped (self : SoilWater.t)
  (cumm : list Fluxes.tuple) (petcrop petsoil : R)
  (self' : SoilWater.t) (cumm' : list Fluxes.tuple) :
  shaped self ->
  SoilWater._calc_water_fluxes self cumm petcrop petsoil = Ok (self', cumm') ->
  forall l, In l (SoilWater.layers self') ->
    0.005 <= SoilLayer.vwc l /\
    SoilLayer.vwc l <= Rmax 0.005 (SWC.sat (SoilLayer.swc l)) /\
    (0.005 <= SWC.sat (SoilLayer.swc l) ->
     SoilLayer.vwc l <= SWC.sat (SoilLayer.swc l)).
Proof.
  intros Hsh H l Hin.
  pose proof (calc_clipped _ _ _ _ _ _ Hsh H) as C.
  rewrite Forall_forall in C. destruct (C l Hin) as [Hlo Hhi].
  repeat split; try assumption.
  intros Hs. rewrite Rmax_right in Hhi; assumption.
Qed.

(** ** A sub-interval on a sound model raises nothing *)

Lemma layer_sound_statics (l l' : SoilLayer.t) :
  statics l' = statics l -> layer_sound l -> layer_sound l'.
Proof.
  unfold statics. intros E [H1 H2 H3 H4 H5 H6].
  injection E as E1 E2 E3 E4 E5 E6.
  constructor; congruence.
Qed.

Lemma update_heads_k_statics (l l' : SoilLayer.t) :
  SoilLayer.update_heads_k l = Ok l' ->
  statics l' = statics l /\ SoilLayer.vwc l' = SoilLayer.vwc l.
Proof.
  intros H. apply update_heads_k_frame in H.
  destruct H as (H1 & H2 & H3 & H4 & H5 & H6 & H7 & H8 & _).
  unfold statics. split; congruence.
Qed.

Lemma update_heads_k_progress (l : SoilLayer.t) :
  layer_sound l -> moist l ->
  exists l', SoilLayer.update_heads_k l = Ok l' /\
             layer_sound l' /\ moist l' /\ conducting l' /\
             SoilLayer.depth l' = SoilLayer.depth l.
Proof.
  intros Hs Hm. pose proof Hs as [H1 H2 H3 H4 H5 H6]. unfold moist in Hm.
  destruct (update_heads_k_succeeds l) as (l' & E); auto.
  exists l'. split; [assumption |].
  destruct (update_heads_k_statics _ _ E) as [Est Ev].
  split; [eapply layer_sound_statics; eassumption |].
  split; [unfold moist; now rewrite Ev |].
  split; [eapply update_heads_k_conducts; eassumption |].
  apply update_heads_k_frame in E. tauto.
Qed.

Section SubInterval.

Variable self : SoilWater.t.
Variable n : nat.
Hypothesis Hn : SoilWater.numlayers self = Z.of_nat n.
Hypothesis Hrd : SoilWater.rootdepth self <> 0.
Hypothesis Hni : SoilWater.numintervals self <> 0%Z.

Lemma influx_step_progress (i : nat)
  (st : list SoilLayer.t * list Fluxes.tuple * R) :
  (i < n)%nat -> influx_inv n i st ->
  exists st1, SoilWater.influx_step self st i = Ok st1 /\
              influx_inv n (S i) st1.
Proof.
  destruct st as [[ls pf] p]. intros Hi (Ll & Lp & Hs & Hm & Hd & Hk).
  destruct (getitem_lt ls i) as (cur0 & E0); [lia |].
  pose proof (getitem_inv _ _ _ E0) as N0.
  destruct (update_heads_k_progress cur0) as (cur & E1 & S1 & M1 & K1 & D1).
  { eapply Forall_nth_error; eassumption. }
  { eapply Forall_nth_error; eassumption. }
  destruct (getitem_lt pf i) as (f & E2); [lia |].
  assert (Hd1 : depths_distinct (setitem ls i cur)).
  { eapply depths_distinct_setitem; eassumption. }
  assert (Hcur : nth_error (setitem ls i cur) i = Some cur).
  { apply nth_setitem_eq. lia. }
  unfold SoilWater.influx_step. rewrite E0. simpl. rewrite E1. simpl.
  assert (Hinv : forall p' pf',
            length pf' = n -> influx_inv n (S i) (setitem ls i cur, pf', p')).
  { intros p' pf' Hpf'. unfold influx_inv. rewrite length_setitem.
    repeat split; auto using Forall_setitem.
    intros j l Hj Hl. destruct (Nat.eq_dec i j) as [<- | Hne].
    - rewrite Hcur in Hl. now injection Hl as <-.
    - rewrite nth_setitem_neq in Hl by assumption.
      apply (Hk j); [lia | assumption]. }
  destruct i as [| j].
  - simpl. rewrite truediv_ok by assumption. simpl. rewrite E2. simpl.
    eexists. split; [reflexivity |]. apply Hinv. now rewrite length_setitem.
  - destruct (getitem_lt ls j) as (prv & E3); [lia |].
    pose proof (getitem_inv _ _ _ E3) as N3.
    assert (Hprv : nth_error (setitem ls (S j) cur) j = Some prv).
    { rewrite nth_setitem_neq by lia. assumption. }
    rewrite (getitem_ok _ _ _ Hprv). simpl.
    rewrite truediv_ok by assumption. simpl.
    rewrite (math_log_ok (SoilLayer.k cur)) by exact K1. simpl.
    rewrite (math_log_ok (SoilLayer.k prv)) by (apply (Hk j); [lia | assumption]).
    simpl.
    assert (Hg : SoilLayer.depth cur - SoilLayer.depth prv <> 0).
    { pose proof (Hd1 j prv cur Hprv Hcur). lra. }
    destruct (Reqb_spec (ln (SoilLayer.k cur) - ln (SoilLayer.k prv)) 0);
      simpl.
    + rewrite truediv_ok by assumption. simpl. rewrite E2. simpl.
      eexists. split; [reflexivity |]. apply Hinv. now rewrite length_setitem.
    + rewrite truediv_ok by assumption. simpl.
      rewrite truediv_ok by assumption. simpl. rewrite E2. simpl.
      eexists. split; [reflexivity |]. apply Hinv. now rewrite length_setitem.
Qed.

Lemma accumulate_ok (cf f : Fluxes.tuple) :
  succeeds (SoilWater.accumulate (SoilWater.numintervals self) cf f).
Proof.
  assert (H : IZR (SoilWater.numintervals self) <> 0) by now apply not_0_IZR.
  unfold succeeds, SoilWater.accumulate.
  rewrite !truediv_ok by assumption. simpl. eauto.
Qed.

Lemma netflux_step_progress (i : nat)
  (st : list SoilLayer.t * list Fluxes.tuple * list Fluxes.tuple) :
  (i < n)%nat ->
  (S i < n)%nat \/ SoilWater.has_watertable self = false ->
  netflux_inv n i st ->
  exists st1, SoilWater.netflux_step self st i = Ok st1 /\
              netflux_inv n (S i) st1.
Proof.
  destruct st as [[ls pf] cumm].
  intros Hi Hwt (Ll & Lp & Lc & Hs & Hm & Hd & Hk).
  assert (HZ : IZR (SoilWater.numintervals self) <> 0) by now apply not_0_IZR.
  destruct (getitem_lt ls i) as (cur & E0); [lia |].
  pose proof (getitem_inv _ _ _ E0) as N0.
  destruct (getitem_lt pf i) as (f & E1); [lia |].
  destruct (getitem_lt cumm i) as (cf & E2); [lia |].
  pose proof (Forall_nth_error _ _ _ _ Hs N0) as [T1 T2 T3 T4 T5 T6].
  unfold SoilWater.netflux_step. rewrite E0. simpl. rewrite E1. simpl.
  unfold SoilWater.raw_outflux. rewrite Hn.
  assert (Hfin : forall pf1 raw,
    length pf1 = n ->
    exists st1,
      (f0 <- getitem pf1 i ;;
       q <- truediv
              (Fluxes.netflux
                 (Fluxes.set_netflux (Fluxes.set_outflux f0 raw)
                    (Fluxes.influx (Fluxes.set_outflux f0 raw)
                     - Fluxes.outflux (Fluxes.set_outflux f0 raw))))
              (IZR (SoilWater.numintervals self)) ;;
       v <- truediv (SoilLayer.vwc cur * SoilLayer.thick cur + q)
              (SoilLayer.thick cur) ;;
       cf0 <- getitem cumm i ;;
       cf1 <- SoilWater.accumulate (SoilWater.numintervals self) cf0
                (Fluxes.set_netflux (Fluxes.set_outflux f0 raw)
                   (Fluxes.influx (Fluxes.set_outflux f0 raw)
                    - Fluxes.outflux (Fluxes.set_outflux f0 raw))) ;;
       Ok (setitem ls i
             (SoilWater.set_water cur
                (py_max 0.005 (py_min (SWC.sat (SoilLayer.swc cur)) v))),
           setitem pf1 i
             (Fluxes.set_netflux (Fluxes.set_outflux f0 raw)
                (Fluxes.influx (Fluxes.set_outflux f0 raw)
                 - Fluxes.outflux (Fluxes.set_outflux f0 raw))),
           setitem cumm i cf1)) = Ok st1 /\ netflux_inv n (S i) st1).
  { intros pf1 raw L1.
    destruct (getitem_lt pf1 i) as (f0 & E3); [lia |].
    rewrite E3. simpl. rewrite truediv_ok by assumption. simpl.
    rewrite truediv_ok by lra. simpl. rewrite E2. simpl.
    match goal with
    | |- context [SoilWater.accumulate ?a ?b ?c] =>
        destruct (accumulate_ok b c) as (cf1 & ->)
    end.
    simpl. eexists. split; [reflexivity |].
    unfold netflux_inv. rewrite !length_setitem.
    repeat split; auto.
    - apply Forall_setitem; [assumption |]. constructor; assumption.
    - apply Forall_setitem; [assumption |]. unfold moist. simpl.
      pose proof (py_max_l 0.005
        (py_min (SWC.sat (SoilLayer.swc cur))
           ((SoilLayer.vwc cur * SoilLayer.thick cur +
             (Fluxes.influx f0 - raw) / IZR (SoilWater.numintervals self))
            / SoilLayer.thick cur))).
      simpl in *. lra.
    - eapply depths_distinct_setitem; [eassumption | eassumption | reflexivity].
    - apply Forall_setitem; [assumption |].
      unfold conducting. simpl. eapply Forall_nth_error in Hk; eassumption. }
  destruct (Z.ltb_spec (Z.of_nat i) (Z.of_nat n - 1)).
  - destruct (getitem_lt pf (i + 1)) as (fn & E4); [lia |].
    rewrite E4. simpl. apply Hfin. now rewrite length_setitem.
  - destruct Hwt as [Hwt | Hwt]; [lia |].
    rewrite Hwt. simpl. apply Hfin. assumption.
Qed.

End SubInterval.

Lemma rootzone_water_ok (self : SoilWater.t) :
  SoilWater.rootdepth self <> 0 -> succeeds (SoilWater._rootzone_water self).
Proof.
  intros H. unfold succeeds, SoilWater._rootzone_water.
  destruct (SoilWater.rootzone_sums _ _ _) as [[[a b] c] d].
  rewrite !truediv_ok by assumption. simpl. eauto.
Qed.

Lemma reduce_et_ok (self : SoilWater.t) (top : SoilLayer.t) :
  nth_error (SoilWater.layers self) 0 = Some top ->
  0 < SWC.sat (SoilLayer.swc top) -> 0 < SoilLayer.vwc top ->
  succeeds (SoilWater._reduce_et self).
Proof.
  intros Ht Hs Hv. unfold succeeds, SoilWater._reduce_et.
  rewrite (getitem_ok _ _ _ Ht). simpl.
  rewrite truediv_ok by lra. simpl.
  assert (Hq : 0 < 3.6073 * (SoilLayer.vwc top / SWC.sat (SoilLayer.swc top))).
  { apply Rmult_lt_0_compat; [lra | apply Rdiv_lt_0_compat; lra]. }
  rewrite float_pow_pos by assumption. simpl.
  pose proof (Rpower_pos
    (3.6073 * (SoilLayer.vwc top / SWC.sat (SoilLayer.swc top))) (-9.3172)).
  rewrite truediv_ok by lra. simpl.
  destruct (Rleb_spec (RootZone.critical (SoilWater.prz self))
              (RootZone.vwc (SoilWater.prz self))); simpl; [eauto |].
  destruct (Rltb_spec (RootZone.pwp (SoilWater.prz self))
              (RootZone.vwc (SoilWater.prz self))); simpl; [| eauto].
  destruct (Rltb_spec (RootZone.vwc (SoilWater.prz self))
              (RootZone.critical (SoilWater.prz self))); simpl; [| eauto].
  rewrite truediv_ok by lra. simpl. eauto.
Qed.

(** The transpiration factor is never negative. *)
Lemma reduce_et_crop (self : SoilWater.t) (ws : ActualET.tuple) :
  SoilWater._reduce_et self = Ok ws -> 0 <= ActualET.crop ws <= 1.
Proof.
  unfold SoilWater._reduce_et. intros H.
  bind_inv H. bind_inv H. bind_inv H. bind_inv H. bind_inv H.
  injection H as <-. simpl.
  destruct (Rleb_spec (RootZone.critical (SoilWater.prz self))
              (RootZone.vwc (SoilWater.prz self))); simpl in E3.
  { injection E3 as <-. lra. }
  destruct (Rltb_spec (RootZone.pwp (SoilWater.prz self))
              (RootZone.vwc (SoilWater.prz self))); simpl in E3;
    [| injection E3 as <-; lra].
  destruct (Rltb_spec (RootZone.vwc (SoilWater.prz self))
              (RootZone.critical (SoilWater.prz self))); simpl in E3;
    [| injection E3 as <-; lra].
  apply truediv_inv in E3. destruct E3 as [Hd ->].
  split.
  - apply Rlt_le, Rdiv_lt_0_compat; lra.
  - apply Rlt_le. apply (Rmult_lt_reg_r
      (RootZone.critical (SoilWater.prz self) - RootZone.pwp (SoilWater.prz self)));
      [lra |].
    unfold Rdiv. rewrite Rmult_assoc, Rinv_l by lra. lra.
Qed.

Theorem sub_interval_safe (self : SoilWater.t) (cumm : list Fluxes.tuple)
  (petcrop petsoil : R) :
  sound self ->
  length cumm = Z.to_nat (SoilWater.numlayers self) ->
  exists self' cumm',
    SoilWater._calc_water_fluxes self cumm petcrop petsoil
    = Ok (self', cumm') /\
    sound self' /\ length cumm' = length cumm.
Proof.
  intros [[Hl Hp] Hnl Hni Hrd Hwt Hs Hm Hd] Hc.
  set (n := Z.to_nat (SoilWater.numlayers self)) in *.
  assert (Hn : SoilWater.numlayers self = Z.of_nat n) by (unfold n; lia).
  assert (Hpos : (0 < n)%nat) by lia.
  destruct (rootzone_water_ok self) as (rz & Erz); [lra |].
  destruct (nth_error (SoilWater.layers self) 0) as [top |] eqn:Etop;
    [| apply nth_error_None in Etop; lia].
  destruct (reduce_et_ok (SoilWater.set_prz self rz) top) as (ws & Ews).
  { exact Etop. }
  { apply (Forall_nth_error _ _ _ _ Hs Etop). }
  { apply (Forall_nth_error _ _ _ _ Hm Etop). }
  unfold SoilWater._calc_water_fluxes. rewrite Erz. simpl. rewrite Ews. simpl.
  set (self1 := SoilWater.set_aet _ _).
  destruct (for_each_seq_progress (SoilWater.influx_step self1)
              (influx_inv n) n 0%nat
              (SoilWater.layers self, SoilWater.pf self, 0))
    as ([[ls1 pf1] p1] & E1 & I1).
  { intros i st Hi Hinv. apply influx_step_progress; auto; try lia.
    simpl. lra. }
  { unfold influx_inv. repeat split; auto. intros j l Hj. lia. }
  unfold range. fold n. rewrite E1. simpl.
  destruct I1 as (L1 & P1 & S1 & M1 & D1 & K1).
  destruct (for_each_seq_progress (SoilWater.netflux_step self1)
              (netflux_inv n) n 0%nat (ls1, pf1, cumm))
    as ([[ls2 pf2] c2] & E2 & I2).
  { intros i st Hi Hinv. apply netflux_step_progress; auto; lia. }
  { unfold netflux_inv. repeat split; auto.
    apply Forall_of_nth. intros j x Hj Hx. apply (K1 j); [lia | assumption]. }
  rewrite E2. simpl.
  destruct I2 as (L2 & P2 & C2 & S2 & M2 & D2 & K2).
  do 2 eexists. split; [reflexivity |].
  split; [| congruence].
  constructor; simpl; auto.
  split; simpl; assumption.
Qed.

(** What a sub-interval leaves unchanged. *)
Lemma influx_pass_statics (self : SoilWater.t) (m i0 : nat)
  (ls : list SoilLayer.t) (pf : list Fluxes.tuple) (p : R)
  (ls' : list SoilLayer.t) (pf' : list Fluxes.tuple) (p' : R) :
  for_each (SoilWater.influx_step self) (seq i0 m) (ls, pf, p)
  = Ok (ls', pf', p') ->
  map statics ls' = map statics ls /\
  map SoilLayer.vwc ls' = map SoilLayer.vwc ls.
Proof.
  intros H.
  apply (for_each_seq_post (SoilWater.influx_step self)
           (fun _ st => map statics (fst (fst st)) = map statics ls /\
              map SoilLayer.vwc (fst (fst st)) = map SoilLayer.vwc ls)
           m i0 (ls, pf, p) (ls', pf', p')); [| now split | assumption].
  intros i [[a b] c] [[a1 b1] c1] _ [Ha Hb] Hs. simpl in *.
  apply influx_step_inv in Hs.
  destruct Hs as (cur0 & cur & f & ei & ci & N & U & -> & _).
  destruct (update_heads_k_statics _ _ U) as [Us Uv].
  rewrite (map_setitem statics a i cur0 cur N Us).
  rewrite (map_setitem SoilLayer.vwc a i cur0 cur N Uv). now split.
Qed.

Lemma netflux_pass_statics (self : SoilWater.t) (m i0 : nat)
  (ls : list SoilLayer.t) (pf cumm : list Fluxes.tuple)
  (ls' : list SoilLayer.t) (pf' cumm' : list Fluxes.tuple) :
  for_each (SoilWater.netflux_step self) (seq i0 m) (ls, pf, cumm)
  = Ok (ls', pf', cumm') ->
  map statics ls' = map statics ls.
Proof.
  intros H.
  apply (for_each_seq_post (SoilWater.netflux_step self)
           (fun _ st => map statics (fst (fst st)) = map statics ls)
           m i0 (ls, pf, cumm) (ls', pf', cumm')); [| reflexivity | assumption].
  intros i [[a b] c] [[a1 b1] c1] _ Ha Hs. simpl in *.
  apply netflux_step_inv in Hs.
  destruct Hs as (cur & f & raw & pf1 & f1 & cf & cf' & Hs). cbv zeta in Hs.
  destruct Hs as (N & _ & _ & _ & _ & _ & _ & _ & -> & _).
  rewrite (map_setitem statics a i cur _ N); [assumption | reflexivity].
Qed.

Lemma calc_frame (self : SoilWater.t) (cumm : list Fluxes.tuple)
  (petcrop petsoil : R) (self' : SoilWater.t) (cumm' : list Fluxes.tuple) :
  SoilWater._calc_water_fluxes self cumm petcrop petsoil = Ok (self', cumm') ->
  SoilWater.numintervals self' = SoilWater.numintervals self /\
  SoilWater.rootdepth self' = SoilWater.rootdepth self /\
  SoilWater.has_watertable self' = SoilWater.has_watertable self /\
  SoilWater.numlayers self' = SoilWater.numlayers self /\
  SoilWater.netrain self' = SoilWater.netrain self /\
  SoilWater.rootwater self' = SoilWater.rootwater self /\
  map statics (SoilWater.layers self') = map statics (SoilWater.layers self).
Proof.
  intros H. apply calc_inv in H.
  destruct H as (rz & ws & ls1 & pf1 & psi1 & ls2 & pf2 & H). cbv zeta in H.
  destruct H as (_ & _ & H1 & H2 & ->). simpl.
  repeat split.
  apply influx_pass_statics in H1. apply netflux_pass_statics in H2.
  destruct H1 as [H1 _]. congruence.
Qed.

(** ** Construction *)

Lemma calibrate_pos (coef x : R) :
  0 < coef -> 0 < x < 1 -> 0 < SoilLayer.calibrate coef x.
Proof.
  intros Hc [H0 H1]. unfold SoilLayer.calibrate.
  apply Rmult_lt_0_compat; [apply Rmult_lt_0_compat |]; lra.
Qed.

Lemma characteristics_ok (tex : Texture.tuple) :
  texture_ok tex ->
  exists w ks,
    SoilLayer.characteristics tex = Ok (w, ks) /\
    SWC.sat w = sat_of tex /\ SWC.fc w = fc_of tex /\
    SWC.pwp w = pwp_of tex /\ 0 < SWC.psd w /\ 0 < ks.
Proof.
  unfold texture_ok. cbv zeta. intros (H1 & H2 & H3 & H4 & _).
  unfold SoilLayer.characteristics. cbv zeta.
  set (c := Texture.clay tex / 100) in *.
  set (s := Texture.sand tex / 100) in *.
  set (om := Texture.om tex) in *.
  rewrite (math_log_ok (SoilLayer.theta33 c s om)) by lra. simpl.
  rewrite (math_log_ok (SoilLayer.theta1500 c s om)) by lra. simpl.
  assert (L1 : 0 < ln (SoilLayer.theta33 c s om) - ln (SoilLayer.theta1500 c s om)).
  { pose proof (ln_increasing _ _ H1 H2). lra. }
  assert (L2 : 0 < ln 1500 - ln 33).
  { assert (0 < 33) by lra. assert (33 < 1500) by lra.
    pose proof (ln_increasing 33 1500). lra. }
  rewrite truediv_ok by lra. simpl.
  assert (L3 : 0 < (ln 1500 - ln 33) /
                   (ln (SoilLayer.theta33 c s om) - ln (SoilLayer.theta1500 c s om))).
  { apply Rdiv_lt_0_compat; assumption. }
  rewrite truediv_ok by lra. simpl.
  rewrite float_pow_pos by lra. simpl.
  do 2 eexists. split; [reflexivity |]. simpl.
  repeat split.
  - apply Rdiv_lt_0_compat; lra.
  - match goal with |- 0 < 1930 * ?p * 24 / 1000 =>
      assert (0 < p) by apply Rpower_pos end. lra.
Qed.

Lemma texture_ok_positive (tex : Texture.tuple) :
  texture_ok tex -> 0 < sat_of tex /\ 0 < fc_of tex /\ 0 < pwp_of tex /\
                    fc_of tex <> sat_of tex.
Proof.
  unfold texture_ok, sat_of, fc_of, pwp_of. cbv zeta.
  intros (H1 & H2 & H3 & H4 & H5).
  repeat split; try (apply calibrate_pos; lra). assumption.
Qed.

Lemma initial_vwc_pos (w : SWC.tuple) (v : R) :
  0 < SWC.sat w -> 0 < SWC.fc w -> 0 < SWC.pwp w -> v <> 0 ->
  0 < initial_vwc w v.
Proof.
  intros Hs Hf Hp Hv. unfold initial_vwc, SoilLayer.special_code.
  destruct (Rltb_spec v 0); [| lra].
  destruct (Rleb_spec 1 (- v)); destruct (Rleb_spec (- v) 2); simpl;
    try (destruct (Rltb_spec 2 (- v)); destruct (Rleb_spec (- v) 3); simpl);
    try lra.
  - replace (SWC.sat w - (- v - 1) * (SWC.sat w - SWC.fc w))
      with ((2 + v) * SWC.sat w + (- v - 1) * SWC.fc w) by ring.
    assert (0 <= (2 + v) * SWC.sat w) by (apply Rmult_le_pos; lra).
    assert (0 <= (- v - 1) * SWC.fc w) by (apply Rmult_le_pos; lra).
    destruct (Rle_lt_dec (- v) 1.5).
    + assert (0 < (2 + v) * SWC.sat w) by (apply Rmult_lt_0_compat; lra). lra.
    + assert (0 < (- v - 1) * SWC.fc w) by (apply Rmult_lt_0_compat; lra). lra.
  - replace (SWC.fc w - (- v - 2) * (SWC.fc w - SWC.pwp w))
      with ((3 + v) * SWC.fc w + (- v - 2) * SWC.pwp w) by ring.
    assert (0 <= (3 + v) * SWC.fc w) by (apply Rmult_le_pos; lra).
    assert (0 < (- v - 2) * SWC.pwp w) by (apply Rmult_lt_0_compat; lra).
    lra.
Qed.

Lemma initialize_layer_ok (accdepth : R) (prev : option SoilLayer.t)
  (l : SoilLayer.t) :
  texture_ok (SoilLayer.texture l) -> SoilLayer.vwc l <> 0 ->
  let prevacc := match prev with Some p => SoilLayer.accthick p | None => 0 end in
  let prevthick := match prev with Some p => SoilLayer.thick p | None => 0 end in
  exists l',
    SoilLayer.initialize_layer accdepth prev l
    = Ok (l', accdepth + 0.5 * (prevthick + SoilLayer.thick l)) /\
    SoilLayer.thick l' = SoilLayer.thick l /\
    SoilLayer.texture l' = SoilLayer.texture l /\
    SoilLayer.accthick l' = SoilLayer.thick l + prevacc /\
    SoilLayer.depth l' = accdepth + 0.5 * (prevthick + SoilLayer.thick l) /\
    SWC.sat (SoilLayer.swc l') = sat_of (SoilLayer.texture l) /\
    SWC.fc (SoilLayer.swc l') = fc_of (SoilLayer.texture l) /\
    SWC.pwp (SoilLayer.swc l') = pwp_of (SoilLayer.texture l) /\
    0 < SWC.psd (SoilLayer.swc l') /\
    0 < SoilLayer.ksat l' /\
    SoilLayer.vwc l' = initial_vwc (SoilLayer.swc l') (SoilLayer.vwc l) /\
    0 < SoilLayer.vwc l'.
Proof.
  intros Ht Hv prevacc prevthick.
  destruct (characteristics_ok _ Ht) as (w & ks & E & Es & Ef & Ep & Hpsd & Hks).
  destruct (texture_ok_positive _ Ht) as (Ps & Pf & Pp & Pne).
  assert (Hpos : 0 < initial_vwc w (SoilLayer.vwc l)).
  { apply initial_vwc_pos; congruence. }
  unfold SoilLayer.initialize_layer. cbv zeta. rewrite E. simpl.
  fold (initial_vwc w (SoilLayer.vwc l)).
  match goal with
  | |- context [SoilLayer.update_heads_k ?x] =>
      destruct (update_heads_k_succeeds x) as (l' & E')
  end; simpl; try assumption; try congruence.
  { left. congruence. }
  rewrite E'. simpl. exists l'. split; [reflexivity |].
  apply update_heads_k_frame in E'. simpl in E'.
  destruct E' as (-> & -> & -> & _ & -> & -> & -> & -> & _).
  repeat split; assumption.
Qed.

Lemma skipn_nth_error {A : Type} (xs : list A) (i : nat) (x : A) :
  nth_error xs i = Some x -> skipn i xs = x :: skipn (S i) xs.
Proof.
  revert i. induction xs as [| y ys IH]; intros [| i] H; simpl in *;
    try discriminate.
  - now injection H as ->.
  - now apply IH.
Qed.

Lemma read_layers_ok (payload : list Ini.layer) (objs : list SoilLayer.t) :
  forall i, (i + length objs <= length payload)%nat ->
  exists ls, SoilWater.read_layers payload i objs = Ok ls /\
             Forall2 seeded (firstn (length objs) (skipn i payload)) ls.
Proof.
  induction objs as [| o objs IH]; intros i Hi; simpl in *.
  - exists []. split; [reflexivity | constructor].
  - destruct (getitem_lt payload i) as (rec & E); [lia |].
    rewrite E. simpl.
    destruct (IH (S i)) as (ls & E1 & F); [lia |].
    rewrite E1. simpl. eexists. split; [reflexivity |].
    rewrite (skipn_nth_error _ _ _ (getitem_inv _ _ _ E)). simpl.
    constructor; [| assumption]. repeat split.
Qed.



Lemma init_layers_ok (recs : list Ini.layer) (ls : list SoilLayer.t) :
  Forall2 seeded recs ls -> Forall record_ok recs ->
  forall (accdepth : R) (prev : option SoilLayer.t),
  exists ls' accdepth',
    SoilWater.init_layers accdepth prev ls = Ok (ls', accdepth') /\
    Forall2 built recs ls' /\
    stacked (match prev with Some p => SoilLayer.accthick p | None => 0 end)
            (match prev with Some p => SoilLayer.thick p | None => 0 end)
            accdepth ls' /\
    Forall moist ls'.
Proof.
  induction 1 as [| rec l recs ls (Ht & Hv & Hx) HF IH]; intros Hok acc prev.
  - exists [], acc. simpl. repeat split; constructor.
  - inversion Hok as [| ? ? [Hok1 Hok2] Hok']; subst.
    destruct (initialize_layer_ok acc prev l) as (l' & E & R); [congruence .. |].
    cbv zeta in E. simpl. rewrite E. simpl.
    destruct R as (R1 & R2 & R3 & R4 & R5 & R6 & R7 & R8 & R9 & R10 & R11).
    destruct (IH Hok' (acc + 0.5 * (match prev with Some p => SoilLayer.thick p | None => 0 end + SoilLayer.thick l)) (Some l'))
      as (ls' & acc' & E' & B & St & M).
    rewrite E'. simpl. exists (l' :: ls'), acc'. split; [reflexivity |].
    split; [| split].
    + constructor; [| assumption]. constructor; congruence.
    + simpl. split; [congruence |]. split; [congruence |].
      rewrite R4. exact St.
    + constructor; assumption.
Qed.

Lemma Forall2_length_eq {A B : Type} (P : A -> B -> Prop) (xs : list A)
  (ys : list B) : Forall2 P xs ys -> length xs = length ys.
Proof. induction 1; simpl; congruence. Qed.

Lemma range_length (n : nat) : length (range (Z.of_nat n)) = n.
Proof. unfold range. now rewrite length_seq, Nat2Z.id. Qed.

(** [__init__] on a payload whose first [n] records are acceptable. *)
Lemma init_ok (ini : Ini.payload) (accdepth : R) (n : nat) :
  Ini.numlayers ini = Z.of_nat n ->
  (0 < n <= length (Ini.layers ini))%nat ->
  Forall record_ok (firstn n (Ini.layers ini)) ->
  Ini.rootdepth ini <> 0 ->
  exists self accdepth',
    SoilWater.__init__ ini accdepth = Ok (self, accdepth') /\
    SoilWater.numintervals self = Ini.numintervals ini /\
    SoilWater.rootdepth self = Ini.rootdepth ini /\
    SoilWater.has_watertable self = Ini.has_watertable ini /\
    SoilWater.numlayers self = Ini.numlayers ini /\
    SoilWater.netrain self = 0 /\
    shaped self /\
    Forall2 built (firstn n (Ini.layers ini)) (SoilWater.layers self) /\
    stacked 0 0 accdepth (SoilWater.layers self) /\
    Forall moist (SoilWater.layers self).
Proof.
  intros Hn [Hpos Hle] Hok Hrd.
  unfold SoilWater.__init__. rewrite Hn.
  destruct (read_layers_ok (Ini.layers ini)
              (map (fun _ => SoilLayer.new) (range (Z.of_nat n))) 0)
    as (ls0 & E0 & F0).
  { rewrite length_map, range_length. lia. }
  rewrite length_map, range_length in F0. simpl in F0.
  rewrite E0. simpl.
  destruct (init_layers_ok _ _ F0 Hok accdepth None)
    as (ls & acc' & E1 & B & St & M).
  rewrite E1. simpl.
  assert (Hlen : length ls = n).
  { apply Forall2_length_eq in B. rewrite <- B, length_firstn. lia. }
  match goal with
  | |- context [SoilWater._rootzone_water ?x] =>
      destruct (rootzone_water_ok x) as (rz & Erz); [exact Hrd |];
      set (self0 := x) in *
  end.
  rewrite Erz. simpl.
  destruct ls as [| top rest] eqn:Els; [simpl in Hlen; lia |].
  inversion B as [| rec ? recs ? Btop Brest Erecs]; subst.
  assert (Hrec : record_ok rec).
  { rewrite <- Erecs in Hok. now inversion Hok. }
  destruct (texture_ok_positive _ (proj1 Hrec)) as (Ps & _).
  destruct (reduce_et_ok (SoilWater.set_prz self0 rz) top) as (ws & Ews).
  { reflexivity. }
  { destruct Btop. congruence. }
  { now inversion M. }
  rewrite Ews. simpl.
  do 2 eexists. split; [reflexivity |]. simpl.
  do 5 (split; [reflexivity || now rewrite Hn |]).
  split; [| split; [| split]]; try assumption.
  - unfold shaped, SoilWater.set_waterstresses, SoilWater.set_prz, self0.
    cbn [SoilWater.layers SoilWater.pf SoilWater.numlayers].
    rewrite length_map, range_length, Nat2Z.id. now split.
  - rewrite Erecs. exact B.
Qed.

Lemma stacked_accthick (ls : list SoilLayer.t) :
  forall pa pt ad, stacked pa pt ad ls -> 0 <= pa ->
  Forall (fun l => 0 < SoilLayer.thick l) ls ->
  Forall (fun l => 0 < SoilLayer.accthick l) ls.
Proof.
  induction ls as [| l ls IH]; intros pa pt ad H Hpa Ht; [constructor |].
  simpl in H. destruct H as (Ha & Hd & Hr). inversion Ht; subst.
  constructor; [lra |]. eapply IH; [exact Hr | lra | assumption].
Qed.

Lemma stacked_depths (ls : list SoilLayer.t) :
  forall pa pt ad, stacked pa pt ad ls ->
  Forall (fun l => 0 < SoilLayer.thick l) ls ->
  depths_distinct ls.
Proof.
  induction ls as [| l ls IH]; intros pa pt ad H Ht j a b Ha Hb.
  - destruct j; discriminate.
  - simpl in H. destruct H as (_ & _ & Hr). inversion Ht; subst.
    destruct j as [| j].
    + simpl in Ha, Hb. injection Ha as <-.
      destruct ls as [| l2 ls]; [discriminate |]. simpl in Hb.
      injection Hb as <-. simpl in Hr. destruct Hr as (_ & Hd & _).
      match goal with H : Forall _ (_ :: _) |- _ => inversion H; subst end.
      lra.
    + simpl in Ha, Hb. eapply IH; eassumption.
Qed.

Lemma stacked_sum (ls : list SoilLayer.t) :
  forall pa pt ad last, stacked pa pt ad ls -> getlast ls = Ok last ->
  SoilLayer.accthick last = pa + sum_thick ls.
Proof.
  induction ls as [| l ls IH]; intros pa pt ad last H Hl; [discriminate |].
  simpl in H. destruct H as (Ha & _ & Hr).
  destruct ls as [| l2 ls].
  - unfold getlast, getitem in Hl. simpl in Hl. injection Hl as <-.
    simpl. lra.
  - assert (Hl' : getlast (l2 :: ls) = Ok last).
    { unfold getlast in *. simpl length in *.
      replace (S (S (length ls)) - 1)%nat with (S (length ls)) in Hl by lia.
      replace (S (length ls) - 1)%nat with (length ls) by lia.
      unfold getitem in *. simpl in Hl. exact Hl. }
    rewrite (IH _ _ _ _ Hr Hl'). unfold sum_thick. simpl. lra.
Qed.

Lemma stacked_statics (ls ls' : list SoilLayer.t) :
  forall pa pt ad, map statics ls' = map statics ls ->
  stacked pa pt ad ls -> stacked pa pt ad ls'.
Proof.
  revert ls'. induction ls as [| l ls IH]; intros [| l' ls'] pa pt ad E H;
    cbn [map] in E; try discriminate; auto.
  injection E as T A D _ _ _ E2.
  cbn [stacked] in *.
  destruct H as (Ha & Hd & Hr). rewrite T, A, D.
  repeat split; try assumption. now apply IH.
Qed.

Lemma sum_thick_statics (ls ls' : list SoilLayer.t) :
  map statics ls' = map statics ls -> sum_thick ls' = sum_thick ls.
Proof.
  revert ls'. induction ls as [| l ls IH]; intros [| l' ls'] E;
    cbn [map] in E; try discriminate; auto.
  injection E as T _ _ _ _ _ E2.
  unfold sum_thick in *. simpl. rewrite T. f_equal. now apply IH.
Qed.

(** A payload of positive thicknesses, free drainage and positive root
    depth gives a sound model. *)
Lemma init_sound (ini : Ini.payload) (accdepth : R) (n : nat) :
  Ini.numlayers ini = Z.of_nat n ->
  (0 < n <= length (Ini.layers ini))%nat ->
  Forall record_ok (firstn n (Ini.layers ini)) ->
  Forall (fun rec => 0 < Ini.thick rec) (firstn n (Ini.layers ini)) ->
  0 < Ini.rootdepth ini ->
  Ini.numintervals ini <> 0%Z ->
  Ini.has_watertable ini = false ->
  exists self accdepth',
    SoilWater.__init__ ini accdepth = Ok (self, accdepth') /\
    sound self /\
    SoilWater.rootdepth self = Ini.rootdepth ini /\
    SoilWater.numintervals self = Ini.numintervals ini /\
    SoilWater.numlayers self = Ini.numlayers ini /\
    Forall2 built (firstn n (Ini.layers ini)) (SoilWater.layers self) /\
    stacked 0 0 accdepth (SoilWater.layers self).
Proof.
  intros Hn Hlen Hok Hth Hrd Hni Hwt.
  destruct (init_ok ini accdepth n Hn Hlen Hok) as
    (self & acc' & E & E1 & E2 & E3 & E4 & E5 & Hsh & B & St & M); [lra |].
  exists self, acc'. split; [assumption |].
  assert (Hthick : Forall (fun l => 0 < SoilLayer.thick l) (SoilWater.layers self)).
  { clear - B Hth. induction B as [| rec l recs ls Bl B IH]; [constructor |].
    inversion Hth; subst. constructor; [| now apply IH].
    destruct Bl. lra. }
  pose proof (stacked_accthick _ _ _ _ St (Rle_refl 0) Hthick) as Hacc.
  split; [| repeat split; try assumption; congruence].
  constructor; try assumption; try congruence.
  - rewrite E4, Hn. lia.
  - clear - B Hok Hthick Hacc.
    induction B as [| rec l recs ls Bl B IH]; [constructor |].
    inversion Hok as [| ? ? [Ht _] Hok']; subst.
    inversion Hthick; subst. inversion Hacc; subst.
    constructor; [| now apply IH].
    destruct (texture_ok_positive _ Ht) as (Ps & Pf & Pp & Pne).
    destruct Bl. constructor; try assumption; congruence.
  - eapply stacked_depths; eassumption.
Qed.

(** ** The daily step *)

Lemma sub_intervals_frame (n : nat) :
  forall (self : SoilWater.t) (cumm : list Fluxes.tuple) (pc ps : R)
         (self' : SoilWater.t) (cumm' : list Fluxes.tuple),
  SoilWater.sub_intervals n self cumm pc ps = Ok (self', cumm') ->
  SoilWater.numintervals self' = SoilWater.numintervals self /\
  SoilWater.rootdepth self' = SoilWater.rootdepth self /\
  SoilWater.has_watertable self' = SoilWater.has_watertable self /\
  SoilWater.numlayers self' = SoilWater.numlayers self /\
  SoilWater.netrain self' = SoilWater.netrain self /\
  map statics (SoilWater.layers self') = map statics (SoilWater.layers self).
Proof.
  induction n as [| n IH]; intros self cumm pc ps self' cumm' H; simpl in H.
  - injection H as <- <-. repeat split.
  - bind_inv H. destruct v as [self1 cumm1].
    apply calc_frame in E. apply IH in H.
    destruct E as (A1 & A2 & A3 & A4 & A5 & _ & A6).
    destruct H as (B1 & B2 & B3 & B4 & B5 & B6).
    repeat split; congruence.
Qed.

Lemma sub_intervals_safe (n : nat) :
  forall (self : SoilWater.t) (cumm : list Fluxes.tuple) (pc ps : R),
  sound self -> length cumm = Z.to_nat (SoilWater.numlayers self) ->
  exists self' cumm',
    SoilWater.sub_intervals n self cumm pc ps = Ok (self', cumm') /\
    sound self' /\ length cumm' = length cumm.
Proof.
  induction n as [| n IH]; intros self cumm pc ps Hs Hc; simpl.
  - exists self, cumm. split; [reflexivity | split; [assumption | reflexivity]].
  - destruct (sub_interval_safe self cumm pc ps Hs Hc)
      as (self1 & cumm1 & E & S1 & L1).
    rewrite E. simpl.
    destruct (IH self1 cumm1 pc ps S1) as (self2 & cumm2 & E2 & S2 & L2).
    { apply calc_frame in E. destruct E as (_ & _ & _ & -> & _). congruence. }
    exists self2, cumm2. split; [assumption | split; [assumption | congruence]].
Qed.

Lemma store_fluxes_statics (ls : list SoilLayer.t) :
  forall (i : nat) (cumm : list Fluxes.tuple) (ls' : list SoilLayer.t),
  SoilWater.store_fluxes i ls cumm = Ok ls' ->
  map statics ls' = map statics ls /\
  map SoilLayer.vwc ls' = map SoilLayer.vwc ls.
Proof.
  induction ls as [| l ls IH]; intros i cumm ls' H; simpl in H.
  - injection H as <-. now split.
  - bind_inv H. bind_inv H. injection H as <-.
    destruct (IH _ _ _ E0) as [A B]. simpl. split; f_equal; assumption.
Qed.

Lemma store_fluxes_ok (ls : list SoilLayer.t) :
  forall (i : nat) (cumm : list Fluxes.tuple),
  (i + length ls <= length cumm)%nat ->
  succeeds (SoilWater.store_fluxes i ls cumm).
Proof.
  induction ls as [| l ls IH]; intros i cumm H; simpl in *.
  - eexists. reflexivity.
  - destruct (getitem_lt cumm i) as (f & E); [lia |].
    rewrite E. simpl. destruct (IH (S i) cumm) as (r & E1); [lia |].
    rewrite E1. simpl. eexists. reflexivity.
Qed.

Lemma rooting_depth_inv (self : SoilWater.t) (rd : R) :
  SoilWater._rooting_depth self = Ok rd ->
  exists last, getlast (SoilWater.layers self) = Ok last /\
    rd = Rmin (SoilWater.rootdepth self + 0.008) (SoilLayer.accthick last).
Proof.
  unfold SoilWater._rooting_depth. intros H. bind_inv H.
  injection H as <-. exists v. split; [assumption | apply py_min_Rmin].
Qed.

Lemma daily_inv (self : SoilWater.t) (rain lai pc ps : R)
  (self' : SoilWater.t) :
  SoilWater.daily_water_balance self rain lai pc ps = Ok self' ->
  exists last,
    getlast (SoilWater.layers self) = Ok last /\
    SoilWater.rootdepth self'
    = Rmin (SoilWater.rootdepth self + 0.008) (SoilLayer.accthick last) /\
    SoilWater.numlayers self' = SoilWater.numlayers self /\
    SoilWater.numintervals self' = SoilWater.numintervals self /\
    SoilWater.has_watertable self' = SoilWater.has_watertable self /\
    map statics (SoilWater.layers self') = map statics (SoilWater.layers self).
Proof.
  unfold SoilWater.daily_water_balance. intros H.
  bind_inv H. bind_inv H. destruct v0 as [self1 cumm1]. bind_inv H.
  injection H as <-.
  apply rooting_depth_inv in E. destruct E as (last & El & ->).
  apply sub_intervals_frame in E0. simpl in E0.
  destruct E0 as (A1 & A2 & A3 & A4 & A5 & A6).
  apply store_fluxes_statics in E1. destruct E1 as [E1 _].
  simpl in El, E1. exists last. simpl.
  repeat split; try assumption; congruence.
Qed.

Lemma Forall_statics (P : SoilLayer.t -> Prop) (ls ls' : list SoilLayer.t) :
  (forall a b, statics a = statics b -> P b -> P a) ->
  map statics ls' = map statics ls -> Forall P ls -> Forall P ls'.
Proof.
  intros HP. revert ls'.
  induction ls as [| l ls IH]; intros [| l' ls'] E H; cbn [map] in E;
    try discriminate; constructor.
  - inversion H; subst. apply (HP l' l); [congruence | assumption].
  - inversion H; subst. apply IH; [congruence | assumption].
Qed.

Lemma nth_error_map_inv {A B : Type} (f : A -> B) (xs : list A) (j : nat)
  (y : B) :
  nth_error (map f xs) j = Some y ->
  exists x, nth_error xs j = Some x /\ f x = y.
Proof.
  revert j. induction xs as [| x xs IH]; intros [| j] H; simpl in H;
    try discriminate.
  - injection H as <-. exists x. now split.
  - now apply IH.
Qed.

Lemma depths_distinct_statics (ls ls' : list SoilLayer.t) :
  map statics ls' = map statics ls -> depths_distinct ls ->
  depths_distinct ls'.
Proof.
  intros E H j a b Ha Hb.
  assert (Da : exists a0, nth_error ls j = Some a0 /\ statics a = statics a0).
  { pose proof (map_nth_error statics j ls' Ha) as M. rewrite E in M.
    apply nth_error_map_inv in M. destruct M as (a0 & M1 & M2). eauto. }
  assert (Db : exists b0, nth_error ls (S j) = Some b0 /\ statics b = statics b0).
  { pose proof (map_nth_error statics (S j) ls' Hb) as M. rewrite E in M.
    apply nth_error_map_inv in M. destruct M as (b0 & M1 & M2). eauto. }
  destruct Da as (a0 & Ea & Sa). destruct Db as (b0 & Eb & Sb).
  unfold statics in Sa, Sb. injection Sa as _ _ Da _ _ _.
  injection Sb as _ _ Db _ _ _. rewrite Da, Db. now apply (H j).
Qed.

Lemma getlast_exists {A : Type} (xs : list A) :
  (0 < length xs)%nat -> exists x, getlast xs = Ok x.
Proof.
  destruct xs as [| y ys]; simpl; [lia |]. intros _.
  unfold getlast. apply getitem_lt. simpl. lia.
Qed.

Theorem daily_step_safe (self : SoilWater.t) (rain lai pc ps : R) :
  sound self ->
  exists self',
    SoilWater.daily_water_balance self rain lai pc ps = Ok self' /\
    sound self'.
Proof.
  intros Hs. pose proof Hs as [[Hl Hp] Hnl Hni Hrd Hwt Hls Hm Hd].
  destruct (getlast_exists (SoilWater.layers self)) as (last & El); [lia |].
  assert (Hlast : 0 < SoilLayer.accthick last).
  { apply getlast_inv in El. destruct El as [El _].
    apply (Forall_nth_error _ _ _ _ Hls El). }
  unfold SoilWater.daily_water_balance, SoilWater._rooting_depth.
  cbn [SoilWater.layers SoilWater.set_netrain SoilWater.rootdepth].
  rewrite El. simpl bind.
  set (self1 := SoilWater.set_rootdepth _ _).
  assert (S1 : sound self1).
  { constructor; simpl; try assumption.
    - split; assumption.
    - rewrite py_min_Rmin. apply Rmin_glb_lt; lra. }
  destruct (sub_intervals_safe (Z.to_nat (SoilWater.numintervals self1))
              self1 (map (fun _ => Fluxes.zero)
                       (range (SoilWater.numlayers self1))) pc ps S1)
    as (self2 & cumm2 & E2 & S2 & L2).
  { unfold range. now rewrite length_map, length_seq. }
  change (SoilWater.numintervals self1) with (SoilWater.numintervals self) in E2.
  change (SoilWater.numlayers self1) with (SoilWater.numlayers self) in E2, L2.
  rewrite E2. simpl bind.
  pose proof (sub_intervals_frame _ _ _ _ _ _ _ E2) as (F1 & F2 & F3 & F4 & F5 & F6).
  simpl in F1, F2, F3, F4.
  pose proof S2 as [[Hl2 Hp2] Hnl2 Hni2 Hrd2 Hwt2 Hls2 Hm2 Hd2].
  destruct (store_fluxes_ok (SoilWater.layers self2) 0 cumm2) as (ls3 & E3).
  { rewrite L2. unfold range. rewrite length_map, length_seq.
    simpl. rewrite Hl2, F4. lia. }
  cbn [SoilWater.layers SoilWater.set_rootwater]. rewrite E3. simpl bind.
  eexists. split; [reflexivity |].
  destruct (store_fluxes_statics _ _ _ _ E3) as [G1 G2].
  constructor; simpl; try assumption.
  - split; simpl; [| assumption].
    rewrite <- Hl2. rewrite <- (length_map statics), G1. apply length_map.
  - eapply Forall_statics; [| exact G1 | exact Hls2].
    intros a b. apply layer_sound_statics.
  - unfold moist in *. rewrite Forall_forall in *. intros x Hx.
    apply In_nth_error in Hx. destruct Hx as (j & Hj).
    pose proof (map_nth_error SoilLayer.vwc j ls3 Hj) as M. rewrite G2 in M.
    apply nth_error_map_inv in M. destruct M as (y & M1 & M2).
    rewrite <- M2. apply Hm2. eapply nth_error_In; eassumption.
  - eapply depths_distinct_statics; eassumption.
Qed.

(** ** Sample inputs *)

Ltac texture_facts :=
  unfold texture_ok, sat_of, fc_of, pwp_of, SoilLayer.calibrate,
    SoilLayer.theta0, SoilLayer.theta_s33, SoilLayer.theta33,
    SoilLayer.theta1500; simpl; cbv zeta.

Lemma loam_ok : texture_ok loam.
Proof. texture_facts. repeat split; lra. Qed.

Lemma peat_ok : texture_ok peat.
Proof. texture_facts. repeat split; lra. Qed.

Lemma muck_ok : texture_ok muck.
Proof. texture_facts. repeat split; lra. Qed.

Lemma peat_sat : 0 < sat_of peat < 0.005.
Proof. texture_facts. split; lra. Qed.

Lemma muck_sat_fc : sat_of muck < fc_of muck.
Proof. texture_facts. lra. Qed.

Ltac sample_payload :=
  simpl; try lra; try lia; try reflexivity; try discriminate;
  try (repeat constructor; try apply loam_ok; try apply peat_ok; simpl; lra).

Lemma loam_record (th v : R) : v <> 0 -> record_ok (Ini.mk_layer th v loam).
Proof. intros H. split; [apply loam_ok | exact H]. Qed.

Lemma ini_loam_sound :
  exists self accdepth',
    SoilWater.__init__ ini_loam 0 = Ok (self, accdepth') /\ sound self /\
    SoilWater.rootdepth self = 0.5 /\
    SoilWater.numintervals self = 4%Z /\
    SoilWater.numlayers self = 1%Z /\
    Forall2 built [Ini.mk_layer 1 0.25 loam] (SoilWater.layers self) /\
    stacked 0 0 0 (SoilWater.layers self).
Proof. apply (init_sound ini_loam 0 1); sample_payload. Qed.

Lemma ini_deep_roots_sound :
  exists self accdepth',
    SoilWater.__init__ ini_deep_roots 0 = Ok (self, accdepth') /\ sound self /\
    SoilWater.rootdepth self = 2 /\
    SoilWater.numintervals self = 4%Z /\
    SoilWater.numlayers self = 1%Z /\
    Forall2 built [Ini.mk_layer 1 0.25 loam] (SoilWater.layers self) /\
    stacked 0 0 0 (SoilWater.layers self).
Proof. apply (init_sound ini_deep_roots 0 1); sample_payload. Qed.

Lemma ini_two_layers_sound :
  exists self accdepth',
    SoilWater.__init__ ini_two_layers 0 = Ok (self, accdepth') /\ sound self /\
    SoilWater.rootdepth self = 0.5 /\
    SoilWater.numintervals self = 4%Z /\
    SoilWater.numlayers self = 2%Z /\
    Forall2 built [Ini.mk_layer 0.5 0.25 loam; Ini.mk_layer 0.5 0.3 loam]
      (SoilWater.layers self) /\
    stacked 0 0 0 (SoilWater.layers self).
Proof. apply (init_sound ini_two_layers 0 2); sample_payload. Qed.

Lemma ini_peat_sound :
  exists self accdepth',
    SoilWater.__init__ ini_peat 0 = Ok (self, accdepth') /\ sound self /\
    SoilWater.rootdepth self = 0.5 /\
    SoilWater.numintervals self = 4%Z /\
    SoilWater.numlayers self = 1%Z /\
    Forall2 built [Ini.mk_layer 1 0.25 peat] (SoilWater.layers self) /\
    stacked 0 0 0 (SoilWater.layers self).
Proof. apply (init_sound ini_peat 0 1); sample_payload. Qed.

(** ** Root growth *)

(** Claim C8, amended.  A daily step sets the root depth to the smaller of
    the old root depth plus 0.008 and the total depth of the profile; the
    profile is unchanged, the new root depth does not exceed the total
    depth, it is not below the old root depth when that one did not exceed
    the total depth, and a root depth at the total depth stays there. *)
Theorem root_depth_daily (self self' : SoilWater.t) (rain lai pc ps ad : R) :
  stacked 0 0 ad (SoilWater.layers self) ->
  SoilWater.daily_water_balance self rain lai pc ps = Ok self' ->
  let total := sum_thick (SoilWater.layers self) in
  SoilWater.rootdepth self'
  = Rmin (SoilWater.rootdepth self + 0.008) total /\
  sum_thick (SoilWater.layers self') = total /\
  stacked 0 0 ad (SoilWater.layers self') /\
  SoilWater.rootdepth self' <= total /\
  (SoilWater.rootdepth self <= total ->
   SoilWater.rootdepth self <= SoilWater.rootdepth self') /\
  (SoilWater.rootdepth self = total -> SoilWater.rootdepth self' = total).
Proof.
  intros St H total.
  apply daily_inv in H.
  destruct H as (last & El & Hrd & _ & _ & _ & Hst).
  rewrite (stacked_sum _ _ _ _ _ St El), Rplus_0_l in Hrd. fold total in Hrd.
  split; [exact Hrd |].
  split; [now apply sum_thick_statics |].
  split; [eapply stacked_statics; eassumption |].
  rewrite Hrd. split; [apply Rmin_r |]. split.
  - intros Hle. apply Rmin_glb; lra.
  - intros Heq. apply Rmin_right. lra.
Qed.

(** ** Construction and the layer count *)


(** ** Instances *)

Lemma built_single (rec : Ini.layer) (ls : list SoilLayer.t) :
  Forall2 built [rec] ls -> exists l, ls = [l] /\ built rec l.
Proof.
  intros H. inversion H as [| ? l ? ls' Hb Hr]; subst.
  inversion Hr; subst. eauto.
Qed.

Lemma water_content_clipped_witness :
  exists self accdepth' self' cumm',
    SoilWater.__init__ ini_loam 0 = Ok (self, accdepth') /\
    SoilWater._calc_water_fluxes self [Fluxes.zero] 3 2 = Ok (self', cumm') /\
    forall l, In l (SoilWater.layers self') ->
      0.005 <= SoilLayer.vwc l /\
      SoilLayer.vwc l <= Rmax 0.005 (SWC.sat (SoilLayer.swc l)) /\
      (0.005 <= SWC.sat (SoilLayer.swc l) ->
       SoilLayer.vwc l <= SWC.sat (SoilLayer.swc l)).
Proof.
  destruct ini_loam_sound as (self & acc & E & Hs & _ & _ & Hn & _).
  destruct (sub_interval_safe self [Fluxes.zero] 3 2 Hs) as
    (self' & cumm' & E' & _).
  { rewrite Hn. reflexivity. }
  exists self, acc, self', cumm'.
  split; [exact E |]. split; [exact E' |].
  exact (water_content_clipped self [Fluxes.zero] 3 2 self' cumm'
           (sound_shaped self Hs) E').
Defined.

(** On peat the saturation point lies below the dry floor, and the water
    content of the layer ends above its saturation point. *)
Lemma water_content_above_saturation :
  exists self accdepth' self' cumm' l,
    SoilWater.__init__ ini_peat 0 = Ok (self, accdepth') /\
    SoilWater._calc_water_fluxes self [Fluxes.zero] 3 2 = Ok (self', cumm') /\
    In l (SoilWater.layers self') /\
    ~ (0.005 <= SoilLayer.vwc l <= SWC.sat (SoilLayer.swc l)).
Proof.
  destruct ini_peat_sound as (self & acc & E & Hs & _ & _ & Hn & B & _).
  destruct (sub_interval_safe self [Fluxes.zero] 3 2 Hs) as
    (self' & cumm' & E' & _).
  { rewrite Hn. reflexivity. }
  destruct (built_single _ _ B) as (l0 & El0 & B0).
  pose proof (calc_clipped _ _ _ _ _ _ (sound_shaped self Hs) E') as C.
  pose proof (calc_frame _ _ _ _ _ _ E') as (_ & _ & _ & _ & _ & _ & St).
  rewrite El0 in St. simpl in St.
  destruct (SoilWater.layers self') as [| l [| l2 ls]] eqn:El;
    try discriminate.
  exists self, acc, self', cumm', l.
  split; [exact E |]. split; [exact E' |]. split; [rewrite El; now left |].
  inversion C as [| ? ? [Hlo _] _]; subst.
  injection St as _ _ _ Hswc _ _.
  rewrite Hswc, (built_sat _ _ B0). simpl.
  pose proof peat_sat. fold peat in *. lra.
Qed.





Lemma sum_thick_single (l : SoilLayer.t) : sum_thick [l] = SoilLayer.thick l.
Proof. unfold sum_thick. simpl. lra. Qed.

Lemma root_depth_daily_witness :
  exists self accdepth' self',
    SoilWater.__init__ ini_loam 0 = Ok (self, accdepth') /\
    SoilWater.daily_water_balance self 10 2 3 2 = Ok self' /\
    SoilWater.rootdepth self' = 0.508.
Proof.
  destruct ini_loam_sound as (self & acc & E & Hs & Hrd & _ & _ & B & St).
  destruct (daily_step_safe self 10 2 3 2 Hs) as (self' & E' & _).
  exists self, acc, self'. split; [exact E |]. split; [exact E' |].
  destruct (root_depth_daily self self' 10 2 3 2 0 St E') as (H & _).
  destruct (built_single _ _ B) as (l0 & El0 & B0).
  rewrite H, Hrd, El0, sum_thick_single, (built_thick _ _ B0). simpl.
  rewrite Rmin_left; lra.
Defined.

(** Roots declared below the profile are pulled back to its depth on the
    first day: the root depth decreases. *)
Lemma root_depth_decreases :
  exists self accdepth' self',
    SoilWater.__init__ ini_deep_roots 0 = Ok (self, accdepth') /\
    SoilWater.daily_water_balance self 10 2 3 2 = Ok self' /\
    SoilWater.rootdepth self' < SoilWater.rootdepth self.
Proof.
  destruct ini_deep_roots_sound as (self & acc & E & Hs & Hrd & _ & _ & B & St).
  destruct (daily_step_safe self 10 2 3 2 Hs) as (self' & E' & _).
  exists self, acc, self'. split; [exact E |]. split; [exact E' |].
  apply daily_inv in E'. destruct E' as (last & El & H & _).
  rewrite (stacked_sum _ _ _ _ _ St El) in H.
  destruct (built_single _ _ B) as (l0 & El0 & B0).
  rewrite H, Hrd, El0, sum_thick_single, (built_thick _ _ B0). simpl.
  rewrite Rmin_right; lra.
Qed.

(** ** Transpiration shares *)

Lemma psi_le_1 (c : R) : c <= 1 -> psi c <= 1.
Proof.
  intros H. unfold psi.
  assert (0 <= (1 - c) * (1 - 0.8 * c)) by (apply Rmult_le_pos; lra).
  lra.
Qed.

Lemma firstn_S_setitem {A : Type} (xs : list A) (i : nat) (v : A) :
  (i < length xs)%nat ->
  firstn (S i) (setitem xs i v) = firstn i xs ++ [v].
Proof.
  revert i. induction xs as [| x xs IH]; intros [| i] H; simpl in *;
    try lia; [reflexivity |].
  f_equal. apply IH. lia.
Qed.

Lemma shares_app (xs ys : list Fluxes.tuple) :
  shares (xs ++ ys) = shares xs + shares ys.
Proof.
  unfold shares. induction xs as [| x xs IH]; simpl; [lra |].
  rewrite IH. lra.
Qed.

Lemma influx_pass_shares (self : SoilWater.t) (n : nat)
  (ls : list SoilLayer.t) (pf : list Fluxes.tuple)
  (ls' : list SoilLayer.t) (pf' : list Fluxes.tuple) (p' : R) :
  length pf = n ->
  for_each (SoilWater.influx_step self) (seq 0 n) (ls, pf, 0)
  = Ok (ls', pf', p') ->
  shares pf' = ActualET.crop (SoilWater.aet self) * p' / 1000 /\ p' <= 1.
Proof.
  intros Hlen H.
  pose proof (for_each_seq_post (SoilWater.influx_step self)
    (fun i st =>
       length (snd (fst st)) = n /\
       shares (firstn i (snd (fst st)))
       = ActualET.crop (SoilWater.aet self) * snd st / 1000 /\
       snd st <= 1)
    n 0%nat (ls, pf, 0) (ls', pf', p')) as L.
  cbv beta in L. destruct L as (L1 & L2 & L3); [| | assumption |].
  - intros i [[a b] c] [[a1 b1] c1] Hi (Hb & Hsum & Hc) Hs.
    cbn [fst snd] in *.
    apply influx_step_inv in Hs.
    destruct Hs as (cur0 & cur & f & ei & ci & _ & _ & _ & Hf & _ & Hpsi & ->).
    rewrite length_setitem. split; [assumption |].
    rewrite firstn_S_setitem by lia.
    rewrite shares_app, Hsum. unfold shares. simpl.
    split; [lra |].
    rewrite Hpsi. apply psi_le_1, py_min_l.
  - cbn [fst snd]. split; [assumption |]. unfold shares. simpl. split; lra.
  - cbn [fst snd] in *. rewrite firstn_all2 in L2 by lia. split; assumption.
Qed.

Lemma netflux_pass_shares (self : SoilWater.t) (m i0 : nat)
  (ls : list SoilLayer.t) (pf cumm : list Fluxes.tuple)
  (ls' : list SoilLayer.t) (pf' cumm' : list Fluxes.tuple) :
  for_each (SoilWater.netflux_step self) (seq i0 m) (ls, pf, cumm)
  = Ok (ls', pf', cumm') ->
  map Fluxes.t pf' = map Fluxes.t pf.
Proof.
  intros H.
  apply (for_each_seq_post (SoilWater.netflux_step self)
           (fun _ st => map Fluxes.t (snd (fst st)) = map Fluxes.t pf)
           m i0 (ls, pf, cumm) (ls', pf', cumm')); [| reflexivity | assumption].
  intros i [[a b] c] [[a1 b1] c1] _ Ha Hs. simpl in *.
  apply netflux_step_inv in Hs.
  destruct Hs as (cur & f & raw & pf1 & f1 & cf & cf' & Hs). cbv zeta in Hs.
  destruct Hs as (_ & _ & _ & Hpf1 & Hf1 & -> & _).
  rewrite (map_setitem Fluxes.t pf1 i f1 _ Hf1) by reflexivity.
  destruct (Z.of_nat i <? SoilWater.numlayers self - 1)%Z.
  - destruct Hpf1 as (fnext & Hn & ->).
    rewrite (map_setitem Fluxes.t b (i + 1) fnext _ Hn) by reflexivity.
    assumption.
  - now subst pf1.
Qed.

(** Claim C4.  In a sub-interval with a non-negative potential
    transpiration, the actual transpiration is non-negative and the
    transpiration shares of all layers sum to at most the actual
    transpiration over 1000. *)
Theorem transpiration_shares_bounded (self : SoilWater.t)
  (cumm : list Fluxes.tuple) (petcrop petsoil : R)
  (self' : SoilWater.t) (cumm' : list Fluxes.tuple) :
  shaped self -> 0 <= petcrop ->
  SoilWater._calc_water_fluxes self cumm petcrop petsoil = Ok (self', cumm') ->
  0 <= ActualET.crop (SoilWater.aet self') /\
  shares (SoilWater.pf self') <= ActualET.crop (SoilWater.aet self') / 1000.
Proof.
  intros [Hl Hp] Hpc H.
  apply calc_inv in H.
  destruct H as (rz & ws & ls1 & pf1 & psi1 & ls2 & pf2 & H). cbv zeta in H.
  destruct H as (_ & Hws & H1 & H2 & ->). simpl.
  apply reduce_et_crop in Hws.
  assert (Hcrop : 0 <= ActualET.crop ws * petcrop).
  { apply Rmult_le_pos; lra. }
  split; [assumption |].
  apply influx_pass_shares in H1; [| assumption].
  apply netflux_pass_shares in H2.
  destruct H1 as [Hsum Hpsi]. simpl in Hsum.
  unfold shares in *. rewrite H2, Hsum.
  assert (ActualET.crop ws * petcrop * psi1 <= ActualET.crop ws * petcrop * 1).
  { apply Rmult_le_compat_l; assumption. }
  lra.
Qed.

Lemma transpiration_shares_bounded_witness :
  exists self accdepth' self' cumm',
    SoilWater.__init__ ini_two_layers 0 = Ok (self, accdepth') /\
    SoilWater._calc_water_fluxes self [Fluxes.zero; Fluxes.zero] 3 2
    = Ok (self', cumm') /\
    0 <= ActualET.crop (SoilWater.aet self') /\
    shares (SoilWater.pf self') <= ActualET.crop (SoilWater.aet self') / 1000.
Proof.
  destruct ini_two_layers_sound as (self & acc & E & Hs & _ & _ & Hn & _).
  destruct (sub_interval_safe self [Fluxes.zero; Fluxes.zero] 3 2 Hs) as
    (self' & cumm' & E' & _).
  { rewrite Hn. reflexivity. }
  exists self, acc, self', cumm'.
  split; [exact E |]. split; [exact E' |].
  apply (transpiration_shares_bounded self [Fluxes.zero; Fluxes.zero] 3 2
           self' cumm' (sound_shaped self Hs)); [lra | exact E'].
Defined.

(** ** Continuity of the fluxes *)

Lemma influx_from_watertable_last (ls : list SoilLayer.t) (cur : SoilLayer.t) :
  getlast ls = Ok cur ->
  SoilWater._influx_from_watertable ls = SoilWater._influx_from_watertable [cur].
Proof.
  intros H. unfold SoilWater._influx_from_watertable. rewrite H. reflexivity.
Qed.

Lemma influx_pass_updated (self : SoilWater.t) (n : nat)
  (ls0 : list SoilLayer.t) (pf0 : list Fluxes.tuple)
  (ls1 : list SoilLayer.t) (pf1 : list Fluxes.tuple) (p1 : R) :
  length ls0 = n ->
  for_each (SoilWater.influx_step self) (seq 0 n) (ls0, pf0, 0)
  = Ok (ls1, pf1, p1) ->
  forall j l0, nth_error ls0 j = Some l0 ->
    exists cur, SoilLayer.update_heads_k l0 = Ok cur /\
                nth_error ls1 j = Some cur.
Proof.
  intros Hlen H.
  pose proof (for_each_seq_post (SoilWater.influx_step self)
                (updated_inv n ls0) n 0%nat (ls0, pf0, 0) (ls1, pf1, p1)) as L.
  destruct L as (L1 & L2 & L3); [| | assumption |].
  - intros i [[a b] c] [[a1 b1] c1] Hi (Ha & Hge & Hlt) Hs.
    apply influx_step_inv in Hs.
    destruct Hs as (cur0 & cur & f & ei & ci & N & U & -> & _).
    unfold updated_inv. rewrite length_setitem. split; [assumption |]. split.
    + intros j Hj. rewrite nth_setitem_neq by lia. apply Hge. lia.
    + intros j l0 Hj Hl0. destruct (Nat.eq_dec i j) as [<- | Hne].
      * rewrite nth_setitem_eq by lia. exists cur. split; [| reflexivity].
        rewrite Hge in N by lia. congruence.
      * rewrite nth_setitem_neq by assumption. apply Hlt; [lia | assumption].
  - unfold updated_inv. split; [assumption |]. split; [reflexivity |].
    intros j l0 Hj. lia.
  - intros j l0 Hj. apply L3; [| assumption].
    assert (j < length ls0)%nat by (apply nth_error_Some; congruence).
    lia.
Qed.

Section Continuity.

Variable self : SoilWater.t.
Variable n : nat.
Hypothesis Hn : SoilWater.numlayers self = Z.of_nat n.
Variable ls1 : list SoilLayer.t.


End Continuity.




(** ** A saturated layer above a water table *)

Lemma for_each_app {S I : Type} (body : S -> I -> result S)
  (xs ys : list I) (st : S) :
  for_each body (xs ++ ys) st
  = (st' <- for_each body xs st ;; for_each body ys st').
Proof.
  revert st. induction xs as [| x xs IH]; intros st; simpl; [reflexivity |].
  destruct (body st x); simpl; [apply IH | reflexivity].
Qed.

(** At saturation the conductivity is the saturated conductivity, whichever
    branch computes it. *)
Lemma update_heads_k_saturated (l cur : SoilLayer.t) :
  SoilLayer.vwc l = SWC.sat (SoilLayer.swc l) ->
  SoilLayer.update_heads_k l = Ok cur ->
  SoilLayer.k cur = SoilLayer.ksat l.
Proof.
  intros Hv H. unfold SoilLayer.update_heads_k in H.
  bind_inv H. bind_inv H. bind_inv H. injection H as <-. simpl.
  apply truediv_inv in E0. destruct E0 as [Hs ->].
  rewrite Hv in E1. unfold Rdiv in E1. rewrite Rinv_r in E1 by assumption.
  destruct (Rltb _ _) in E1.
  - bind_inv E1. bind_inv E1. rewrite float_pow_one in E2.
    injection E2 as <-. injection E1 as <-. lra.
  - now injection E1 as <-.
Qed.

Lemma influx_from_watertable_saturated (cur : SoilLayer.t) :
  0 < SoilLayer.ksat cur -> SoilLayer.k cur = SoilLayer.ksat cur ->
  SoilWater._influx_from_watertable [cur] = Raise ZeroDivisionError.
Proof.
  intros Hks Hk. unfold SoilWater._influx_from_watertable, getlast, getitem.
  simpl. rewrite Hk. rewrite math_log_ok by assumption. simpl.
  replace (ln (SoilLayer.ksat cur) - ln (SoilLayer.ksat cur)) with 0 by ring.
  now rewrite truediv_zero.
Qed.

Lemma saturated_above_watertable_raises (self : SoilWater.t)
  (cumm : list Fluxes.tuple) (petcrop petsoil : R) (last : SoilLayer.t) :
  shaped self ->
  (0 < SoilWater.numlayers self)%Z ->
  SoilWater.numintervals self <> 0%Z ->
  0 < SoilWater.rootdepth self ->
  SoilWater.has_watertable self = true ->
  Forall layer_sound (SoilWater.layers self) ->
  Forall moist (SoilWater.layers self) ->
  depths_distinct (SoilWater.layers self) ->
  length cumm = Z.to_nat (SoilWater.numlayers self) ->
  getlast (SoilWater.layers self) = Ok last ->
  SoilLayer.vwc last = SWC.sat (SoilLayer.swc last) ->
  SoilWater._calc_water_fluxes self cumm petcrop petsoil
  = Raise ZeroDivisionError.
Proof.
  intros [Hl Hp] Hnl Hni Hrd Hwt Hs Hm Hd Hc Hlast Hsat.
  set (n := Z.to_nat (SoilWater.numlayers self)) in *.
  assert (Hn : SoilWater.numlayers self = Z.of_nat n) by (unfold n; lia).
  assert (Hpos : (0 < n)%nat) by lia.
  destruct (rootzone_water_ok self) as (rz & Erz); [lra |].
  destruct (nth_error (SoilWater.layers self) 0) as [top |] eqn:Etop;
    [| apply nth_error_None in Etop; lia].
  destruct (reduce_et_ok (SoilWater.set_prz self rz) top) as (ws & Ews).
  { exact Etop. }
  { apply (Forall_nth_error _ _ _ _ Hs Etop). }
  { apply (Forall_nth_error _ _ _ _ Hm Etop). }
  unfold SoilWater._calc_water_fluxes. rewrite Erz. simpl. rewrite Ews. simpl.
  set (self1 := SoilWater.set_aet _ _).
  destruct (for_each_seq_progress (SoilWater.influx_step self1)
              (influx_inv n) n 0%nat
              (SoilWater.layers self, SoilWater.pf self, 0))
    as ([[ls1 pf1] p1] & E1 & I1).
  { intros i st Hi Hinv. apply influx_step_progress; auto; try lia.
    simpl. lra. }
  { unfold influx_inv. repeat split; auto. intros j l Hj. lia. }
  unfold range. fold n. rewrite E1. simpl.
  destruct I1 as (L1 & P1 & S1 & M1 & D1 & K1).
  (* the last layer after the first loop *)
  apply getlast_inv in Hlast. destruct Hlast as [Hlast _].
  rewrite Hl in Hlast.
  destruct (influx_pass_updated _ _ _ _ _ _ _ Hl E1 _ _ Hlast)
    as (cur & Ucur & Ncur).
  pose proof (update_heads_k_saturated _ _ Hsat Ucur) as Hk.
  destruct (update_heads_k_statics _ _ Ucur) as [Hst _].
  assert (Hks : SoilLayer.ksat cur = SoilLayer.ksat last).
  { unfold statics in Hst. now injection Hst. }
  assert (Hkpos : 0 < SoilLayer.ksat cur).
  { apply (Forall_nth_error _ _ _ _ S1 Ncur). }
  (* the second loop up to the last layer *)
  replace n with ((n - 1) + 1)%nat at 1 by lia.
  rewrite seq_app, for_each_app. simpl seq.
  destruct (for_each_seq_progress (SoilWater.netflux_step self1)
              (untouched_inv n ls1) (n - 1) 0%nat (ls1, pf1, cumm))
    as ([[ls2 pf2] c2] & E2 & I2 & U2).
  { intros i [[a b] c] Hi [Hinv Hu].
    destruct (netflux_step_progress self1 n Hn Hni i (a, b, c))
      as ([[a1 b1] c1] & Es & Is); [lia | left; lia | assumption |].
    exists (a1, b1, c1). split; [assumption |]. split; [assumption |].
    cbn [fst snd] in *. apply netflux_step_inv in Es.
    destruct Es as (cur' & f & raw & pfa & f1 & cf & cf' & Es).
    cbv zeta in Es.
    destruct Es as (_ & _ & _ & _ & _ & _ & _ & _ & -> & _).
    intros j Hj. rewrite nth_setitem_neq by lia. apply Hu. lia. }
  { split; [| reflexivity]. unfold netflux_inv. repeat split; auto.
    apply Forall_of_nth. intros j x Hj Hx. apply (K1 j); [lia | assumption]. }
  rewrite E2. simpl.
  destruct I2 as (L2 & P2 & C2 & _). simpl in U2.
  assert (Ncur2 : nth_error ls2 (n - 1) = Some cur).
  { rewrite U2 by lia. assumption. }
  destruct (getitem_lt pf2 (n - 1)) as (f & Ef); [lia |].
  unfold SoilWater.netflux_step.
  rewrite (getitem_ok _ _ _ Ncur2). simpl. rewrite Ef. simpl.
  unfold SoilWater.raw_outflux. simpl.
  destruct (Z.ltb_spec (Z.of_nat (n - 1)) (SoilWater.numlayers self - 1));
    [lia |].
  rewrite Hwt. simpl.
  rewrite (influx_from_watertable_last ls2 cur).
  - rewrite influx_from_watertable_saturated; [reflexivity | assumption |].
    congruence.
  - apply getlast_ok; [now rewrite L2 | intros ->; simpl in L2; lia].
Qed.

(** Claim C3, refuted by the code.  On a model of one saturated layer of
    loam above a water table, the first sub-interval raises
    [ZeroDivisionError]: the logarithmic mean of [_influx_from_watertable]
    divides by [log(ksat) - log(k)], which is zero at saturation. *)
Theorem watertable_zero_division :
  exists self accdepth',
    SoilWater.__init__ ini_watertable 0 = Ok (self, accdepth') /\
    SoilWater._calc_water_fluxes self [Fluxes.zero] 3 2
    = Raise ZeroDivisionError.
Proof.
  destruct (init_ok ini_watertable 0 1)
    as (self & acc & E & E1 & E2 & E3 & E4 & E5 & Hsh & B & St & M).
  { reflexivity. }
  { simpl. lia. }
  { constructor; [apply loam_record; lra | constructor]. }
  { simpl. lra. }
  exists self, acc. split; [exact E |].
  simpl in B. destruct (built_single _ _ B) as (l & El & Bl).
  rewrite El in *.
  assert (Hth : Forall (fun l => 0 < SoilLayer.thick l) [l]).
  { constructor; [rewrite (built_thick _ _ Bl); simpl; lra | constructor]. }
  destruct (texture_ok_positive _ loam_ok) as (Ps & Pf & Pp & Pne).
  apply (saturated_above_watertable_raises self [Fluxes.zero] 3 2 l);
    try assumption.
  - rewrite E4. reflexivity.
  - rewrite E1. discriminate.
  - rewrite E2. simpl. lra.
  - rewrite El. constructor; [| constructor].
    pose proof (stacked_accthick _ _ _ _ St (Rle_refl 0) Hth) as Ha.
    inversion Ha; subst. inversion Hth; subst.
    destruct Bl. simpl in *. constructor; try assumption; congruence.
  - rewrite El. assumption.
  - rewrite El. eapply stacked_depths; eassumption.
  - rewrite E4. reflexivity.
  - rewrite El. reflexivity.
  - rewrite (built_vwc _ _ Bl). simpl.
    destruct (special_code_cases (SoilLayer.swc l) (-1)) as (H1 & _).
    unfold initial_vwc. rewrite Rltb_true by lra. apply H1. reflexivity.
Qed.

(** ** Interval arithmetic *)

Lemma at_scale_point (d k : Z) (x : R) :
  IZR d * x = IZR k -> Interval.at_scale d (Interval.point k) x.
Proof. intros H. unfold Interval.at_scale. simpl. lra. Qed.

Lemma at_scale_add (d : Z) (a b : Interval.t) (x y : R) :
  Interval.at_scale d a x -> Interval.at_scale d b y ->
  Interval.at_scale d (Interval.add a b) (x + y).
Proof.
  unfold Interval.at_scale, Interval.add. simpl. rewrite !plus_IZR. lra.
Qed.

Lemma at_scale_sub (d : Z) (a b : Interval.t) (x y : R) :
  Interval.at_scale d a x -> Interval.at_scale d b y ->
  Interval.at_scale d (Interval.sub a b) (x - y).
Proof.
  unfold Interval.at_scale, Interval.sub. simpl. rewrite !minus_IZR. lra.
Qed.

Lemma at_scale_times (D d dk k : Z) (a : Interval.t) (c x : R) :
  D = (dk * d)%Z -> IZR dk * c = IZR k ->
  Interval.at_scale d a x ->
  Interval.at_scale D (Interval.times k a) (c * x).
Proof.
  intros -> Hc [Hlo Hhi]. unfold Interval.at_scale, Interval.times.
  rewrite mult_IZR.
  replace (IZR dk * IZR d * (c * x)) with (IZR k * (IZR d * x))
    by (rewrite <- Hc; ring).
  destruct (Z.leb_spec 0 k) as [Hk | Hk]; simpl; rewrite !mult_IZR.
  - apply IZR_le in Hk. split; apply Rmult_le_compat_l; assumption.
  - apply IZR_lt in Hk. split; apply Rmult_le_compat_neg_l; lra.
Qed.

Lemma product_bounds (a b c d x y lo hi : R) :
  a <= x <= b -> c <= y <= d ->
  lo <= a * c -> lo <= a * d -> lo <= b * c -> lo <= b * d ->
  a * c <= hi -> a * d <= hi -> b * c <= hi -> b * d <= hi ->
  lo <= x * y <= hi.
Proof.
  intros [Hxa Hxb] [Hyc Hyd] L1 L2 L3 L4 U1 U2 U3 U4.
  assert (A1 : 0 <= (x - a) * (y - c)) by (apply Rmult_le_pos; lra).
  assert (A2 : 0 <= (x - a) * (d - y)) by (apply Rmult_le_pos; lra).
  assert (A3 : 0 <= (b - x) * (y - c)) by (apply Rmult_le_pos; lra).
  assert (A4 : 0 <= (b - x) * (d - y)) by (apply Rmult_le_pos; lra).
  destruct (Rle_or_lt 0 y) as [Hy | Hy];
    destruct (Rle_or_lt 0 x) as [Hx | Hx];
    destruct (Rle_or_lt 0 a) as [Ha | Ha];
    destruct (Rle_or_lt 0 c) as [Hc | Hc];
    destruct (Rle_or_lt 0 b) as [Hb | Hb];
    destruct (Rle_or_lt 0 d) as [Hd | Hd];
    try lra; split; nra.
Qed.

Lemma at_scale_mul (D da db : Z) (a b : Interval.t) (x y : R) :
  D = (da * db)%Z ->
  Interval.at_scale da a x -> Interval.at_scale db b y ->
  Interval.at_scale D (Interval.mul a b) (x * y).
Proof.
  intros -> Ha Hb. unfold Interval.at_scale in *.
  unfold Interval.mul, Interval.min4, Interval.max4. cbn [fst snd].
  rewrite mult_IZR.
  replace (IZR da * IZR db * (x * y)) with ((IZR da * x) * (IZR db * y))
    by ring.
  apply (product_bounds (IZR (fst a)) (IZR (snd a)) (IZR (fst b))
           (IZR (snd b))); try assumption;
    rewrite <- mult_IZR; apply IZR_le; lia.
Qed.

Lemma at_scale_round (n d : Z) (a : Interval.t) (x : R) :
  (0 < n)%Z -> Interval.at_scale (n * d) a x ->
  Interval.at_scale d (Interval.round n a) x.
Proof.
  intros Hn [Hlo Hhi]. unfold Interval.at_scale, Interval.round.
  cbn [fst snd]. rewrite mult_IZR in Hlo, Hhi.
  assert (Hn' : 0 < IZR n) by now apply IZR_lt.
  split.
  - apply (Rmult_le_reg_l (IZR n)); [assumption |].
    rewrite <- mult_IZR.
    apply Rle_trans with (IZR (fst a)); [| lra].
    apply IZR_le. apply Z.mul_div_le. assumption.
  - apply (Rmult_le_reg_l (IZR n)); [assumption |].
    rewrite <- mult_IZR.
    apply Rle_trans with (IZR (snd a)); [lra |].
    apply IZR_le.
    pose proof (Z.mul_div_le (- snd a) n Hn). lia.
Qed.

Lemma at_scale_lower_upper (d : Z) (i : Interval.t) (x : R) :
  Interval.at_scale d i x ->
  Interval.at_scale d (Interval.lower_half i) x \/
  Interval.at_scale d (Interval.upper_half i) x.
Proof.
  intros [Hlo Hhi]. unfold Interval.at_scale, Interval.lower_half,
    Interval.upper_half. cbn [fst snd].
  destruct (Rle_or_lt (IZR d * x) (IZR ((fst i + snd i) / 2))); [left | right];
    lra.
Qed.

Lemma multilinear_ok (k1 k2 k3 k4 k5 k6 k0 : Z)
  (c s om som com sc : Interval.t) (xc xs xom : R) :
  Interval.at_scale Interval.mega c xc ->
  Interval.at_scale Interval.mega s xs ->
  Interval.at_scale Interval.mega om xom ->
  Interval.at_scale Interval.tera som (xs * xom) ->
  Interval.at_scale Interval.tera com (xc * xom) ->
  Interval.at_scale Interval.tera sc (xs * xc) ->
  Interval.at_scale Interval.mega
    (Interval.multilinear k1 k2 k3 k4 k5 k6 k0 c s om som com sc)
    (millionths k1 k2 k3 k4 k5 k6 k0 xc xs xom).
Proof.
  intros Hc Hs Hom Hsom Hcom Hsc.
  unfold Interval.multilinear. apply at_scale_round; [reflexivity |].
  replace (millionths k1 k2 k3 k4 k5 k6 k0 xc xs xom) with
    (IZR k1 / 1000000 * xs + IZR k2 / 1000000 * xc + IZR k3 / 1000000 * xom
     + (IZR k4 / 1000000 * (xs * xom) + IZR k5 / 1000000 * (xc * xom)
        + IZR k6 / 1000000 * (xs * xc) + IZR k0 / 1000000))
    by (unfold millionths; field).
  repeat apply at_scale_add.
  - apply (at_scale_times _ Interval.mega Interval.tera); [reflexivity | | assumption].
    rewrite mult_IZR. unfold Interval.tera, Interval.mega. lra.
  - apply (at_scale_times _ Interval.mega Interval.tera); [reflexivity | | assumption].
    rewrite mult_IZR. unfold Interval.tera, Interval.mega. lra.
  - apply (at_scale_times _ Interval.mega Interval.tera); [reflexivity | | assumption].
    rewrite mult_IZR. unfold Interval.tera, Interval.mega. lra.
  - apply (at_scale_times _ Interval.tera Interval.mega); [reflexivity | | assumption].
    unfold Interval.mega. lra.
  - apply (at_scale_times _ Interval.tera Interval.mega); [reflexivity | | assumption].
    unfold Interval.mega. lra.
  - apply (at_scale_times _ Interval.tera Interval.mega); [reflexivity | | assumption].
    unfold Interval.mega. lra.
  - apply at_scale_point. rewrite !mult_IZR.
    unfold Interval.tera, Interval.mega. lra.
Qed.

Lemma correction33_ok (x : Interval.t) (v : R) :
  Interval.at_scale Interval.mega x v ->
  Interval.at_scale Interval.mega (Interval.correction33 x)
    (1.283 * (v * v) + 0.626 * v - 0.015).
Proof.
  intros Hx. unfold Interval.correction33.
  apply at_scale_round; [reflexivity |].
  unfold Rminus.
  repeat apply at_scale_add.
  - apply (at_scale_times _ Interval.tera 1000); [reflexivity | lra |].
    apply (at_scale_mul _ Interval.mega Interval.mega);
      [reflexivity | assumption | assumption].
  - apply (at_scale_times _ Interval.mega Interval.giga);
      [reflexivity | | assumption].
    rewrite mult_IZR. unfold Interval.giga, Interval.mega. lra.
  - apply at_scale_point. rewrite !mult_IZR.
    unfold Interval.giga, Interval.tera, Interval.mega. lra.
Qed.

Lemma calibrate_ok (coef : Z) (x : Interval.t) (v : R) :
  Interval.at_scale Interval.mega x v ->
  Interval.at_scale (1000 * Interval.tera) (Interval.calibrate coef x)
    (SoilLayer.calibrate (IZR coef / 1000) v).
Proof.
  intros Hx. unfold Interval.calibrate, SoilLayer.calibrate.
  apply (at_scale_mul _ (1000 * Interval.mega) Interval.mega);
    [reflexivity | |].
  - apply (at_scale_times _ Interval.mega 1000);
      [reflexivity | lra | assumption].
  - apply at_scale_sub; [| assumption].
    apply at_scale_point. unfold Interval.mega. lra.
Qed.

(** The regressions of the source in the form the intervals follow. *)
Lemma theta1500_millionths (c s om : R) :
  SoilLayer.theta1500 c s om
  = millionths (-27360) 555180 6840 5700 (-14820) 77520 15340 c s om.
Proof. unfold SoilLayer.theta1500, millionths. cbv zeta. lra. Qed.

Lemma theta33_millionths (c s om : R) :
  SoilLayer.theta33 c s om
  = 1.283 * (millionths (-251000) 195000 11000 6000 (-27000) 452000 299000
               c s om
             * millionths (-251000) 195000 11000 6000 (-27000) 452000 299000
                 c s om)
    + 0.626 * millionths (-251000) 195000 11000 6000 (-27000) 452000 299000
                c s om
    - 0.015.
Proof. unfold SoilLayer.theta33, millionths. cbv zeta. nra. Qed.

Lemma theta0_millionths (c s om : R) :
  SoilLayer.theta0 c s om
  = SoilLayer.theta33 c s om
    + millionths 357808 55624 35992 (-29448) (-44172) (-955424) 63608 c s om.
Proof.
  unfold SoilLayer.theta0, SoilLayer.theta_s33, millionths. cbv zeta. lra.
Qed.

Lemma ordered_by_regressions (a b t0 : R) :
  a <= b -> a + b <= 1 -> 0 <= b <= 1 -> 0.2364 <= t0 <= 0.7636 ->
  SoilLayer.calibrate 1.528 a <= SoilLayer.calibrate 1.605 b /\
  SoilLayer.calibrate 1.605 b <= SoilLayer.calibrate 2.225 t0.
Proof.
  intros Hab Hsum [Hb0 Hb1] [Ht0 Ht1]. unfold SoilLayer.calibrate.
  assert (B : 0 <= b * (1 - b)) by (apply Rmult_le_pos; lra).
  split.
  - destruct (Rle_or_lt 0 a) as [Ha | Ha].
    + assert (0 <= (b - a) * (1 - a - b)) by (apply Rmult_le_pos; lra).
      assert (0 <= a * (1 - a)) by (apply Rmult_le_pos; lra).
      nra.
    + assert (0 <= (- a) * (1 - a)) by (apply Rmult_le_pos; lra).
      nra.
  - pose proof (Rle_0_sqr (b - 0.5)) as Hsq. unfold Rsqr in Hsq.
    assert (0 <= (t0 - 0.2364) * (0.7636 - t0)) by (apply Rmult_le_pos; lra).
    nra.
Qed.

Lemma at_scale_le (d : Z) (a b : Interval.t) (x y : R) :
  (0 < d)%Z -> Interval.at_scale d a x -> Interval.at_scale d b y ->
  (snd a <= fst b)%Z -> x <= y.
Proof.
  intros Hd [_ Ha] [Hb _] H. apply IZR_le in H. apply IZR_lt in Hd.
  apply (Rmult_le_reg_l (IZR d)); lra.
Qed.

Lemma ordered_on_sound (c s om : Interval.t) (xc xs xom : R) :
  Interval.ordered_on c s om = true ->
  Interval.at_scale Interval.mega c xc ->
  Interval.at_scale Interval.mega s xs ->
  Interval.at_scale Interval.mega om xom ->
  SoilLayer.calibrate 1.528 (SoilLayer.theta1500 xc xs xom)
  <= SoilLayer.calibrate 1.605 (SoilLayer.theta33 xc xs xom) /\
  SoilLayer.calibrate 1.605 (SoilLayer.theta33 xc xs xom)
  <= SoilLayer.calibrate 2.225 (SoilLayer.theta0 xc xs xom).
Proof.
  intros H Hc Hs Hom. unfold Interval.ordered_on in H. cbv zeta in H.
  assert (Hsom : Interval.at_scale Interval.tera (Interval.mul s om) (xs * xom)).
  { apply (at_scale_mul _ Interval.mega Interval.mega); auto. }
  assert (Hcom : Interval.at_scale Interval.tera (Interval.mul c om) (xc * xom)).
  { apply (at_scale_mul _ Interval.mega Interval.mega); auto. }
  assert (Hsc : Interval.at_scale Interval.tera (Interval.mul s c) (xs * xc)).
  { apply (at_scale_mul _ Interval.mega Interval.mega); auto. }
  pose proof (multilinear_ok (-27360) 555180 6840 5700 (-14820) 77520 15340
                _ _ _ _ _ _ _ _ _ Hc Hs Hom Hsom Hcom Hsc) as H15.
  rewrite <- theta1500_millionths in H15.
  pose proof (correction33_ok _ _
    (multilinear_ok (-251000) 195000 11000 6000 (-27000) 452000 299000
       _ _ _ _ _ _ _ _ _ Hc Hs Hom Hsom Hcom Hsc)) as H33.
  rewrite <- theta33_millionths in H33.
  pose proof (at_scale_add _ _ _ _ _ H33
    (multilinear_ok 357808 55624 35992 (-29448) (-44172) (-955424) 63608
       _ _ _ _ _ _ _ _ _ Hc Hs Hom Hsom Hcom Hsc)) as H0.
  rewrite <- theta0_millionths in H0.
  set (t15 := Interval.multilinear (-27360) _ _ _ _ _ _ _ _ _ _ _ _) in *.
  set (t33 := Interval.correction33 _) in *.
  set (t0 := Interval.add t33 _) in *.
  match type of H with
  | (if ?b then true else _) = true => destruct b eqn:Hb
  end.
  - clear H.
    repeat (apply andb_prop in Hb; destruct Hb as [Hb ?]).
    repeat match goal with
           | H : (_ <=? _)%Z = true |- _ => apply Z.leb_le in H
           end.
    destruct H15 as [L15 U15]. destruct H33 as [L33 U33].
    destruct H0 as [L0 U0].
    repeat match goal with
           | H : (_ <= _)%Z |- _ => apply IZR_le in H
           end.
    rewrite plus_IZR in *. unfold Interval.mega in *.
    apply ordered_by_regressions; lra.
  - apply andb_prop in H. destruct H as [H1 H2].
    apply Z.leb_le in H1, H2.
    replace 1.528 with (IZR 1528 / 1000) by lra.
    replace 1.605 with (IZR 1605 / 1000) by lra.
    replace 2.225 with (IZR 2225 / 1000) by lra.
    split.
    + eapply (at_scale_le (1000 * Interval.tera));
        [reflexivity | apply calibrate_ok; exact H15
         | apply calibrate_ok; exact H33 | exact H1].
    + eapply (at_scale_le (1000 * Interval.tera));
        [reflexivity | apply calibrate_ok; exact H33
         | apply calibrate_ok; exact H0 | exact H2].
Qed.

Lemma ordered_in_sound (fuel : nat) :
  forall (c s om : Interval.t) (xc xs xom : R),
  Interval.ordered_in fuel c s om = true ->
  Interval.at_scale Interval.mega c xc ->
  Interval.at_scale Interval.mega s xs ->
  Interval.at_scale Interval.mega om xom ->
  xc + xs <= 1 ->
  SoilLayer.calibrate 1.528 (SoilLayer.theta1500 xc xs xom)
  <= SoilLayer.calibrate 1.605 (SoilLayer.theta33 xc xs xom) /\
  SoilLayer.calibrate 1.605 (SoilLayer.theta33 xc xs xom)
  <= SoilLayer.calibrate 2.225 (SoilLayer.theta0 xc xs xom).
Proof.
  assert (Hout : forall (c s : Interval.t) (xc xs : R),
            (Interval.mega <? fst c + fst s)%Z = true ->
            Interval.at_scale Interval.mega c xc ->
            Interval.at_scale Interval.mega s xs ->
            xc + xs <= 1 -> False).
  { intros c s xc xs H [Hc _] [Hs _] Hsum. apply Z.ltb_lt in H.
    apply IZR_lt in H. rewrite plus_IZR in H. unfold Interval.mega in *.
    lra. }
  induction fuel as [| fuel IH]; intros c s om xc xs xom H Hc Hs Hom Hsum;
    simpl in H.
  - destruct (Interval.mega <? fst c + fst s)%Z eqn:E.
    + exfalso. eapply Hout; eassumption.
    + destruct (Interval.ordered_on c s om) eqn:E1; [| discriminate].
      eapply ordered_on_sound; eassumption.
  - destruct (Interval.mega <? fst c + fst s)%Z eqn:E.
    + exfalso. eapply Hout; eassumption.
    + destruct (Interval.ordered_on c s om) eqn:E1.
      * eapply ordered_on_sound; eassumption.
      * destruct (_ && _)%bool in H.
        -- apply andb_prop in H. destruct H as [H1 H2].
           destruct (at_scale_lower_upper _ _ _ Hc);
             [eapply (IH _ _ _ _ _ _ H1) | eapply (IH _ _ _ _ _ _ H2)];
             eassumption.
        -- destruct (_ <=? _)%Z in H.
           ++ apply andb_prop in H. destruct H as [H1 H2].
              destruct (at_scale_lower_upper _ _ _ Hs);
                [eapply (IH _ _ _ _ _ _ H1) | eapply (IH _ _ _ _ _ _ H2)];
                eassumption.
           ++ apply andb_prop in H. destruct H as [H1 H2].
              destruct (at_scale_lower_upper _ _ _ Hom);
                [eapply (IH _ _ _ _ _ _ H1) | eapply (IH _ _ _ _ _ _ H2)];
                eassumption.
Qed.

Lemma calibration_box_ordered :
  Interval.ordered_in 40 (0, 600000)%Z (0, 1000000)%Z (0, 8000000)%Z = true.
Proof. vm_compute. reflexivity. Qed.

Lemma characteristics_inv (tex : Texture.tuple) (w : SWC.tuple) (ks : R) :
  SoilLayer.characteristics tex = Ok (w, ks) ->
  SWC.sat w = sat_of tex /\ SWC.fc w = fc_of tex /\ SWC.pwp w = pwp_of tex /\
  SWC.porosity w = sat_of tex.
Proof.
  unfold SoilLayer.characteristics. cbv zeta. intros H.
  bind_inv H. bind_inv H. bind_inv H. bind_inv H. bind_inv H.
  injection H as <- _. simpl. repeat split.
Qed.

(** Claim C5, amended.  For every texture of the calibration range (clay
    up to 60 %, organic matter up to 8 %, clay and sand together at most
    100 %), the calibrated wilting point, field capacity and saturation
    point are in this order, and so are the characteristics that
    [initialize_layer] derives whenever it derives them. *)
Theorem characteristics_ordered (tex : Texture.tuple) :
  in_calibration_range tex ->
  (pwp_of tex <= fc_of tex /\ fc_of tex <= sat_of tex) /\
  (forall w ks, SoilLayer.characteristics tex = Ok (w, ks) ->
     SWC.pwp w <= SWC.fc w /\ SWC.fc w <= SWC.sat w).
Proof.
  intros ([Hc0 Hc1] & Hs0 & Hsum & [Ho0 Ho1]).
  assert (H : pwp_of tex <= fc_of tex /\ fc_of tex <= sat_of tex).
  { unfold pwp_of, fc_of, sat_of.
    apply (ordered_in_sound 40 (0, 600000)%Z (0, 1000000)%Z (0, 8000000)%Z);
      [exact calibration_box_ordered | | | |];
      unfold Interval.at_scale, Interval.mega; simpl; lra. }
  split; [exact H |].
  intros w ks E. apply characteristics_inv in E.
  destruct E as (-> & -> & -> & _). exact H.
Qed.

Lemma characteristics_ordered_witness :
  (pwp_of loam <= fc_of loam /\ fc_of loam <= sat_of loam) /\
  (forall w ks, SoilLayer.characteristics loam = Ok (w, ks) ->
     SWC.pwp w <= SWC.fc w /\ SWC.fc w <= SWC.sat w).
Proof.
  apply (characteristics_ordered loam).
  unfold in_calibration_range, loam. simpl. repeat split; lra.
Defined.

Lemma characteristics_succeeds (tex : Texture.tuple) :
  let om := Texture.om tex in
  let s := Texture.sand tex / 100 in
  let c := Texture.clay tex / 100 in
  0 < SoilLayer.theta1500 c s om -> 0 < SoilLayer.theta33 c s om ->
  SoilLayer.theta33 c s om <> SoilLayer.theta1500 c s om ->
  SoilLayer.theta33 c s om < SoilLayer.theta0 c s om ->
  succeeds (SoilLayer.characteristics tex).
Proof.
  intros om s c H1 H2 H3 H4. unfold succeeds, SoilLayer.characteristics.
  cbv zeta. fold om s c.
  rewrite (math_log_ok (SoilLayer.theta33 c s om)) by lra. simpl.
  rewrite (math_log_ok (SoilLayer.theta1500 c s om)) by lra. simpl.
  assert (L1 : ln (SoilLayer.theta33 c s om) - ln (SoilLayer.theta1500 c s om) <> 0).
  { intros E. apply H3. apply ln_inv; lra. }
  assert (L2 : 0 < ln 1500 - ln 33).
  { assert (0 < 33) by lra. assert (33 < 1500) by lra.
    pose proof (ln_increasing 33 1500). lra. }
  rewrite truediv_ok by assumption. simpl.
  rewrite truediv_ok.
  - simpl. rewrite float_pow_pos by lra. simpl. eauto.
  - unfold Rdiv. apply Rmult_integral_contrapositive_currified;
      [lra | now apply Rinv_neq_0_compat].
Qed.

(** Two textures within [0,100] % on which the characteristics are derived
    and come out of order: [sat < fc] on muck, [fc < pwp] on heavy clay. *)
Lemma characteristics_out_of_order :
  (exists w ks, SoilLayer.characteristics muck = Ok (w, ks) /\
                SWC.sat w < SWC.fc w) /\
  (exists w ks, SoilLayer.characteristics heavy_clay = Ok (w, ks) /\
                SWC.fc w < SWC.pwp w).
Proof.
  split.
  - destruct (characteristics_succeeds muck) as ([w ks] & E);
      try (texture_facts; lra).
    exists w, ks. split; [exact E |].
    apply characteristics_inv in E. destruct E as (-> & -> & _).
    exact muck_sat_fc.
  - destruct (characteristics_succeeds heavy_clay) as ([w ks] & E);
      try (texture_facts; lra).
    exists w, ks. split; [exact E |].
    apply characteristics_inv in E. destruct E as (_ & -> & -> & _).
    texture_facts. lra.
Qed.


(** ** The water balance of a layer *)











(** ** The daily totals of the fluxes *)










(** ** The root zone *)





(** ** The reduction factors and the conductivity *)


Lemma Rpower_antitone (x1 x2 y : R) :
  0 < x1 <= x2 -> y <= 0 -> Rpower x2 y <= Rpower x1 y.
Proof.
  intros [H0 H12] Hy. unfold Rpower.
  assert (Hl : ln x1 <= ln x2).
  { destruct H12 as [Hlt | ->]; [| lra].
    apply Rlt_le, ln_increasing; assumption. }
  assert (Hm : y * ln x2 <= y * ln x1) by nra.
  destruct Hm as [Hm | ->]; [apply Rlt_le, exp_increasing; assumption | lra].
Qed.





(** Property X6.  The evaporation factor grows with the wetness of the top
    layer: of two models whose top layers hold water, the one whose top
    layer is filled to the larger fraction of its saturation point gets the
    larger (or an equal) factor. *)
Theorem reduce_et_soil_monotone (self1 self2 : SoilWater.t)
  (top1 top2 : SoilLayer.t) (ws1 ws2 : ActualET.tuple) :
  nth_error (SoilWater.layers self1) 0 = Some top1 ->
  nth_error (SoilWater.layers self2) 0 = Some top2 ->
  0 < SWC.sat (SoilLayer.swc top1) -> 0 < SoilLayer.vwc top1 ->
  0 < SWC.sat (SoilLayer.swc top2) ->
  SoilLayer.vwc top1 / SWC.sat (SoilLayer.swc top1)
  <= SoilLayer.vwc top2 / SWC.sat (SoilLayer.swc top2) ->
  SoilWater._reduce_et self1 = Ok ws1 ->
  SoilWater._reduce_et self2 = Ok ws2 ->
  ActualET.soil ws1 <= ActualET.soil ws2.
Proof.
  intros T1 T2 S1 V1 S2 Hq E1 E2.
  assert (Q1 : 0 < SoilLayer.vwc top1 / SWC.sat (SoilLayer.swc top1))
    by (apply Rdiv_lt_0_compat; lra).
  unfold SoilWater._reduce_et in E1, E2.
  rewrite (getitem_ok _ _ _ T1) in E1. rewrite (getitem_ok _ _ _ T2) in E2.
  cbn [bind] in E1, E2.
  rewrite truediv_ok in E1, E2 by lra. cbn [bind] in E1, E2.
  rewrite float_pow_pos in E1, E2 by lra. cbn [bind] in E1, E2.
  pose proof (Rpower_pos
    (3.6073 * (SoilLayer.vwc top1 / SWC.sat (SoilLayer.swc top1))) (-9.3172)).
  pose proof (Rpower_pos
    (3.6073 * (SoilLayer.vwc top2 / SWC.sat (SoilLayer.swc top2))) (-9.3172)).
  pose proof (Rpower_antitone
    (3.6073 * (SoilLayer.vwc top1 / SWC.sat (SoilLayer.swc top1)))
    (3.6073 * (SoilLayer.vwc top2 / SWC.sat (SoilLayer.swc top2)))
    (-9.3172)) as Hm.
  rewrite truediv_ok in E1, E2 by lra. cbn [bind] in E1, E2.
  bind_inv E1. bind_inv E2. injection E1 as <-. injection E2 as <-. simpl.
  assert (Hp : Rpower
    (3.6073 * (SoilLayer.vwc top2 / SWC.sat (SoilLayer.swc top2))) (-9.3172)
    <= Rpower
    (3.6073 * (SoilLayer.vwc top1 / SWC.sat (SoilLayer.swc top1))) (-9.3172))
    by (apply Hm; lra).
  unfold Rdiv. rewrite !Rmult_1_l.
  apply Rinv_le_contravar; lra.
Qed.

Lemma ini_moist_loam_sound :
  exists self accdepth',
    SoilWater.__init__ ini_moist_loam 0 = Ok (self, accdepth') /\ sound self /\
    SoilWater.rootdepth self = 0.5 /\
    SoilWater.numintervals self = 4%Z /\
    SoilWater.numlayers self = 1%Z /\
    Forall2 built [Ini.mk_layer 1 0.3 loam] (SoilWater.layers self) /\
    stacked 0 0 0 (SoilWater.layers self).
Proof. apply (init_sound ini_moist_loam 0 1); sample_payload. Qed.

Lemma built_loam_top (th v : R) (self : SoilWater.t) :
  0 < v ->
  Forall2 built [Ini.mk_layer th v loam] (SoilWater.layers self) ->
  exists top,
    nth_error (SoilWater.layers self) 0 = Some top /\
    SoilLayer.vwc top = v /\ SWC.sat (SoilLayer.swc top) = sat_of loam.
Proof.
  intros Hv B. inversion B as [| r l rs ls Bl B' E1 E2]; subst.
  exists l. split; [reflexivity |].
  destruct Bl as [_ _ S _ _ _ _ V]. simpl in S, V.
  unfold initial_vwc in V. rewrite Rltb_false in V by lra. now split.
Qed.

Lemma sat_of_loam_pos : 0 < sat_of loam.
Proof. texture_facts. lra. Qed.

Lemma reduce_et_soil_monotone_witness :
  exists dry wet a1 a2 ws1 ws2,
    SoilWater.__init__ ini_loam 0 = Ok (dry, a1) /\
    SoilWater.__init__ ini_moist_loam 0 = Ok (wet, a2) /\
    SoilWater._reduce_et dry = Ok ws1 /\
    SoilWater._reduce_et wet = Ok ws2 /\
    ActualET.soil ws1 <= ActualET.soil ws2.
Proof.
  destruct ini_loam_sound as (dry & a1 & E1 & _ & _ & _ & _ & B1 & _).
  destruct ini_moist_loam_sound as (wet & a2 & E2 & _ & _ & _ & _ & B2 & _).
  destruct (built_loam_top 1 0.25 dry) as (t1 & N1 & V1 & S1); [lra | exact B1 |].
  destruct (built_loam_top 1 0.3 wet) as (t2 & N2 & V2 & S2); [lra | exact B2 |].
  pose proof sat_of_loam_pos as Hs.
  destruct (reduce_et_ok dry t1 N1) as (ws1 & W1); [lra | lra |].
  destruct (reduce_et_ok wet t2 N2) as (ws2 & W2); [lra | lra |].
  exists dry, wet, a1, a2, ws1, ws2.
  split; [exact E1 |]. split; [exact E2 |].
  split; [exact W1 |]. split; [exact W2 |].
  apply (reduce_et_soil_monotone dry wet t1 t2 ws1 ws2 N1 N2);
    try assumption; try lra.
  rewrite V1, V2, S1, S2. unfold Rdiv.
  apply Rmult_le_compat_r; [apply Rlt_le, Rinv_0_lt_compat; exact Hs | lra].
Defined.

(** ** The input data *)

Lemma comprehension_ok {I A : Type} (f : I -> result A) (g : I -> A)
  (items : list I) :
  (forall i, In i items -> f i = Ok (g i)) ->
  comprehension f items = Ok (map g items).
Proof.
  induction items as [| i rest IH]; intros H; [reflexivity |].
  simpl. rewrite (H i) by (now left). simpl.
  rewrite IH by (intros j Hj; apply H; now right). reflexivity.
Qed.

Lemma comprehension_inv {I A : Type} (f : I -> result A) (items : list I)
  (xs : list A) :
  comprehension f items = Ok xs ->
  length xs = length items /\
  forall k i, nth_error items k = Some i ->
    exists x, f i = Ok x /\ nth_error xs k = Some x.
Proof.
  revert xs. induction items as [| i rest IH]; intros xs H.
  - injection H as <-. split; [reflexivity |]. intros [| k] j; discriminate.
  - simpl in H. bind_inv H. bind_inv H. injection H as <-.
    destruct (IH _ E0) as [L N]. split; [simpl; now rewrite L |].
    intros [| k] j Hj; simpl in Hj.
    + injection Hj as <-. exists v. now split.
    + apply (N k j Hj).
Qed.

Lemma comprehension_raise {I A : Type} (f : I -> result A) (e : PyError)
  (items : list I) :
  (forall i err, f i = Raise err -> err = e) ->
  forall err, comprehension f items = Raise err -> err = e.
Proof.
  intros Hf. induction items as [| i rest IH]; intros err H; [discriminate |].
  simpl in H. destruct (f i) as [x | e1] eqn:E; simpl in H.
  - destruct (comprehension f rest) as [xs | e2]; simpl in H;
      [discriminate |]. injection H as <-. now apply IH.
  - injection H as <-. now apply (Hf i).
Qed.

(** Reading [seq a (length row)] positions that hold [row] gives [row]. *)
Lemma comprehension_row {A : Type} (row : list A) :
  forall (f : nat -> result A) (a : nat),
  (forall i x, nth_error row i = Some x -> f (a + i)%nat = Ok x) ->
  comprehension f (seq a (length row)) = Ok row.
Proof.
  induction row as [| x row IH]; intros f a H; [reflexivity |].
  simpl. rewrite <- (Nat.add_0_r a) at 1. rewrite (H 0%nat x eq_refl). simpl.
  rewrite (IH f (S a)).
  - reflexivity.
  - intros i y Hy. replace (S a + i)%nat with (a + S i)%nat by lia.
    now apply H.
Qed.

Lemma floats_of_row (row : list R) :
  comprehension DailyData.float (map Some row) = Ok row.
Proof.
  induction row as [| x row IH]; [reflexivity |].
  simpl. now rewrite IH.
Qed.

Lemma concat_rectangular_length (n : nat) (rows : list (list R)) :
  rectangular n rows -> length (concat rows) = (length rows * n)%nat.
Proof.
  induction 1 as [| row rows Hr _ IH]; [reflexivity |].
  simpl. rewrite length_app, IH, Hr. reflexivity.
Qed.

Lemma concat_rectangular_nth (n : nat) (rows : list (list R)) :
  rectangular n rows ->
  forall r row i, nth_error rows r = Some row -> (i < n)%nat ->
  nth_error (concat rows) (r * n + i) = nth_error row i.
Proof.
  induction 1 as [| row0 rows Hr _ IH]; intros r row i Hrow Hi.
  - destruct r; discriminate.
  - destruct r as [| r]; simpl in Hrow.
    + injection Hrow as <-. simpl. apply nth_error_app1. lia.
    + simpl. rewrite nth_error_app2 by lia.
      replace (n + r * n + i - length row0)%nat with (r * n + i)%nat by lia.
      now apply IH.
Qed.

(** The lines of a rectangular file are read in order, and the set of line
    lengths ends with the one length. *)
Lemma read_lines_rectangular (n : nat) (rows : list (list R)) :
  rectangular (S n) rows ->
  forall (s : list nat) (d : list R),
  s = [] \/ s = [S n] ->
  DailyData.read_lines (lines_of rows) s d
  = Ok (match rows with [] => s | _ => [S n] end, d ++ concat rows).
Proof.
  induction 1 as [| row rows Hr Hrest IH]; intros s d Hs.
  - simpl. now rewrite app_nil_r.
  - simpl. rewrite floats_of_row. simpl.
    destruct row as [| x row]; [discriminate |].
    rewrite IH.
    + rewrite <- app_assoc. f_equal. f_equal.
      destruct rows; [| reflexivity].
      rewrite Hr. destruct Hs as [-> | ->]; [reflexivity |].
      unfold DailyData.set_add. simpl. now rewrite Nat.eqb_refl.
    + right. rewrite Hr. destruct Hs as [-> | ->]; [reflexivity |].
      unfold DailyData.set_add. simpl. now rewrite Nat.eqb_refl.
Qed.

Lemma init_rectangular (n : nat) (rows : list (list R)) :
  rows <> [] -> rectangular (S n) rows ->
  DailyData.__init__ (lines_of rows)
  = Ok (DailyData.mk (Z.of_nat (S n)) (concat rows)).
Proof.
  intros Hne Hr. unfold DailyData.__init__.
  rewrite (read_lines_rectangular n rows Hr [] []) by (now left).
  destruct rows; [congruence | reflexivity].
Qed.

Lemma lookup_rectangular (n : nat) (rows : list (list R)) (key : Z) :
  rows <> [] -> rectangular (S n) rows -> (1 <= key)%Z ->
  exists row,
    nth_error rows (Z.to_nat ((key - 1) mod Z.of_nat (length rows)))
    = Some row /\
    DailyData.__getitem__ (DailyData.mk (Z.of_nat (S n)) (concat rows)) key
    = Ok (match row with
          | [x] => DailyData.Float x
          | _ => DailyData.Floats row
          end).
Proof.
  intros Hne Hr Hkey.
  set (m := length rows).
  assert (Hm : (0 < m)%nat).
  { unfold m. destruct rows; [congruence | simpl; lia]. }
  set (r := Z.to_nat ((key - 1) mod Z.of_nat m)).
  assert (Hrm : (r < m)%nat).
  { unfold r. pose proof (Z.mod_pos_bound (key - 1) (Z.of_nat m)). lia. }
  destruct (nth_error rows r) as [row |] eqn:Erow;
    [| apply nth_error_None in Erow; fold m in Erow; lia].
  exists row. split; [reflexivity |].
  assert (Hlen : length row = S n).
  { unfold rectangular in Hr. rewrite Forall_forall in Hr.
    apply Hr. eapply nth_error_In; eassumption. }
  unfold DailyData.__getitem__. cbn [DailyData.data DailyData.nset].
  destruct (Z.ltb_spec key 1); [lia |].
  rewrite (concat_rectangular_length (S n) rows Hr). fold m.
  destruct (Z.eqb_spec (Z.of_nat (m * S n)) 0); [lia |].
  assert (Hidx : Z.to_nat (((key - 1) * Z.of_nat (S n))
                           mod Z.of_nat (m * S n)) = (r * S n)%nat).
  { rewrite Nat2Z.inj_mul, Z.mul_mod_distr_r by lia.
    unfold r. pose proof (Z.mod_pos_bound (key - 1) (Z.of_nat m)).
    rewrite Z2Nat.inj_mul by lia. now rewrite Nat2Z.id. }
  rewrite Hidx.
  destruct (Z.eqb_spec (Z.of_nat (S n)) 1) as [H1 | H1].
  - assert (n = 0%nat) by lia. subst n.
    destruct row as [| x [| y row]]; try discriminate.
    unfold getitem.
    rewrite <- (Nat.add_0_r (r * 1)).
    rewrite (concat_rectangular_nth 1 rows Hr r [x] 0 Erow) by lia.
    reflexivity.
  - unfold range. rewrite Nat2Z.id.
    replace (seq 0 (S n)) with (seq 0 (length row)) by (now rewrite Hlen).
    rewrite (comprehension_row row).
    + simpl. destruct row as [| x [| y row]]; try reflexivity.
      simpl in Hlen. lia.
    + intros i x Hx. unfold getitem. rewrite Nat.add_0_l.
      rewrite (concat_rectangular_nth (S n) rows Hr r row i Erow), Hx.
      * reflexivity.
      * rewrite <- Hlen. apply nth_error_Some. congruence.
Qed.

(** Property X7.  From a file of at least one line, every line holding the
    same positive number of values, [DailyData] is built, and indexing it
    by a day number [key >= 1] never fails: it gives line
    [(key - 1) mod m] of the [m] lines, so the data start again from the
    first line when the days outnumber the lines; the line is given as one
    float when it holds a single value and as the list of its values
    otherwise. *)
Theorem dailydata_lookup (n : nat) (rows : list (list R)) (key : Z) :
  rows <> [] -> (0 < n)%nat -> rectangular n rows -> (1 <= key)%Z ->
  exists dd row,
    DailyData.__init__ (lines_of rows) = Ok dd /\
    nth_error rows (Z.to_nat ((key - 1) mod Z.of_nat (length rows)))
    = Some row /\
    DailyData.__getitem__ dd key
    = Ok (match row with
          | [x] => DailyData.Float x
          | _ => DailyData.Floats row
          end).
Proof.
  intros Hne Hn Hr Hkey.
  destruct n as [| n]; [lia |].
  destruct (lookup_rectangular n rows key Hne Hr Hkey) as (row & Hrow & E).
  exists (DailyData.mk (Z.of_nat (S n)) (concat rows)), row.
  split; [now apply init_rectangular |]. now split.
Qed.

Lemma dailydata_lookup_witness :
  exists dd row,
    DailyData.__init__ (lines_of [[5; 2; 3; 1]; [0; 2; 4; 2]]) = Ok dd /\
    nth_error [[5; 2; 3; 1]; [0; 2; 4; 2]]
      (Z.to_nat ((4 - 1) mod Z.of_nat 2)) = Some row /\
    DailyData.__getitem__ dd 4
    = Ok (match row with
          | [x] => DailyData.Float x
          | _ => DailyData.Floats row
          end).
Proof.
  apply (dailydata_lookup 4 [[5; 2; 3; 1]; [0; 2; 4; 2]] 4).
  - discriminate.
  - lia.
  - repeat constructor.
  - lia.
Defined.

Lemma comprehension_map {I J A : Type} (f : J -> result A) (g : I -> J)
  (items : list I) :
  comprehension f (map g items) = comprehension (fun i => f (g i)) items.
Proof.
  induction items as [| i rest IH]; [reflexivity |].
  simpl. now rewrite IH.
Qed.

(** Property X8.  Iterating over a [DailyData] built from a file of at least
    one line, every line holding the same positive number of values, gives
    the lines of the file back, in order, each as the list of its
    values. *)
Theorem dailydata_iter (n : nat) (rows : list (list R)) :
  rows <> [] -> (0 < n)%nat -> rectangular n rows ->
  exists dd,
    DailyData.__init__ (lines_of rows) = Ok dd /\
    DailyData.__iter__ dd = Ok rows.
Proof.
  intros Hne Hn Hr. destruct n as [| n]; [lia |].
  exists (DailyData.mk (Z.of_nat (S n)) (concat rows)).
  split; [now apply init_rectangular |].
  set (m := length rows).
  assert (Hm : (0 < m)%nat).
  { unfold m. destruct rows; [congruence | simpl; lia]. }
  unfold DailyData.__iter__, range3.
  cbn [DailyData.data DailyData.nset].
  rewrite (concat_rectangular_length (S n) rows Hr). fold m.
  destruct (Z.eqb_spec (Z.of_nat (S n)) 0); [lia |].
  destruct (Z.ltb_spec 0 (Z.of_nat (S n))); [| lia].
  destruct (Z.ltb_spec 0 (Z.of_nat (m * S n))); [| lia].
  assert (Hq : ((Z.of_nat (m * S n) - 1 - 0) / Z.of_nat (S n)
                = Z.of_nat m - 1)%Z).
  { symmetry. apply (Z.div_unique_pos _ _ _ (Z.of_nat (S n) - 1)); lia. }
  rewrite Hq. replace (Z.to_nat (1 + (Z.of_nat m - 1))) with m by lia.
  cbn [bind]. rewrite comprehension_map. unfold m.
  apply comprehension_row.
  intros k row Hrow. rewrite Nat.add_0_l.
  replace (Z.to_nat (0 + Z.of_nat k * Z.of_nat (S n))) with (k * S n)%nat
    by lia.
  assert (Hlen : length row = S n).
  { unfold rectangular in Hr. rewrite Forall_forall in Hr.
    apply Hr. eapply nth_error_In; eassumption. }
  unfold range. rewrite Nat2Z.id.
  replace (seq 0 (S n)) with (seq 0 (length row)) by (now rewrite Hlen).
  apply comprehension_row.
  intros i x Hx. unfold getitem. rewrite Nat.add_0_l.
  rewrite (concat_rectangular_nth (S n) rows Hr k row i Hrow), Hx.
  - reflexivity.
  - rewrite <- Hlen. apply nth_error_Some. congruence.
Qed.

Lemma dailydata_iter_witness :
  exists dd,
    DailyData.__init__ (lines_of [[5; 2; 3; 1]; [0; 2; 4; 2]]) = Ok dd /\
    DailyData.__iter__ dd = Ok [[5; 2; 3; 1]; [0; 2; 4; 2]].
Proof.
  apply (dailydata_iter 4 [[5; 2; 3; 1]; [0; 2; 4; 2]]).
  - discriminate.
  - lia.
  - repeat constructor.
Defined.

(** The set of line lengths: it keeps its first element, and holds a
    single element as long as every length added is that element. *)
Lemma set_add_same (a : nat) : DailyData.set_add a [a] = [a].
Proof. unfold DailyData.set_add. simpl. now rewrite Nat.eqb_refl. Qed.

Lemma set_add_other (a b : nat) :
  b <> a -> DailyData.set_add b [a] = [a; b].
Proof.
  intros H. unfold DailyData.set_add. simpl.
  destruct (Nat.eqb_spec b a); [contradiction | reflexivity].
Qed.

Lemma set_add_length (b : nat) (s : list nat) :
  (length s <= length (DailyData.set_add b s))%nat.
Proof.
  unfold DailyData.set_add. destruct (existsb _ _); [lia |].
  rewrite length_app. simpl. lia.
Qed.

Lemma read_lines_spec (lines : list DailyData.line) :
  forall (s : list nat) (d : list R),
  DailyData.read_lines lines s d =
  match comprehension (comprehension DailyData.float) lines with
  | Raise _ => Raise ValueError
  | Ok parsed =>
    Ok (fold_left (fun s row => DailyData.set_add (length row) s)
          (filter nonempty parsed) s,
        d ++ concat (filter nonempty parsed))
  end.
Proof.
  induction lines as [| l rest IH]; intros s d.
  - simpl. now rewrite app_nil_r.
  - simpl. destruct (comprehension DailyData.float l) as [lst | e] eqn:E.
    + simpl. destruct lst as [| x lst].
      * rewrite IH.
        destruct (comprehension (comprehension DailyData.float) rest)
          as [parsed | e]; reflexivity.
      * rewrite IH.
        destruct (comprehension (comprehension DailyData.float) rest)
          as [parsed | e]; [| reflexivity].
        simpl. now rewrite <- app_assoc.
    + simpl. f_equal.
      apply (comprehension_raise DailyData.float ValueError l); [| exact E].
      intros [x |] err H; simpl in H; [discriminate | congruence].
Qed.

Lemma lengths_uniform (a : nat) (rows : list (list R)) :
  forallb (fun r => (length r =? a)%nat) rows = true ->
  fold_left (fun s row => DailyData.set_add (length row) s) rows [a] = [a].
Proof.
  induction rows as [| r rows IH]; intros H; [reflexivity |].
  simpl in H. apply andb_true_iff in H. destruct H as [H1 H2].
  apply Nat.eqb_eq in H1. simpl. rewrite H1, set_add_same. now apply IH.
Qed.

Lemma lengths_grow (rows : list (list R)) :
  forall s, (length s <=
    length (fold_left (fun s row => DailyData.set_add (length row) s) rows s))%nat.
Proof.
  induction rows as [| r rows IH]; intros s; [simpl; lia |].
  simpl. pose proof (set_add_length (length r) s).
  pose proof (IH (DailyData.set_add (length r) s)). lia.
Qed.

Lemma lengths_mixed (a : nat) (rows : list (list R)) :
  forallb (fun r => (length r =? a)%nat) rows = false ->
  (2 <= length
     (fold_left (fun s row => DailyData.set_add (length row) s) rows [a]))%nat.
Proof.
  induction rows as [| r rows IH]; intros H; [discriminate |].
  simpl in H. simpl. destruct (Nat.eqb_spec (length r) a) as [-> | Hne].
  - rewrite set_add_same. now apply IH.
  - rewrite set_add_other by assumption.
    apply (lengths_grow rows [a; length r]).
Qed.

(** Property X9.  [DailyData.__init__] raises [ValueError] when an item of
    the file is not a number; otherwise it raises [IndexError] when no line
    holds a value or when two lines hold different numbers of values, and
    else it stores the number of values of a line and all the values, line
    after line. *)
Theorem dailydata_init_loaded (lines : list DailyData.line) :
  DailyData.__init__ lines = loaded lines.
Proof.
  unfold DailyData.__init__, loaded. rewrite read_lines_spec.
  destruct (comprehension (comprehension DailyData.float) lines)
    as [parsed | e]; [| reflexivity].
  cbn [bind]. rewrite app_nil_l.
  destruct (filter nonempty parsed) as [| row rows]; [reflexivity |].
  cbn [fold_left]. unfold DailyData.set_add at 2. cbn [existsb app].
  destruct (forallb _ rows) eqn:Hall.
  - now rewrite lengths_uniform.
  - pose proof (lengths_mixed _ _ Hall) as H2.
    destruct (fold_left _ rows _) as [| a [| b t]]; simpl in H2;
      try lia; reflexivity.
Qed.

(** ** The tick marks of the charts *)

Lemma shrink_spec (turns : nat) :
  forall rg num, (num <= Z.of_nat turns)%Z ->
  let r := Plot.shrink turns rg num in
  (r <= num)%Z /\
  (1 <= num -> 1 <= r)%Z /\
  (1 < r -> rg mod r = 0)%Z /\
  (forall d, r < d <= num -> 1 < d -> rg mod d <> 0)%Z.
Proof.
  induction turns as [| turns IH]; intros rg num Hn r.
  - unfold r. simpl. repeat split; try lia.
  - unfold r. simpl.
    destruct (Z.ltb_spec 1 num) as [H1 | H1]; cbn [andb].
    + destruct (Z.eqb_spec (rg mod num) 0) as [H0 | H0]; cbn [negb].
      * repeat split; try lia.
      * destruct (IH rg (num - 1)%Z) as (A & B & C & D); [lia |].
        repeat split; try lia.
        intros d Hd Hd1. destruct (Z.eq_dec d num) as [-> | Hne];
          [assumption | apply D; lia].
    + repeat split; try lia.
Qed.

(** When some interval count divides the range, the ticks run from [start]
    to [end_]. *)
Lemma generate_found (depth : nat) (start end_ max_intervals : Z) :
  (start < end_)%Z ->
  let num := Plot.shrink (Z.to_nat max_intervals) (end_ - start)
               max_intervals in
  (1 < num)%Z ->
  (1 <= (end_ - start) / num)%Z /\
  (start + num * ((end_ - start) / num) = end_)%Z /\
  Plot.generate_xvalues (S depth) start end_ max_intervals
  = Some (Ok (ticks start num ((end_ - start) / num))).
Proof.
  intros Hlt num Hnum.
  destruct (shrink_spec (Z.to_nat max_intervals) (end_ - start)
              max_intervals) as (A & B & C & D); [lia |].
  fold num in A, B, C, D.
  pose proof (C Hnum) as Hmod.
  assert (Hrg : (end_ - start = num * ((end_ - start) / num))%Z).
  { rewrite (Z.div_mod (end_ - start) num) at 1 by lia. lia. }
  set (sz := ((end_ - start) / num)%Z) in *.
  assert (Hsz : (1 <= sz)%Z) by nia.
  split; [assumption |]. split; [lia |].
  cbn [Plot.generate_xvalues]. cbv zeta. fold num.
  destruct (Z.ltb_spec 1 num); [| lia]. fold sz.
  unfold range3, ticks.
  destruct (Z.eqb_spec sz 0); [lia |].
  destruct (Z.ltb_spec 0 sz); [| lia].
  destruct (Z.ltb_spec start (end_ + 1)); [| lia].
  replace (end_ + 1 - 1 - start)%Z with (num * sz)%Z by lia.
  rewrite Z.div_mul by lia.
  replace (Z.to_nat (1 + num)) with (S (Z.to_nat num)) by lia.
  reflexivity.
Qed.

(** Property X10.  For [start < end] and at least two intervals allowed,
    [generate_xvalues] returns equally spaced values from [start]: between
    two and [max_intervals] intervals of one integer size, ending at [end]
    when one of the allowed interval counts divides [end - start], and at
    [end + 1] when none does; one nested call is enough. *)
Theorem generate_xvalues_ticks (depth : nat) (start end_ max_intervals : Z) :
  (start < end_)%Z -> (2 <= max_intervals)%Z ->
  exists num sz,
    (2 <= num <= max_intervals)%Z /\ (1 <= sz)%Z /\
    ((start + num * sz = end_)%Z \/
     (start + num * sz = end_ + 1)%Z /\
     forall d, (2 <= d <= max_intervals)%Z -> ((end_ - start) mod d <> 0)%Z) /\
    Plot.generate_xvalues (S (S depth)) start end_ max_intervals
    = Some (Ok (ticks start num sz)).
Proof.
  intros Hlt Hmax.
  destruct (shrink_spec (Z.to_nat max_intervals) (end_ - start)
              max_intervals) as (A & B & C & D); [lia |].
  set (num := Plot.shrink (Z.to_nat max_intervals) (end_ - start)
                max_intervals) in *.
  destruct (Z_lt_le_dec 1 num) as [Hnum | Hnum].
  - destruct (generate_found (S depth) start end_ max_intervals Hlt Hnum)
      as (Hsz & Hend & E).
    exists num, ((end_ - start) / num)%Z.
    split; [lia |]. split; [assumption |]. split; [now left | exact E].
  - assert (Hnone : forall d, (2 <= d <= max_intervals)%Z ->
                              ((end_ - start) mod d <> 0)%Z).
    { intros d Hd. apply D; lia. }
    destruct (shrink_spec (Z.to_nat max_intervals) (end_ + 1 - start)
                max_intervals) as (A' & B' & C' & D'); [lia |].
    set (num' := Plot.shrink (Z.to_nat max_intervals) (end_ + 1 - start)
                   max_intervals) in *.
    assert (Hnum' : (1 < num')%Z).
    { destruct (Z_lt_le_dec 1 num') as [H | H]; [assumption |].
      exfalso. apply (D' 2%Z); [lia | lia |].
      pose proof (Hnone 2%Z ltac:(lia)) as Hodd.
      pose proof (Z.mod_pos_bound (end_ - start) 2 ltac:(lia)).
      replace (end_ + 1 - start)%Z with ((end_ - start) + 1)%Z by lia.
      rewrite Z.add_mod by lia.
      replace ((end_ - start) mod 2)%Z with 1%Z by lia. reflexivity. }
    destruct (generate_found depth start (end_ + 1) max_intervals
                ltac:(lia) Hnum') as (Hsz & Hend & E).
    exists num', ((end_ + 1 - start) / num')%Z.
    split; [lia |]. split; [assumption |].
    split; [right; split; assumption |].
    cbn [Plot.generate_xvalues]. cbv zeta. fold num.
    destruct (Z.ltb_spec 1 num); [lia |]. exact E.
Qed.

Lemma generate_xvalues_ticks_witness :
  exists num sz,
    (2 <= num <= 25)%Z /\ (1 <= sz)%Z /\
    ((1 + num * sz = 30)%Z \/
     (1 + num * sz = 30 + 1)%Z /\
     forall d, (2 <= d <= 25)%Z -> ((30 - 1) mod d <> 0)%Z) /\
    Plot.generate_xvalues 2 1 30 25 = Some (Ok (ticks 1 num sz)).
Proof. apply (generate_xvalues_ticks 0 1 30 25); lia. Defined.

(** Property X11.  When [start] and [end] are the same value and at least two
    intervals are allowed, [generate_xvalues] raises [ValueError]: the
    interval size it finds is 0, which [range] rejects as a step. *)
Theorem generate_xvalues_single (depth : nat) (start max_intervals : Z) :
  (2 <= max_intervals)%Z ->
  Plot.generate_xvalues (S depth) start start max_intervals
  = Some (Raise ValueError).
Proof.
  intros Hmax. cbn [Plot.generate_xvalues]. cbv zeta.
  rewrite Z.sub_diag.
  assert (E : Plot.shrink (Z.to_nat max_intervals) 0 max_intervals
              = max_intervals).
  { destruct (Z.to_nat max_intervals) as [| t]; [reflexivity |].
    cbn [Plot.shrink]. rewrite Zmod_0_l. cbn [Z.eqb negb].
    now rewrite andb_false_r. }
  rewrite E. destruct (Z.ltb_spec 1 max_intervals); [| lia].
  rewrite Zdiv_0_l. reflexivity.
Qed.

Lemma generate_xvalues_single_witness :
  Plot.generate_xvalues 1 1 1 25 = Some (Raise ValueError).
Proof. apply (generate_xvalues_single 0 1 25). lia. Defined.

(** Property X12.  With fewer than two intervals allowed, [generate_xvalues]
    never returns: every call calls itself again with the next end value,
    whatever the number of nested calls allowed. *)
Theorem generate_xvalues_diverges (depth : nat) (start end_ max_intervals : Z) :
  (max_intervals <= 1)%Z ->
  Plot.generate_xvalues depth start end_ max_intervals = None.
Proof.
  intros Hmax. revert end_.
  induction depth as [| depth IH]; intros end_; [reflexivity |].
  cbn [Plot.generate_xvalues]. cbv zeta.
  assert (E : Plot.shrink (Z.to_nat max_intervals) (end_ - start)
                max_intervals = max_intervals).
  { destruct (Z.to_nat max_intervals) as [| t]; [reflexivity |].
    simpl. destruct (Z.ltb_spec 1 max_intervals); [lia | reflexivity]. }
  rewrite E. destruct (Z.ltb_spec 1 max_intervals); [lia |]. apply IH.
Qed.

Lemma generate_xvalues_diverges_witness :
  Plot.generate_xvalues 1000 1 365 1 = None.
Proof. apply (generate_xvalues_diverges 1000 1 365 1). lia. Defined.

(** Property X13.  [color] never fails, and two indices get the same colour
    exactly when they differ by a multiple of 9: the nine colours are
    distinct and are used again from the tenth index on. *)
Theorem color_period (i j : Z) :
  succeeds (Plot.color i) /\
  (Plot.color i = Plot.color j <-> (i mod 9 = j mod 9)%Z).
Proof.
  unfold Plot.color. cbn [length Plot.colors].
  change (Z.of_nat 9) with 9%Z.
  pose proof (Z.mod_pos_bound i 9 ltac:(lia)) as Hi.
  pose proof (Z.mod_pos_bound j 9 ltac:(lia)) as Hj.
  assert (Ha : (Z.to_nat (i mod 9) < 9)%nat) by lia.
  assert (Hb : (Z.to_nat (j mod 9) < 9)%nat) by lia.
  split.
  - unfold succeeds, getitem.
    destruct (nth_error Plot.colors (Z.to_nat (i mod 9))) eqn:E; [eauto |].
    apply nth_error_None in E. simpl in E. lia.
  - split.
    + intros H. apply Z2Nat.inj; try lia.
      revert H Ha Hb.
      generalize (Z.to_nat (i mod 9)) (Z.to_nat (j mod 9)).
      intros a b H Ha Hb. unfold getitem in H.
      do 9 (destruct a as [| a]; [
        do 9 (destruct b as [| b]; [first [reflexivity | discriminate] |]);
        lia |]).
      lia.
    + intros ->. reflexivity.
Qed.

(** ** The simulation loop *)








(** ** Root growth over a simulation *)







(** ** Payloads that [__init__] rejects *)

(** Property X16.  A payload that declares no layer (a layer count of zero or
    less) never gives a model: [__init__] raises [ZeroDivisionError] when
    the root depth is 0, and [IndexError] otherwise. *)
Theorem init_needs_layers (ini : Ini.payload) (accdepth : R) :
  (Ini.numlayers ini <= 0)%Z ->
  SoilWater.__init__ ini accdepth
  = Raise (if Reqb (Ini.rootdepth ini) 0 then ZeroDivisionError
           else IndexError).
Proof.
  intros H. unfold SoilWater.__init__, range.
  replace (Z.to_nat (Ini.numlayers ini)) with 0%nat by lia.
  cbn. unfold truediv.
  destruct (Reqb (Ini.rootdepth ini) 0); reflexivity.
Qed.

Lemma init_needs_layers_witness :
  SoilWater.__init__ ini_no_layers 0
  = Raise (if Reqb (Ini.rootdepth ini_no_layers) 0 then ZeroDivisionError
           else IndexError).
Proof. apply (init_needs_layers ini_no_layers 0). simpl. lia. Defined.

(** Property X17.  A payload with a root depth of 0 never gives a model:
    whatever its layers, [__init__] raises. *)
Theorem init_needs_roots (ini : Ini.payload) (accdepth : R) :
  Ini.rootdepth ini = 0 -> ~ succeeds (SoilWater.__init__ ini accdepth).
Proof.
  intros H [[self acc] E]. unfold SoilWater.__init__ in E.
  bind_inv E. bind_inv E. destruct v0 as [ls acc1].
  bind_inv E. unfold SoilWater._rootzone_water in E2.
  cbn [SoilWater.rootdepth] in E2. rewrite H in E2.
  destruct (SoilWater.rootzone_sums _ _ _) as [[[a b] c] d].
  rewrite truediv_zero in E2. discriminate.
Qed.

Lemma init_needs_roots_witness :
  ~ succeeds (SoilWater.__init__ ini_no_roots 0).
Proof. apply (init_needs_roots ini_no_roots 0). reflexivity. Defined.

Lemma value_error_iff (tex : Texture.tuple) :
  let om := Texture.om tex in
  let s := Texture.sand tex / 100 in
  let c := Texture.clay tex / 100 in
  SoilLayer.characteristics tex = Raise ValueError <->
  SoilLayer.theta33 c s om <= 0 \/ SoilLayer.theta1500 c s om <= 0.
Proof.
  intros om s c. unfold SoilLayer.characteristics. cbv zeta. fold om s c.
  unfold math_log.
  destruct (Rltb_spec 0 (SoilLayer.theta33 c s om)) as [H33 | H33];
    cbn [bind]; [| split; [left; lra | reflexivity]].
  destruct (Rltb_spec 0 (SoilLayer.theta1500 c s om)) as [H15 | H15];
    cbn [bind]; [| split; [right; lra | reflexivity]].
  split; [| lra]. intros H. exfalso.
  unfold truediv in H.
  destruct (Reqb _ 0) in H; cbn [bind] in H; [discriminate |].
  destruct (Reqb _ 0) in H; cbn [bind] in H; [discriminate |].
  unfold float_pow in H.
  repeat (destruct (Rltb _ _) in H || destruct (Reqb _ _) in H);
    cbn [bind] in H; discriminate.
Qed.

(** Property X18.  [characteristics] raises [ValueError] exactly when one of
    the two regressions for the moisture at 33 kPa and at 1500 kPa is not
    positive, so that its logarithm is not defined. *)
Theorem characteristics_value_error (tex : Texture.tuple) :
  let om := Texture.om tex in
  let s := Texture.sand tex / 100 in
  let c := Texture.clay tex / 100 in
  SoilLayer.characteristics tex = Raise ValueError <->
  SoilLayer.theta33 c s om <= 0 \/ SoilLayer.theta1500 c s om <= 0.
Proof. apply value_error_iff. Qed.

(** Property X19.  A profile whose first layer is a sand without clay and
    organic matter, with 56.07 % of sand or more, cannot be built:
    [__init__] raises [ValueError]. *)
Theorem init_rejects_sand (ini : Ini.payload) (accdepth : R)
  (rec : Ini.layer) (recs : list Ini.layer) :
  Ini.layers ini = rec :: recs ->
  (0 < Z.to_nat (Ini.numlayers ini) <= length (Ini.layers ini))%nat ->
  Texture.clay (Ini.texture rec) = 0 -> Texture.om (Ini.texture rec) = 0 ->
  56.07 <= Texture.sand (Ini.texture rec) <= 100 ->
  SoilWater.__init__ ini accdepth = Raise ValueError.
Proof.
  intros El [Hpos Hle] Hc Hom Hs.
  unfold SoilWater.__init__.
  destruct (read_layers_ok (Ini.layers ini)
              (map (fun _ => SoilLayer.new) (range (Ini.numlayers ini))) 0)
    as (ls0 & E0 & F0).
  { unfold range. rewrite length_map, length_seq. lia. }
  rewrite E0. cbn [bind].
  unfold range in F0. rewrite length_map, length_seq in F0.
  cbn [skipn] in F0.
  rewrite El in F0.
  destruct (Z.to_nat (Ini.numlayers ini)) as [| n]; [lia |].
  cbn [firstn] in F0. inversion F0 as [| ? l ? ls Hseed _]; subst.
  destruct Hseed as (_ & _ & Ht).
  cbn [SoilWater.init_layers]. unfold SoilLayer.initialize_layer. cbv zeta.
  rewrite Ht.
  assert (E : SoilLayer.characteristics (Ini.texture rec) = Raise ValueError).
  { apply value_error_iff. cbv zeta. right.
    rewrite Hc, Hom. unfold SoilLayer.theta1500. cbv zeta. lra. }
  rewrite E. reflexivity.
Qed.

Lemma init_rejects_sand_witness :
  SoilWater.__init__ ini_sand 0 = Raise ValueError.
Proof.
  apply (init_rejects_sand ini_sand 0
           (Ini.mk_layer 1 0.1 (Texture.mk 0 100 0)) []);
    simpl; try reflexivity; try lia; lra.
Defined.

(** ** The depth of the layers and the class accumulator *)














(** ** The influx from the water table *)





(** ** The water balance of the profile *)







(** ** A day on a sound model *)



(** ** The fluxes at the surface *)

Lemma influx_step_surface (self : SoilWater.t) (ls : list SoilLayer.t)
  (pf : list Fluxes.tuple) (p : R) (idx : nat)
  (ls' : list SoilLayer.t) (pf' : list Fluxes.tuple) (p' : R) :
  SoilWater.influx_step self (ls, pf, p) idx = Ok (ls', pf', p') ->
  exists cur0 f f',
    nth_error ls idx = Some cur0 /\
    nth_error pf idx = Some f /\
    pf' = setitem pf idx f' /\
    Fluxes.e f' = evaporation self idx /\
    (idx = 0%nat ->
     Fluxes.influx f'
     = py_min (SoilWater.netrain self / 1000) (SoilLayer.ksat cur0)
       - Fluxes.e f' - Fluxes.t f').
Proof.
  unfold SoilWater.influx_step. intros H.
  bind_inv H. bind_inv H. bind_inv H. bind_inv H. bind_inv H. bind_inv H.
  injection H as <- <- <-.
  apply getitem_inv in E, E4.
  apply update_heads_k_frame in E0.
  destruct E0 as (_ & _ & _ & _ & _ & _ & _ & Hks & _).
  exists v, v4. eexists. split; [exact E |]. split; [exact E4 |].
  split; [reflexivity |].
  destruct idx as [| j].
  - injection E1 as <-. injection E3 as <-. cbn.
    split; [reflexivity |]. intros _. rewrite Hks. reflexivity.
  - bind_inv E1. injection E1 as <-. cbn. split; [reflexivity |].
    intros Hj. discriminate.
Qed.

Lemma influx_pass_surface (self : SoilWater.t) (n : nat) (ks : R)
  (ls0 : list SoilLayer.t) (pf0 : list Fluxes.tuple)
  (ls1 : list SoilLayer.t) (pf1 : list Fluxes.tuple) (p1 : R) :
  (forall l, nth_error ls0 0 = Some l -> SoilLayer.ksat l = ks) ->
  length pf0 = n ->
  for_each (SoilWater.influx_step self) (seq 0 n) (ls0, pf0, 0)
  = Ok (ls1, pf1, p1) ->
  forall j f, nth_error pf1 j = Some f ->
    Fluxes.e f = evaporation self j /\
    (j = 0%nat ->
     Fluxes.influx f
     = py_min (SoilWater.netrain self / 1000) ks - Fluxes.e f - Fluxes.t f).
Proof.
  intros Hks Hlen H.
  destruct (influx_pass_length _ _ _ _ _ _ _ _ _ H) as [_ P1].
  pose proof (for_each_seq_post (SoilWater.influx_step self)
                (surface_inv self ks) n 0%nat (ls0, pf0, 0) (ls1, pf1, p1))
    as L.
  destruct L as (_ & L); [| | assumption |].
  - intros i [[a b] c] [[a1 b1] c1] _ (Hk & Hlt) Hs.
    apply influx_step_surface in Hs.
    destruct Hs as (cur0 & f & f' & N & Nf & -> & He & Hin).
    split; [intros Hi; lia |].
    intros j g Hj Hg. destruct (Nat.eq_dec i j) as [<- | Hne].
    + assert (i < length b)%nat by (apply nth_error_Some; congruence).
      rewrite nth_setitem_eq in Hg by assumption. injection Hg as <-.
      split; [assumption |]. intros ->.
      rewrite (Hin eq_refl). rewrite (Hk eq_refl cur0 N). reflexivity.
    + rewrite nth_setitem_neq in Hg by assumption.
      apply Hlt; [lia | assumption].
  - split; [intros _; exact Hks |]. intros j f Hj. lia.
  - intros j f Hf. apply L; [| assumption].
    assert (j < length pf1)%nat by (apply nth_error_Some; congruence).
    simpl. lia.
Qed.

(** The second loop leaves the evaporation of every layer, and the influx
    of the first one, as the first loop set them. *)
Lemma netflux_pass_surface (self : SoilWater.t) (m i0 : nat)
  (ls : list SoilLayer.t) (pf cumm : list Fluxes.tuple)
  (ls' : list SoilLayer.t) (pf' cumm' : list Fluxes.tuple) :
  for_each (SoilWater.netflux_step self) (seq i0 m) (ls, pf, cumm)
  = Ok (ls', pf', cumm') ->
  map Fluxes.e pf' = map Fluxes.e pf /\
  nth_error (map Fluxes.influx pf') 0 = nth_error (map Fluxes.influx pf) 0.
Proof.
  intros H.
  apply (for_each_seq_post (SoilWater.netflux_step self)
           (fun _ st =>
              map Fluxes.e (snd (fst st)) = map Fluxes.e pf /\
              nth_error (map Fluxes.influx (snd (fst st))) 0
              = nth_error (map Fluxes.influx pf) 0)
           m i0 (ls, pf, cumm) (ls', pf', cumm'));
    [| split; reflexivity | assumption].
  intros i [[a b] c] [[a1 b1] c1] _ [Ha Hb] Hs. cbn [fst snd] in *.
  apply netflux_step_inv in Hs.
  destruct Hs as (cur & f & raw & pf1 & f1 & cf & cf' & Hs). cbv zeta in Hs.
  destruct Hs as (_ & _ & _ & Hpf1 & Hf1 & -> & _).
  rewrite (map_setitem Fluxes.e pf1 i f1 _ Hf1) by reflexivity.
  rewrite (map_setitem Fluxes.influx pf1 i f1 _ Hf1) by reflexivity.
  destruct (Z.of_nat i <? SoilWater.numlayers self - 1)%Z.
  - destruct Hpf1 as (fnext & Hn & ->).
    rewrite (map_setitem Fluxes.e b (i + 1) fnext _ Hn) by reflexivity.
    split; [assumption |].
    rewrite <- Hb.
    assert (Hlen : (i + 1 < length b)%nat)
      by (apply nth_error_Some; congruence).
    rewrite !nth_error_map.
    rewrite nth_setitem_neq by lia. reflexivity.
  - subst pf1. now split.
Qed.

(** Property X25.  After a sub-interval the evaporation recorded for the
    first layer is the actual soil evaporation (in m), and it is 0 for
    every other layer; the influx recorded for the first layer is the net
    rain (in m), capped by the saturated conductivity of that layer, less
    this evaporation and less the transpiration share of the first
    layer. *)
Theorem surface_fluxes (self : SoilWater.t) (cumm : list Fluxes.tuple)
  (petcrop petsoil : R) (self' : SoilWater.t) (cumm' : list Fluxes.tuple)
  (l0 : SoilLayer.t) :
  shaped self ->
  SoilWater._calc_water_fluxes self cumm petcrop petsoil = Ok (self', cumm') ->
  nth_error (SoilWater.layers self) 0 = Some l0 ->
  forall j f, nth_error (SoilWater.pf self') j = Some f ->
    Fluxes.e f = evaporation self' j /\
    (j = 0%nat ->
     Fluxes.influx f
     = py_min (SoilWater.netrain self / 1000) (SoilLayer.ksat l0)
       - Fluxes.e f - Fluxes.t f).
Proof.
  intros [Hl Hp] H Hl0 j f Hf.
  apply calc_inv in H.
  destruct H as (rz & ws & ls1 & pf1 & psi1 & ls2 & pf2 & H). cbv zeta in H.
  destruct H as (_ & _ & H1 & H2 & ->).
  cbn [SoilWater.pf SoilWater.set_pf SoilWater.set_layers] in Hf.
  unfold range in H1, H2.
  set (self1 := SoilWater.set_aet _ _) in *.
  pose proof (netflux_pass_surface _ _ _ _ _ _ _ _ _ H2) as [He Hi].
  pose proof (netflux_pass_shares _ _ _ _ _ _ _ _ _ H2) as Ht.
  pose proof (map_nth_error Fluxes.e j pf2 Hf) as Me. rewrite He in Me.
  apply nth_error_map_inv in Me. destruct Me as (f1 & N1 & E1).
  assert (Hks : forall l, nth_error (SoilWater.layers self) 0 = Some l ->
                          SoilLayer.ksat l = SoilLayer.ksat l0)
    by (intros l Hx; congruence).
  pose proof (influx_pass_surface self1 _ (SoilLayer.ksat l0) _ _ _ _ _
                Hks Hp H1 j f1 N1) as [S1 S2].
  split.
  - rewrite <- E1. exact S1.
  - intros ->.
    pose proof (map_nth_error Fluxes.influx 0 pf2 Hf) as Mi.
    rewrite Hi, (map_nth_error Fluxes.influx 0 pf1 N1) in Mi.
    pose proof (map_nth_error Fluxes.t 0 pf2 Hf) as Mt.
    rewrite Ht, (map_nth_error Fluxes.t 0 pf1 N1) in Mt.
    injection Mi as Mi. injection Mt as Mt.
    rewrite <- Mi, <- Mt, <- E1. apply S2. reflexivity.
Qed.

Lemma surface_fluxes_witness :
  exists self accdepth' self' cumm' l0,
    SoilWater.__init__ ini_two_layers 0 = Ok (self, accdepth') /\
    SoilWater._calc_water_fluxes self [Fluxes.zero; Fluxes.zero] 3 2
    = Ok (self', cumm') /\
    nth_error (SoilWater.layers self) 0 = Some l0 /\
    forall j f, nth_error (SoilWater.pf self') j = Some f ->
      Fluxes.e f = evaporation self' j /\
      (j = 0%nat ->
       Fluxes.influx f
       = py_min (SoilWater.netrain self / 1000) (SoilLayer.ksat l0)
         - Fluxes.e f - Fluxes.t f).
Proof.
  destruct ini_two_layers_sound as (self & acc & E & Hs & _ & _ & Hn & _).
  destruct (sub_interval_safe self [Fluxes.zero; Fluxes.zero] 3 2 Hs) as
    (self' & cumm' & E' & _).
  { rewrite Hn. reflexivity. }
  destruct (getitem_lt (SoilWater.layers self) 0) as (l0 & E0).
  { destruct Hs as [[Hl _] Hnl _ _ _ _ _ _]. lia. }
  apply getitem_inv in E0.
  exists self, acc, self', cumm', l0.
  split; [exact E |]. split; [exact E' |]. split; [exact E0 |].
  exact (surface_fluxes self [Fluxes.zero; Fluxes.zero] 3 2 self' cumm' l0
           (sound_shaped self Hs) E' E0).
Defined.

(** ** From the input files to the results *)



(** Property X27.  With a data file whose lines do not hold four values each,
    [run] raises [TypeError] on the first day: the values of a line are
    unpacked as the four arguments of [daily_water_balance]. *)
Theorem run_wrong_columns (n : nat) (rows : list (list R))
  (self : Facade.t) (duration : Z) :
  rows <> [] -> (0 < n)%nat -> n <> 4%nat -> rectangular n rows ->
  DailyData.__init__ (lines_of rows) = Ok (Facade.dailydata self) ->
  (0 < duration)%Z ->
  Facade.run self duration = Raise TypeError.
Proof.
  intros Hne Hn H4 Hr Hdd Hd.
  destruct n as [| n]; [lia |].
  rewrite (init_rectangular n rows Hne Hr) in Hdd.
  assert (Hdd' : Facade.dailydata self
                 = DailyData.mk (Z.of_nat (S n)) (concat rows)) by congruence.
  unfold Facade.run, Facade.show_progress, range.
  destruct (Z.to_nat duration) as [| d] eqn:Ed; [lia |].
  cbn [seq for_each]. unfold Facade.day_step at 1. cbv beta iota zeta.
  rewrite Hdd'.
  destruct (lookup_rectangular n rows (Z.of_nat 0 + 1) Hne Hr)
    as (row & Hrow & E); [lia |].
  rewrite E. cbn [bind].
  assert (Hlen : length row = S n).
  { unfold rectangular in Hr. rewrite Forall_forall in Hr.
    apply Hr. eapply nth_error_In; eassumption. }
  destruct row as [| a [| b [| c [| d0 [| x row]]]]]; simpl in Hlen;
    try lia; reflexivity.
Qed.

Lemma run_wrong_columns_witness :
  exists self accdepth',
    Facade.__init__ (lines_of three_columns) ini_loam 0
    = Ok (self, accdepth') /\
    Facade.run self 10 = Raise TypeError.
Proof.
  destruct ini_loam_sound as (m & acc & E & _).
  assert (Hne : three_columns <> []) by discriminate.
  assert (Hr : rectangular 3 three_columns) by (repeat constructor).
  pose proof (init_rectangular 2 three_columns Hne Hr) as Edd.
  exists (Facade.mk (DailyData.mk (Z.of_nat 3) (concat three_columns)) m None),
    acc.
  split.
  { unfold Facade.__init__. rewrite Edd. cbn [bind]. rewrite E. reflexivity. }
  apply (run_wrong_columns 3 three_columns); try assumption; try lia.
Defined.
